(** * Clipboard image drivers (cli/src/media/clipboard-linux.ts,
      cli/src/media/clipboard-windows.ts)

    A shallow embedding of the two platform drivers.  The drivers are
    asynchronous TypeScript functions that talk to the outside world through
    a handful of collaborators: [process.env], [execFileAsync],
    [ensureClipboardDir], [generateClipboardFilename], [path.join],
    [fs.promises.writeFile/stat/unlink] and [logs.debug].  Here every
    collaborator is a field of a record [Sys]; a driver is a function from
    the world (disk contents and the history of external operations) to a
    completion and a new world. *)

From Stdlib Require Import Strings.Ascii Strings.String Strings.Byte NArith.
From stdpp Require Import base option list strings gmap.

Local Open Scope string_scope.

(** ** JavaScript strings, as far as the drivers use them

    A JavaScript string is a sequence of UTF-16 code units.  It is kept here
    as its UTF-8 encoding, one byte for each character of a [string]; a
    surrogate that stands alone is written in the same three-byte form as
    the other code units above U+07FF.  An ASCII text is its own encoding,
    and a string equals, starts with or contains an ASCII text exactly when
    its encoding does. *)

Module JsString.

Definition newline : string := String "010"%char EmptyString.
Definition dquote : string := String "034"%char EmptyString.

(** [s.startsWith(p)] *)
Fixpoint startsWith (p s : string) : bool :=
  match p, s with
  | EmptyString, _ => true
  | String a p', String b s' => if Ascii.eqb a b then startsWith p' s' else false
  | String _ _, EmptyString => false
  end.

(** [s.includes(p)] *)
Fixpoint includes (p s : string) : bool :=
  if startsWith p s then true
  else match s with
       | EmptyString => false
       | String _ s' => includes p s'
       end.

(** The bytes of an encoded character: one byte below 0x80 on its own, or
    a lead byte, which tells the length, and continuation bytes. *)
Definition code (c : ascii) : N := N_of_ascii c.

Definition isSingle (c : ascii) : bool := (code c <? 0x80)%N.
Definition isLead2 (c : ascii) : bool := ((0xC0 <=? code c) && (code c <? 0xE0))%N.
Definition isLead3 (c : ascii) : bool := ((0xE0 <=? code c) && (code c <? 0xF0))%N.
Definition isLead4 (c : ascii) : bool := (0xF0 <=? code c)%N.
Definition isCont (c : ascii) : bool := ((0x80 <=? code c) && (code c <? 0xC0))%N.

(** The code point of a character of two and of three bytes. *)
Definition codePoint2 (a b : ascii) : N :=
  ((code a - 0xC0) * 0x40 + (code b - 0x80))%N.
Definition codePoint3 (a b c : ascii) : N :=
  ((code a - 0xE0) * 0x1000 + (code b - 0x80) * 0x40 + (code c - 0x80))%N.

(** The white space and the line terminators of ECMAScript, which are
    what [trim] removes: TAB, LF, VT, FF, CR, SPACE, NO-BREAK SPACE,
    U+1680, U+2000 to U+200A, LINE SEPARATOR, PARAGRAPH SEPARATOR, U+202F,
    U+205F, U+3000 and the byte order mark U+FEFF.  None of them lies
    above U+FFFF. *)
Definition isWhiteSpace (cp : N) : bool :=
  ((0x9 <=? cp) && (cp <=? 0xD) || (cp =? 0x20) || (cp =? 0xA0) || (cp =? 0x1680)
   || (0x2000 <=? cp) && (cp <=? 0x200A) || (cp =? 0x2028) || (cp =? 0x2029)
   || (cp =? 0x202F) || (cp =? 0x205F) || (cp =? 0x3000) || (cp =? 0xFEFF))%N.

Definition isSpace (a : ascii) : bool := isSingle a && isWhiteSpace (code a).
Definition isSpace2 (a b : ascii) : bool :=
  isLead2 a && isCont b && isWhiteSpace (codePoint2 a b).
Definition isSpace3 (a b c : ascii) : bool :=
  isLead3 a && isCont b && isCont c && isWhiteSpace (codePoint3 a b c).

(** [s.trimStart()] *)
Fixpoint trimStart (s : string) : string :=
  match s with
  | EmptyString => EmptyString
  | String a r1 =>
      if isSpace a then trimStart r1
      else match r1 with
           | EmptyString => s
           | String b r2 =>
               if isSpace2 a b then trimStart r2
               else match r2 with
                    | EmptyString => s
                    | String c r3 => if isSpace3 a b c then trimStart r3 else s
                    end
           end
  end.

(** Nothing but white space. *)
Definition isBlank (s : string) : bool :=
  match trimStart s with
  | EmptyString => true
  | String _ _ => false
  end.

(** [s.trimEnd()]: the string is cut at the first place after which there
    is nothing but white space. *)
Fixpoint trimEnd (s : string) : string :=
  match s with
  | EmptyString => EmptyString
  | String c s' => if isBlank s then EmptyString else String c (trimEnd s')
  end.

(** [s.trim()] *)
Definition trim (s : string) : string := trimEnd (trimStart s).

Definition lowerChar (c : ascii) : ascii :=
  let n := nat_of_ascii c in
  if (65 <=? n)%nat && (n <=? 90)%nat then ascii_of_nat (n + 32) else c.

(** [s.toLowerCase()], for the letters A to Z.  The other letters are left
    as they are: the drivers only compare the result with the ASCII text
    true, and no letter outside A to Z has a lower-case form among the
    letters of that text, so the comparison comes out as in JavaScript. *)
Fixpoint toLowerCase (s : string) : string :=
  match s with
  | EmptyString => EmptyString
  | String c s' => String (lowerChar c) (toLowerCase s')
  end.

(** The second half of the surrogate pair of a character of four bytes,
    of which [c] and [d] are the last two. *)
Definition lowSurrogate (c d : ascii) : string :=
  String (ascii_of_N 0xED)
    (String (ascii_of_N (0xB0 + code c mod 0x10)) (String d EmptyString)).

(** [s.substring(n)] counts code units: a character of one, two or three
    bytes is one unit, a character of four bytes is a pair of surrogates,
    and cutting between the two leaves the second one. *)
Fixpoint substring (n : nat) (s : string) {struct s} : string :=
  match n, s with
  | O, _ => s
  | S _, EmptyString => EmptyString
  | S n', String a r1 =>
      if isLead2 a then
        match r1 with
        | String _ r2 => substring n' r2
        | _ => EmptyString
        end
      else if isLead3 a then
        match r1 with
        | String _ (String _ r3) => substring n' r3
        | _ => EmptyString
        end
      else if isLead4 a then
        match r1 with
        | String _ (String c (String d r4)) =>
            match n' with
            | O => lowSurrogate c d ++ r4
            | S n'' => substring n'' r4
            end
        | _ => EmptyString
        end
      else substring n' r1
  end.

(** [s.replace(/\\/g, "\\\\")]: every backslash is doubled. *)
Fixpoint escapeBackslashes (s : string) : string :=
  match s with
  | EmptyString => EmptyString
  | String c s' =>
      if Ascii.eqb c "\"%char then String c (String c (escapeBackslashes s'))
      else String c (escapeBackslashes s')
  end.

(** A template literal written over several lines. *)
Fixpoint lines (l : list string) : string :=
  match l with
  | [] => EmptyString
  | x :: l' => x ++ newline ++ lines l'
  end.

End JsString.

(** ** Decoding the standard output of a process

    Without an [encoding] option [execFile] hands the standard output over
    as a string, decoded from UTF-8: a well-formed sequence stands for its
    character, and every ill-formed part of the input, up to the byte that
    cannot continue it, becomes U+FFFD.  A byte order mark is a character
    like any other.  With strings kept in their UTF-8 encoding,
    well-formed input is left as it is. *)

Module Utf8.

Local Open Scope list_scope.

(** U+FFFD REPLACEMENT CHARACTER *)
Definition replacement : list byte := [xef; xbf; xbd].

(** What a byte opens: a character of its own, or a sequence with so many
    bytes to follow, the first of them within the given bounds. *)
Inductive Lead : Type :=
| Single
| Multi (more : nat) (lo hi : N)
| Invalid.

Definition lead (b : byte) : Lead :=
  let n := Byte.to_N b in
  (if n <=? 0x7F then Single
   else if (0xC2 <=? n) && (n <=? 0xDF) then Multi 1 0x80 0xBF
   else if n =? 0xE0 then Multi 2 0xA0 0xBF
   else if n =? 0xED then Multi 2 0x80 0x9F
   else if (0xE1 <=? n) && (n <=? 0xEF) then Multi 2 0x80 0xBF
   else if n =? 0xF0 then Multi 3 0x90 0xBF
   else if n =? 0xF4 then Multi 3 0x80 0x8F
   else if (0xF1 <=? n) && (n <=? 0xF3) then Multi 3 0x80 0xBF
   else Invalid)%N.

Definition within (lo hi : N) (b : byte) : bool :=
  ((lo <=? Byte.to_N b) && (Byte.to_N b <=? hi))%N.

(** The decoder: [seen] is the sequence under way, [more] the number of
    bytes it still needs and [lo], [hi] the bounds of the next one.  A
    byte that cannot continue the sequence ends it with U+FFFD and is
    read again as the start of the next character. *)
Fixpoint scan (seen : list byte) (more : nat) (lo hi : N) (input : list byte)
  : list byte :=
  match input with
  | [] => match more with O => [] | S _ => replacement end
  | b :: rest =>
      let fresh :=
        match lead b with
        | Single => b :: scan [] 0 0 0 rest
        | Multi m l h => scan [b] m l h rest
        | Invalid => replacement ++ scan [] 0 0 0 rest
        end in
      match more with
      | O => fresh
      | S m =>
          if within lo hi b then
            match m with
            | O => seen ++ b :: scan [] 0 0 0 rest
            | S _ => scan (seen ++ [b]) m 0x80 0xBF rest
            end
          else replacement ++ fresh
      end
  end.

(** [buffer.toString("utf8")] *)
Definition decode (raw : list byte) : string :=
  string_of_list_byte (scan [] 0 0 0 raw).

End Utf8.

(** ** The world outside the drivers *)

(** A promise settles with a value or is rejected; what is thrown is kept as
    the text [error instanceof Error ? error.message : String(error)]. *)
Inductive Outcome (A : Type) : Type :=
| Fulfilled (a : A)
| Rejected (message : string).
Arguments Fulfilled {A} a.
Arguments Rejected {A} message.

(** The [options] argument of [execFileAsync]. *)
Record ExecOpts : Type := {
  encoding : option string;
  maxBuffer : option N
}.

#[global] Instance ExecOpts_eq_dec : EqDecision ExecOpts.
Proof. solve_decision. Defined.

Definition noOpts : ExecOpts := {| encoding := None; maxBuffer := None |}.

(** One entry for each operation a driver performs on a collaborator, with
    what the collaborator answered. *)
Inductive Event : Type :=
| EvExec (file : string) (args : list string) (opts : ExecOpts)
         (res : Outcome (list byte))
| EvEnsureDir (res : Outcome string)
| EvGenName (format : string) (res : Outcome string)
| EvWriteFile (path : string) (data : list byte) (res : Outcome unit)
| EvStat (path : string) (res : Outcome nat)
| EvUnlink (path : string) (res : Outcome unit)
| EvDebug (message : string) (error : string).

Record World : Type := {
  disk : gmap string (list byte);
  history : list Event
}.

Definition record (e : Event) (d : gmap string (list byte)) (w : World) : World :=
  {| disk := d; history := history w ++ [e] |}.

(** The collaborators.  [execFileAsync], [ensureClipboardDir] and
    [generateClipboardFilename] are imported from clipboard-shared.js, whose
    source is not part of this development: what they answer is a parameter.
    The same holds for [process.env] and [path.join]; for [fs.promises] the
    parameters say when an operation fails, and the disk is a finite map
    from paths to contents.  Each collaborator may look at the whole world,
    so its answers may change from one call to the next.
    - [sys_execFile] is the process runner: it yields the raw bytes of the
      standard output or fails, and the process may change the disk;
    - [sys_writeFault], [sys_statFault] and [sys_unlinkFault] say when a file
      operation fails for a reason of the platform (permissions, a full
      disk, an I/O error) and with which message; a failed write also says
      what it leaves at the path. *)
Record Sys : Type := {
  sys_env : string → option string;
  sys_execFile : string → list string → ExecOpts → World →
                 Outcome (list byte) * gmap string (list byte);
  sys_ensureClipboardDir : World → Outcome string;
  sys_generateClipboardFilename : string → World → Outcome string;
  sys_pathJoin : string → string → string;
  sys_writeFault : string → list byte → World → option (string * option (list byte));
  sys_statFault : string → World → option string;
  sys_unlinkFault : string → World → option string
}.

(** ** Completions: the body of an async function *)

(** A statement completes normally, returns from the enclosing function, or
    throws. *)
Inductive Completion (R A : Type) : Type :=
| Normal (a : A)
| Return (r : R)
| Throw (message : string).
Arguments Normal {R A} a.
Arguments Return {R A} r.
Arguments Throw {R A} message.

Definition Cmd (R A : Type) : Type := World → Completion R A * World.

(** An async function: called on a world, its promise settles. *)
Definition Fn (T : Type) : Type := World → Outcome T * World.

Definition ret {R A} (a : A) : Cmd R A := λ w, (Normal a, w).

Definition cmd_bind {R A B} (m : Cmd R A) (f : A → Cmd R B) : Cmd R B :=
  λ w, match m w with
       | (Normal a, w') => f a w'
       | (Return r, w') => (Return r, w')
       | (Throw e, w') => (Throw e, w')
       end.

Declare Scope cmd_scope.
Delimit Scope cmd_scope with cmd.
Bind Scope cmd_scope with Cmd.

Notation "x <- m ;; k" := (cmd_bind m (λ x, k))
  (at level 100, m at next level, k at level 200, right associativity,
   format "'[v' x  <-  m  ;;  '/' k ']'") : cmd_scope.
Local Open Scope cmd_scope.

(** [return r] *)
Definition return_ {R A} (r : R) : Cmd R A := λ w, (Return r, w).

(** [try { body } catch (error) { handler }] *)
Definition try_catch {R A} (body : Cmd R A) (handler : string → Cmd R A) : Cmd R A :=
  λ w, match body w with
       | (Throw e, w') => handler e w'
       | other => other
       end.

(** [await f(...)] *)
Definition await {R T} (f : Fn T) : Cmd R T :=
  λ w, match f w with
       | (Fulfilled t, w') => (Normal t, w')
       | (Rejected e, w') => (Throw e, w')
       end.

(** [async function f() { body }] *)
Definition async {T} (body : Cmd T T) : Fn T :=
  λ w, match body w with
       | (Normal t, w') => (Fulfilled t, w')
       | (Return t, w') => (Fulfilled t, w')
       | (Throw e, w') => (Rejected e, w')
       end.

(** ** The collaborators as operations on the world *)

Section Collaborators.

Variable sys : Sys.

(** [execFileAsync(file, args, options)] with its raw standard output. *)
Definition execFileAsync (file : string) (args : list string) (opts : ExecOpts)
  : Fn (list byte) :=
  λ w, let '(r, d) := sys_execFile sys file args opts w in
       (r, record (EvExec file args opts r) d w).

(** Without an encoding option the standard output is a string, decoded
    from UTF-8. *)
Definition execFileText (file : string) (args : list string) : Fn string :=
  λ w, match execFileAsync file args noOpts w with
       | (Fulfilled out, w') => (Fulfilled (Utf8.decode out), w')
       | (Rejected e, w') => (Rejected e, w')
       end.

Definition ensureClipboardDir : Fn string :=
  λ w, let r := sys_ensureClipboardDir sys w in
       (r, record (EvEnsureDir r) (disk w) w).

(** [generateClipboardFilename] is synchronous; a value it throws surfaces
    where it is called. *)
Definition generateClipboardFilename (format : string) : Fn string :=
  λ w, let r := sys_generateClipboardFilename sys format w in
       (r, record (EvGenName format r) (disk w) w).

(** [fs.promises.writeFile(path, data)]: the file holds [data] afterwards;
    when the platform fails the write, the path holds what the fault
    leaves there. *)
Definition writeFile (path : string) (data : list byte) : Fn unit :=
  λ w, match sys_writeFault sys path data w with
       | Some (msg, residue) =>
           (Rejected msg,
            record (EvWriteFile path data (Rejected msg))
                   (match residue with
                    | Some l => <[path:=l]> (disk w)
                    | None => delete path (disk w)
                    end) w)
       | None =>
           (Fulfilled tt,
            record (EvWriteFile path data (Fulfilled tt)) (<[path:=data]> (disk w)) w)
       end.

Definition enoent (call path : string) : string :=
  "ENOENT: no such file or directory, " ++ call ++ " '" ++ path ++ "'".

(** [(await fs.promises.stat(path)).size] *)
Definition stat (path : string) : Fn nat :=
  λ w, let r := match sys_statFault sys path w with
                | Some msg => Rejected msg
                | None => match disk w !! path with
                          | Some content => Fulfilled (length content)
                          | None => Rejected (enoent "stat" path)
                          end
                end in
       (r, record (EvStat path r) (disk w) w).

(** [fs.promises.unlink(path)] *)
Definition unlink (path : string) : Fn unit :=
  λ w, match sys_unlinkFault sys path w with
       | Some msg => (Rejected msg, record (EvUnlink path (Rejected msg)) (disk w) w)
       | None =>
           match disk w !! path with
           | Some _ =>
               (Fulfilled tt, record (EvUnlink path (Fulfilled tt)) (delete path (disk w)) w)
           | None =>
               let msg := enoent "unlink" path in
               (Rejected msg, record (EvUnlink path (Rejected msg)) (disk w) w)
           end
       end.

(** [logs.debug(message, "clipboard", { error })] *)
Definition debug {R} (message error : string) : Cmd R unit :=
  λ w, (Normal tt, record (EvDebug message error) (disk w) w).

End Collaborators.

(** The result of a save: [{ success: true, filePath }] or
    [{ success: false, error }]. *)
Inductive SaveClipboardResult : Type :=
| Success (filePath : string)
| Failure (error : string).

Definition msg_no_image : string := "No image found in clipboard.".
Definition msg_no_tool : string :=
  "No clipboard tool available. Please install xclip (sudo apt install xclip) or wl-clipboard for Wayland.".
Definition msg_empty : string := "Clipboard image is empty.".
Definition msg_write_failed : string := "Failed to write image data to file.".
Definition msg_not_created : string := "Image file was not created.".

(** ** clipboard-linux.ts *)

Module Linux.

Import JsString.

Section Driver.

Variable sys : Sys.

Definition hasXclip : Fn bool :=
  async (try_catch (_ <- await (execFileText sys "which" ["xclip"]) ;; return_ true)
                   (λ _, return_ false)).

Definition hasXsel : Fn bool :=
  async (try_catch (_ <- await (execFileText sys "which" ["xsel"]) ;; return_ true)
                   (λ _, return_ false)).

Definition hasWlPaste : Fn bool :=
  async (try_catch (_ <- await (execFileText sys "which" ["wl-paste"]) ;; return_ true)
                   (λ _, return_ false)).

(** [!!process.env["WAYLAND_DISPLAY"]] *)
Definition isWayland : bool :=
  match sys_env sys "WAYLAND_DISPLAY" with
  | Some v => negb (String.eqb v EmptyString)
  | None => false
  end.

Definition listsImage (stdout : string) : bool :=
  includes "image/png" stdout || includes "image/jpeg" stdout
  || includes "image/gif" stdout.

Definition xclipTargets : list string := ["-selection"; "clipboard"; "-t"; "TARGETS"; "-o"].

Definition xselProbeOpts : ExecOpts :=
  {| encoding := Some "buffer"; maxBuffer := Some 1024%N |}.

(** [a && (await b())] and [a || (await b())]: the right operand runs
    only when the left one does not decide. *)
Definition andAwait {R} (a : bool) (b : Fn bool) : Cmd R bool :=
  if a then await b else ret false.
Definition orAwait {R} (a : bool) (b : Fn bool) : Cmd R bool :=
  if a then ret true else await b.

Definition when_ {R} (c : bool) (body : Cmd R unit) : Cmd R unit :=
  if c then body else ret tt.

Definition hasClipboardImageLinux : Fn bool :=
  async (
    c <- andAwait isWayland hasWlPaste ;;
    _ <- when_ c
          (try_catch
             (stdout <- await (execFileText sys "wl-paste" ["--list-types"]) ;;
              return_ (listsImage stdout))
             (λ error, debug "wl-paste --list-types failed" error));;
    c <- await hasXclip ;;
    _ <- when_ c
          (try_catch
             (stdout <- await (execFileText sys "xclip" xclipTargets) ;;
              return_ (listsImage stdout))
             (λ error, debug "xclip TARGETS check failed" error));;
    c <- await hasXsel ;;
    _ <- when_ c
          (try_catch
             (_ <- await (execFileAsync sys "xsel" ["--clipboard"; "--output"] xselProbeOpts) ;;
              return_ false)
             (λ _, ret tt));;
    return_ false).

(** The locals [imageData] and [format] of [saveClipboardImageLinux]. *)
Record Locals : Type := {
  imageData : option (list byte);
  format : string
}.

(** [!imageData]: a Buffer is an object, so only [null] is falsy. *)
Definition isNull (d : option (list byte)) : bool :=
  match d with
  | None => true
  | Some _ => false
  end.

Definition fetchOpts : ExecOpts :=
  {| encoding := Some "buffer"; maxBuffer := Some (50 * 1024 * 1024)%N |}.

(** The chain [if (types.includes("image/png")) ... else if ... else
    return { success: false, ... }], the same text in the wl-paste and
    in the xclip block; it yields [mimeType] and [format]. *)
Definition chooseType (types : string) : Cmd SaveClipboardResult (string * string) :=
  if includes "image/png" types then ret ("image/png", "png")
  else if includes "image/jpeg" types then ret ("image/jpeg", "jpeg")
  else if includes "image/gif" types then ret ("image/gif", "gif")
  else return_ (Failure msg_no_image).

(** The body of [if (isWayland() && (await hasWlPaste())) { try ... }].
    The source has one [try]; it is written here as two with the same
    handler, split after the assignment to [format], so that the handler
    leaves [format] as the body assigned it. *)
Definition tryWlPaste (st : Locals) : Cmd SaveClipboardResult Locals :=
  try_catch
    (types <- await (execFileText sys "wl-paste" ["--list-types"]) ;;
     ty <- chooseType types ;;
     let '(mimeType, fmt) := ty in
     let st := {| imageData := imageData st; format := fmt |} in
     try_catch
       (stdout <- await (execFileAsync sys "wl-paste" ["--type"; mimeType] fetchOpts) ;;
        ret {| imageData := Some stdout; format := fmt |})
       (λ error, _ <- debug "wl-paste failed, trying xclip" error ;; ret st))
    (λ error, _ <- debug "wl-paste failed, trying xclip" error ;; ret st).

(** The body of [if (!imageData && (await hasXclip())) { try ... }]. *)
Definition tryXclip (st : Locals) : Cmd SaveClipboardResult Locals :=
  try_catch
    (targets <- await (execFileText sys "xclip" xclipTargets) ;;
     ty <- chooseType targets ;;
     let '(mimeType, fmt) := ty in
     let st := {| imageData := imageData st; format := fmt |} in
     try_catch
       (stdout <- await (execFileAsync sys "xclip"
                          ["-selection"; "clipboard"; "-t"; mimeType; "-o"] fetchOpts);;
        ret {| imageData := Some stdout; format := fmt |})
       (λ error, _ <- debug "xclip failed, trying xsel" error ;; ret st))
    (λ error, _ <- debug "xclip failed, trying xsel" error ;; ret st).

(** [if (isWayland() && (await hasWlPaste())) { try ... }]
    (lines 118-152). *)
Definition wlPasteStep (st : Locals) : Cmd SaveClipboardResult Locals :=
  c <- andAwait isWayland hasWlPaste ;;
  if c then tryWlPaste st else ret st.

(** [if (!imageData && (await hasXclip())) { try ... }]
    (lines 154-188). *)
Definition xclipStep (st : Locals) : Cmd SaveClipboardResult Locals :=
  c <- andAwait (isNull (imageData st)) hasXclip ;;
  if c then tryXclip st else ret st.

(** The body of [if (!imageData) { ... }] (lines 191-204). *)
Definition reportNoImageData {A} : Cmd SaveClipboardResult A :=
  a <- await hasWlPaste ;;
  b <- orAwait a hasXclip ;;
  hasAnyTool <- orAwait b hasXsel ;;
  if negb hasAnyTool then return_ (Failure msg_no_tool)
  else return_ (Failure msg_no_image).

(** The rest of the function once [imageData] is a Buffer
    (lines 206-246). *)
Definition storeImage {A} (clipboardDir fmt : string) (data : list byte)
  : Cmd SaveClipboardResult A :=
  if (length data =? 0)%nat then return_ (Failure msg_empty)
  else
    filename <- await (generateClipboardFilename sys fmt) ;;
    let filePath := sys_pathJoin sys clipboardDir filename in
    try_catch
      (_ <- await (writeFile sys filePath data) ;;
       size <- await (stat sys filePath) ;;
       if (size =? 0)%nat then
         _ <- await (unlink sys filePath) ;;
         return_ (Failure msg_write_failed)
       else return_ (Success filePath))
      (λ error,
         _ <- try_catch (await (unlink sys filePath)) (λ _, ret tt) ;;
         return_ (Failure error)).

Definition saveClipboardImageLinux : Fn SaveClipboardResult :=
  async (
    clipboardDir <- await (ensureClipboardDir sys) ;;
    st <- wlPasteStep {| imageData := None; format := "png" |} ;;
    st <- xclipStep st ;;
    match imageData st with
    | None => reportNoImageData
    | Some data => storeImage clipboardDir (format st) data
    end).

End Driver.

End Linux.

(** ** clipboard-windows.ts *)

Module Windows.

Import JsString.

Section Driver.

Variable sys : Sys.

Definition runPowerShell (script : string) : Fn string :=
  async (
    stdout <- await (execFileText sys "powershell.exe"
                      ["-NoProfile"; "-NonInteractive"; "-Command"; script]);;
    return_ (trim stdout)).

Definition containsImageScript : string :=
  newline ++
  lines [ "Add-Type -AssemblyName System.Windows.Forms";
          "[System.Windows.Forms.Clipboard]::ContainsImage()" ].

Definition hasClipboardImageWindows : Fn bool :=
  async (
    try_catch
      (result <- await (runPowerShell containsImageScript) ;;
       return_ (String.eqb (toLowerCase result) "true"))
      (λ error,
         _ <- debug "Windows clipboard check failed" error ;;
         return_ false)).

Definition saveImageScript (escapedPath : string) : string :=
  newline ++
  lines [ "Add-Type -AssemblyName System.Windows.Forms";
          "Add-Type -AssemblyName System.Drawing";
          EmptyString;
          "$img = [System.Windows.Forms.Clipboard]::GetImage()";
          "if ($img -eq $null) {";
          "    Write-Output " ++ dquote ++ "NO_IMAGE" ++ dquote;
          "    exit 0";
          "}";
          EmptyString;
          "try {";
          "    $img.Save('" ++ escapedPath ++ "', [System.Drawing.Imaging.ImageFormat]::Png)";
          "    Write-Output " ++ dquote ++ "SUCCESS" ++ dquote;
          "} catch {";
          "    Write-Output " ++ dquote ++ "ERROR: $_" ++ dquote;
          "} finally {";
          "    $img.Dispose()";
          "}" ].

Definition saveClipboardImageWindows : Fn SaveClipboardResult :=
  async (
    clipboardDir <- await (ensureClipboardDir sys) ;;
    filename <- await (generateClipboardFilename sys "png") ;;
    let filePath := sys_pathJoin sys clipboardDir filename in
    let escapedPath := escapeBackslashes filePath in
    try_catch
      (result <- await (runPowerShell (saveImageScript escapedPath)) ;;
       if String.eqb result "NO_IMAGE" then return_ (Failure msg_no_image)
       else if startsWith "ERROR:" result then
         return_ (Failure (trim (substring 7 result)))
       else
         try_catch
           (size <- await (stat sys filePath) ;;
            if (size =? 0)%nat then
              _ <- await (unlink sys filePath) ;;
              return_ (Failure msg_write_failed)
            else return_ (Success filePath))
           (λ _, return_ (Failure msg_not_created)))
      (λ error,
         _ <- try_catch (await (unlink sys filePath)) (λ _, ret tt) ;;
         _ <- debug "Windows clipboard save failed" error ;;
         return_ (Failure error))).

End Driver.

End Windows.

Local Open Scope list_scope.

(** ** Observations on a run *)

(** What a call added to the history. *)
Definition events_since (w w' : World) : list Event :=
  drop (length (history w)) (history w').

(** The event runs the executable [tool]. *)
Definition invokes (tool : string) (e : Event) : bool :=
  match e with
  | EvExec file _ _ _ => String.eqb file tool
  | _ => false
  end.

(** The event is the availability probe [which tool]. *)
Definition probes (tool : string) (e : Event) : bool :=
  match e with
  | EvExec file args _ _ => String.eqb file "which" && bool_decide (args = [tool])
  | _ => false
  end.

(** The two type enumerations: [wl-paste --list-types] and
    [xclip -selection clipboard -t TARGETS -o]. *)
Definition isTypeListing (file : string) (args : list string) : bool :=
  (String.eqb file "wl-paste" && bool_decide (args = ["--list-types"]))
  || (String.eqb file "xclip" && bool_decide (args = Linux.xclipTargets)).

(** The arguments with which a backend is asked for the bytes of one type. *)
Definition fetchArgs (file mimeType : string) : list string :=
  if String.eqb file "wl-paste" then ["--type"; mimeType]
  else ["-selection"; "clipboard"; "-t"; mimeType; "-o"].

(** A type enumeration that succeeded and lists none of the three image
    types. *)
Definition listsNoImage (e : Event) : bool :=
  match e with
  | EvExec file args _ (Fulfilled out) =>
      isTypeListing file args && negb (Linux.listsImage (Utf8.decode out))
  | _ => false
  end.

(** A byte fetch (the only calls made with [fetchOpts]) that succeeded with
    no bytes. *)
Definition fetchedNothing (e : Event) : bool :=
  match e with
  | EvExec _ _ opts (Fulfilled out) =>
      bool_decide (opts = Linux.fetchOpts) && (length out =? 0)%nat
  | _ => false
  end.

(** A byte fetch (a call made with [fetchOpts]) that succeeded. *)
Definition fetched (e : Event) : bool :=
  match e with
  | EvExec _ _ opts (Fulfilled _) => bool_decide (opts = Linux.fetchOpts)
  | _ => false
  end.

(** What [runPowerShell] makes of the standard output of a script. *)
Definition scriptResult (out : list byte) : string :=
  JsString.trim (Utf8.decode out).

(** The PowerShell script said that there is no image. *)
Definition saidNoImage (e : Event) : bool :=
  match e with
  | EvExec _ _ _ (Fulfilled out) => String.eqb (scriptResult out) "NO_IMAGE"
  | _ => false
  end.


(** The platform never fails the deletion, or the inspection, of a file. *)
Definition unlinkNeverFaults (sys : Sys) : Prop :=
  ∀ path w, sys_unlinkFault sys path w = None.

(** [Q] holds at every event of a run, seen with the events before it and
    the events after it. *)
Fixpoint at_every_event (Q : list Event → Event → list Event → Prop)
    (pre evs : list Event) : Prop :=
  match evs with
  | [] => True
  | e :: post => Q pre e post ∧ at_every_event Q (pre ++ [e]) post
  end.

(** An event that satisfies [p] is the last one of the run, and then [G]
    holds. *)
Definition stopsAt (p : Event → bool) (G : Prop) (evs : list Event) : Prop :=
  at_every_event (λ _ e post, p e = true → G ∧ post = []) [] evs.

(** The output path of a run: [path.join(clipboardDir, filename)], once both
    collaborators have answered. *)
Fixpoint clipboardDirOf (evs : list Event) : option string :=
  match evs with
  | [] => None
  | EvEnsureDir (Fulfilled dir) :: _ => Some dir
  | _ :: rest => clipboardDirOf rest
  end.

Fixpoint filenameOf (evs : list Event) : option string :=
  match evs with
  | [] => None
  | EvGenName _ (Fulfilled name) :: _ => Some name
  | _ :: rest => filenameOf rest
  end.

Definition generatedPath (sys : Sys) (evs : list Event) : option string :=
  match clipboardDirOf evs, filenameOf evs with
  | Some dir, Some name => Some (sys_pathJoin sys dir name)
  | _, _ => None
  end.

(** ** The specification's wording, for comparison with the code *)

(** "selects the first supported format in a fixed priority order: png, then
    jpeg, then gif": each format with its MIME string. *)
Definition formatPriority : list (string * string) :=
  [("image/png", "png"); ("image/jpeg", "jpeg"); ("image/gif", "gif")].

Definition firstSupported (types : string) : option (string * string) :=
  find (λ mf, JsString.includes (fst mf) types) formatPriority.

(** The event is a type enumeration by [file] that succeeded with [types]. *)
Definition listed (e : Event) (file types : string) : Prop :=
  ∃ args opts out,
    e = EvExec file args opts (Fulfilled out)
    ∧ isTypeListing file args = true
    ∧ types = Utf8.decode out.

(** After a type enumeration that lists a supported type, the next operation
    asks the same backend for the first supported type; bytes that arrive
    are kept in [imageData], with the format of that type. *)
Definition negotiates (c : Completion SaveClipboardResult Linux.Locals)
    (e : Event) (post : list Event) : Prop :=
  ∀ file types mime fmt,
    listed e file types → firstSupported types = Some (mime, fmt) →
    ∃ res post',
      post = EvExec file (fetchArgs file mime) Linux.fetchOpts res :: post'
      ∧ ∀ data, res = Fulfilled data →
          c = Normal {| Linux.imageData := Some data; Linux.format := fmt |}
          ∧ post' = [].

(** The same for a whole run: bytes that arrive, unless there are none, are
    given a file name of the format of that type. *)
Definition negotiated (e : Event) (post : list Event) : Prop :=
  ∀ file types mime fmt,
    listed e file types → firstSupported types = Some (mime, fmt) →
    ∃ res post',
      post = EvExec file (fetchArgs file mime) Linux.fetchOpts res :: post'
      ∧ ∀ data, res = Fulfilled data → data ≠ [] →
          ∃ name post'', post' = EvGenName fmt name :: post''.

(** A Buffer without bytes in [imageData]. *)
Definition keepsNothing (c : Completion SaveClipboardResult Linux.Locals) : Prop :=
  ∃ fmt, c = Normal {| Linux.imageData := Some []; Linux.format := fmt |}.

(** "the content of the file at the returned path is exactly the byte
    sequence returned by the winning backend's fetch": a call of the process
    runner in the run returned the bytes that the file holds. *)
Definition holdsFetchedBytes (evs : list Event) (d : gmap string (list byte))
    (p : string) : Prop :=
  ∃ file args opts data,
    EvExec file args opts (Fulfilled data) ∈ evs ∧ d !! p = Some data.

(** "compared case-insensitively": same length, and the same characters up
    to the case of the letters A to Z. *)
Definition sameLetter (a b : ascii) : bool :=
  Ascii.eqb (JsString.lowerChar a) (JsString.lowerChar b).

Fixpoint equalsIgnoringCase (s t : string) : bool :=
  match s, t with
  | EmptyString, EmptyString => true
  | String a s', String b t' => sameLetter a b && equalsIgnoringCase s' t'
  | _, _ => false
  end.

(** "same external-command results": what the process runner answers does
    not depend on when it is asked. *)
Definition fixedEnvironment (sys : Sys) : Prop :=
  ∀ file args opts w1 w2,
    fst (sys_execFile sys file args opts w1) = fst (sys_execFile sys file args opts w2).

(** ** The shape of a run of [saveClipboardImageLinux] *)

(** What the promise of an async function settles to. *)
Definition settled {T} (c : Completion T T) : Outcome T :=
  match c with
  | Normal t => Fulfilled t
  | Return t => Fulfilled t
  | Throw e => Rejected e
  end.

(** A block left the function: it returned or threw. *)
Definition ended {T A} (c : Completion T A) (r : Outcome T) : Prop :=
  match c with
  | Normal _ => False
  | Return t => r = Fulfilled t
  | Throw e => r = Rejected e
  end.

Definition initialLocals : Linux.Locals :=
  {| Linux.imageData := None; Linux.format := "png" |}.

(** A run stops at the directory, in the wl-paste block, in the xclip block,
    or goes through the last part of the function. *)
Inductive LinuxSaveRun (sys : Sys) (w : World)
    (r : Outcome SaveClipboardResult) (w' : World) : Prop :=
| stopped_at_dir e :
    r = Rejected e →
    events_since w w' = [EvEnsureDir (Rejected e)] →
    LinuxSaveRun sys w r w'
| stopped_at_wl dir w0 c1 :
    history w0 = history w ++ [EvEnsureDir (Fulfilled dir)] →
    Linux.wlPasteStep sys initialLocals w0 = (c1, w') →
    ended c1 r →
    events_since w w' = EvEnsureDir (Fulfilled dir) :: events_since w0 w' →
    LinuxSaveRun sys w r w'
| stopped_at_xclip dir w0 st1 w1 c2 :
    history w0 = history w ++ [EvEnsureDir (Fulfilled dir)] →
    Linux.wlPasteStep sys initialLocals w0 = (Normal st1, w1) →
    Linux.xclipStep sys st1 w1 = (c2, w') →
    ended c2 r →
    events_since w w' =
      EvEnsureDir (Fulfilled dir) :: events_since w0 w1 ++ events_since w1 w' →
    LinuxSaveRun sys w r w'
| finished dir w0 st1 w1 st2 w2 c3 :
    history w0 = history w ++ [EvEnsureDir (Fulfilled dir)] →
    Linux.wlPasteStep sys initialLocals w0 = (Normal st1, w1) →
    Linux.xclipStep sys st1 w1 = (Normal st2, w2) →
    match Linux.imageData st2 with
    | None => Linux.reportNoImageData sys
    | Some data => Linux.storeImage sys dir (Linux.format st2) data
    end w2 = (c3, w') →
    r = settled c3 →
    events_since w w' =
      EvEnsureDir (Fulfilled dir)
        :: events_since w0 w1 ++ events_since w1 w2 ++ events_since w2 w' →
    LinuxSaveRun sys w r w'.

(** The command line of [runPowerShell]. *)
Definition powershellArgs (script : string) : list string :=
  ["-NoProfile"; "-NonInteractive"; "-Command"; script].

(** The command line with which the Windows save runs PowerShell. *)
Definition saveCommand (sys : Sys) (dir name : string) : list string :=
  powershellArgs
    (Windows.saveImageScript (JsString.escapeBackslashes (sys_pathJoin sys dir name))).


(** ** Sample systems *)

Module Samples.

Definition bytes (s : string) : list byte := list_byte_of_string s.

Definition emptyWorld : World := {| disk := ∅; history := [] |}.

(** The PNG magic number, 89 50 4E 47. *)
Definition pngMagic : list byte := [x89; x50; x4e; x47]%byte.

Definition called (file : string) (args : list string)
    (f : string) (a : list string) : bool :=
  bool_decide (file = f ∧ args = a).

Definition waylandSession (name : string) : option string :=
  if String.eqb name "WAYLAND_DISPLAY" then Some "wayland-0" else None.

Definition x11Session (name : string) : option string := None.

(** A well-behaved Linux machine: the process runner answers by command
    line alone and leaves the disk alone, the directory and the file name
    are there, no file operation fails. *)
Definition desktop (env : string → option string)
    (answer : string → list string → Outcome (list byte)) : Sys :=
  {| sys_env := env;
     sys_execFile := λ file args _ w, (answer file args, disk w);
     sys_ensureClipboardDir := λ _, Fulfilled "/tmp/kilocode-clipboard";
     sys_generateClipboardFilename :=
       λ fmt _, Fulfilled (String.append "clipboard-1700000000000-ab12cd." fmt);
     sys_pathJoin := λ dir name, String.append dir (String.append "/" name);
     sys_writeFault := λ _ _ _, None;
     sys_statFault := λ _ _, None;
     sys_unlinkFault := λ _ _, None |}.

Definition notFound (file : string) : Outcome (list byte) :=
  Rejected (String.append "spawn " (String.append file " ENOENT")).

(** xclip offers a PNG image. *)
Definition xclipWithPng (file : string) (args : list string)
    : option (Outcome (list byte)) :=
  if called file args "which" ["xclip"] then Some (Fulfilled (bytes "/usr/bin/xclip"))
  else if called file args "xclip" Linux.xclipTargets
       then Some (Fulfilled (bytes "TARGETS image/png text/html"))
  else if called file args "xclip" ["-selection"; "clipboard"; "-t"; "image/png"; "-o"]
       then Some (Fulfilled pngMagic)
  else None.

(** wl-paste lists text only; xclip offers a PNG image. *)
Definition textOnWayland (file : string) (args : list string) : Outcome (list byte) :=
  if called file args "which" ["wl-paste"] then Fulfilled (bytes "/usr/bin/wl-paste")
  else if called file args "wl-paste" ["--list-types"]
       then Fulfilled (bytes "text/plain UTF8_STRING")
  else default (notFound file) (xclipWithPng file args).

(** wl-paste lists a PNG image and delivers no bytes; xclip offers a PNG
    image. *)
Definition emptyOnWayland (file : string) (args : list string) : Outcome (list byte) :=
  if called file args "which" ["wl-paste"] then Fulfilled (bytes "/usr/bin/wl-paste")
  else if called file args "wl-paste" ["--list-types"] then Fulfilled (bytes "image/png")
  else if called file args "wl-paste" ["--type"; "image/png"] then Fulfilled []
  else default (notFound file) (xclipWithPng file args).

Definition nothingInstalled (file : string) (args : list string) : Outcome (list byte) :=
  notFound file.

(** The staging directory cannot be created. *)
Definition readOnlyHome : Sys :=
  {| sys_env := x11Session;
     sys_execFile := λ file args _ w, (textOnWayland file args, disk w);
     sys_ensureClipboardDir :=
       λ _, Rejected "EACCES: permission denied, mkdir '/tmp/kilocode-clipboard'";
     sys_generateClipboardFilename := λ fmt _, Fulfilled (String.append "clipboard-1." fmt);
     sys_pathJoin := λ dir name, String.append dir (String.append "/" name);
     sys_writeFault := λ _ _ _, None;
     sys_statFault := λ _ _, None;
     sys_unlinkFault := λ _ _, None |}.

(** The disk reports an I/O error and the file system is remounted
    read-only: the write fails after the file was created, and so does the
    deletion. *)
Definition failingDisk : Sys :=
  {| sys_env := x11Session;
     sys_execFile := λ file args _ w, (textOnWayland file args, disk w);
     sys_ensureClipboardDir := λ _, Fulfilled "/tmp/kilocode-clipboard";
     sys_generateClipboardFilename := λ fmt _, Fulfilled (String.append "clipboard-1." fmt);
     sys_pathJoin := λ dir name, String.append dir (String.append "/" name);
     sys_writeFault := λ _ _ _, Some ("EIO: i/o error, write", Some []);
     sys_statFault := λ _ _, None;
     sys_unlinkFault := λ _ _, Some "EROFS: read-only file system, unlink" |}.


(** No clipboard tool is installed and the staging directory cannot be
    created. *)
Definition bareReadOnlyHome : Sys :=
  {| sys_env := x11Session;
     sys_execFile := λ file args _ w, (notFound file, disk w);
     sys_ensureClipboardDir :=
       λ _, Rejected "EACCES: permission denied, mkdir '/tmp/kilocode-clipboard'";
     sys_generateClipboardFilename := λ fmt _, Fulfilled (String.append "clipboard-1." fmt);
     sys_pathJoin := λ dir name, String.append dir (String.append "/" name);
     sys_writeFault := λ _ _ _, None;
     sys_statFault := λ _ _, None;
     sys_unlinkFault := λ _ _, None |}.

Definition linuxPath : string := "/tmp/kilocode-clipboard/clipboard-1.png".

Definition windowsPath : string := "C:\Temp\kilocode-clipboard\clipboard-1.png".

(** A Windows machine whose PowerShell prints [stdout] and leaves
    [written] at the output path. *)
Definition windows (stdout : Outcome (list byte)) (written : option (list byte)) : Sys :=
  {| sys_env := x11Session;
     sys_execFile :=
       λ file _ _ w,
         if String.eqb file "powershell.exe"
         then (stdout, match written with
                       | Some content => <[windowsPath:=content]> (disk w)
                       | None => disk w
                       end)
         else (notFound file, disk w);
     sys_ensureClipboardDir := λ _, Fulfilled "C:\Temp\kilocode-clipboard";
     sys_generateClipboardFilename := λ fmt _, Fulfilled (String.append "clipboard-1." fmt);
     sys_pathJoin := λ dir name, String.append dir (String.append "\" name);
     sys_writeFault := λ _ _ _, None;
     sys_statFault := λ _ _, None;
     sys_unlinkFault := λ _ _, None |}.

Definition crlf : string := String "013"%char (String "010"%char EmptyString).

(** The byte order mark U+FEFF, EF BB BF. *)
Definition byteOrderMark : list byte := [xef; xbb; xbf]%byte.

End Samples.

(** ** Further observations on a run *)

(** The event is an operation on the staging directory or on a file. *)
Definition touchesFiles (e : Event) : bool :=
  match e with
  | EvExec _ _ _ _ => false
  | EvDebug _ _ => false
  | _ => true
  end.

(** The event is a call made with the options of a byte fetch. *)
Definition asksForBytes (e : Event) : bool :=
  match e with
  | EvExec _ _ opts _ => bool_decide (opts = Linux.fetchOpts)
  | _ => false
  end.

(** The event is the probe [which tool], and it succeeded. *)
Definition found (tool : string) (e : Event) : bool :=
  match e with
  | EvExec file args _ (Fulfilled _) =>
      String.eqb file "which" && bool_decide (args = [tool])
  | _ => false
  end.

(** The event probes or runs xclip. *)
Definition touchesXclip (e : Event) : bool := invokes "xclip" e || probes "xclip" e.

(** An executable other than [which] is run only after its probe has
    succeeded. *)
Definition runsFoundToolsOnly (pre : list Event) (e : Event) (post : list Event) : Prop :=
  ∀ tool, invokes tool e = true → tool ≠ "which" →
          Exists (λ e', found tool e' = true) pre.

(** A failed run of wl-paste or xclip is followed by a debug entry with the
    message of the failure. *)
Definition logsFailure (pre : list Event) (e : Event) (post : list Event) : Prop :=
  ∀ file args opts m,
    e = EvExec file args opts (Rejected m) → file ≠ "which" → file ≠ "xsel" →
    ∃ note post', post = EvDebug note m :: post'.

(** A property of an event that stays true when the run is longer on
    either side. *)
Definition framed (Q : list Event → Event → list Event → Prop) : Prop :=
  ∀ x y pre e post, Q pre e post → Q (x ++ pre) e (post ++ y).

(** A write or an inspection that failed is reported as the result, after
    one attempt to delete the file. *)
Definition reportsIoFailure (r : Outcome SaveClipboardResult)
    (e : Event) (post : list Event) : Prop :=
  ∀ path m,
    (∃ data, e = EvWriteFile path data (Rejected m)) ∨ e = EvStat path (Rejected m) →
    r = Fulfilled (Failure m) ∧ ∃ u, post = [EvUnlink path u].

(** A failed run of wl-paste is logged and xclip is probed next. *)
Definition wlFailureFallsToXclip (e : Event) (post : list Event) : Prop :=
  ∀ args opts m,
    e = EvExec "wl-paste" args opts (Rejected m) →
    ∃ probe post',
      post = EvDebug "wl-paste failed, trying xclip" m
               :: EvExec "which" ["xclip"] noOpts probe :: post'.

(** A failed run of xclip is logged, the tools are probed and the save
    fails. *)
Definition xclipFailureEndsSave (r : Outcome SaveClipboardResult)
    (e : Event) (post : list Event) : Prop :=
  ∀ args opts m,
    e = EvExec "xclip" args opts (Rejected m) →
    (∃ probe post',
        post = EvDebug "xclip failed, trying xsel" m
                 :: EvExec "which" ["wl-paste"] noOpts probe :: post')
    ∧ (r = Fulfilled (Failure msg_no_image) ∨ r = Fulfilled (Failure msg_no_tool)).

(** The result of the Windows save after the deletion of an empty file. *)
Definition afterUnlink (u : Outcome unit) : SaveClipboardResult :=
  match u with
  | Fulfilled _ => Failure msg_write_failed
  | Rejected _ => Failure msg_not_created
  end.

(** The script said that there is no image, or reported an error of
    [$img.Save]: the save fails with no file operation; any other output
    sends the save to the inspection of the output file. *)
Definition scriptDecides (sys : Sys) (r : Outcome SaveClipboardResult)
    (pre : list Event) (e : Event) (post : list Event) : Prop :=
  ∀ file args opts out,
    e = EvExec file args opts (Fulfilled out) →
    (String.eqb (scriptResult out) "NO_IMAGE" = true →
     r = Fulfilled (Failure msg_no_image) ∧ post = [])
    ∧ (String.eqb (scriptResult out) "NO_IMAGE" = false →
       JsString.startsWith "ERROR:" (scriptResult out) = true →
       r = Fulfilled (Failure (JsString.trim (JsString.substring 7 (scriptResult out))))
       ∧ post = [])
    ∧ (String.eqb (scriptResult out) "NO_IMAGE" = false →
       JsString.startsWith "ERROR:" (scriptResult out) = false →
       ∃ path size post',
         generatedPath sys pre = Some path ∧ post = EvStat path size :: post').

(** The inspection of the file decides the result. *)
Definition fileDecides (r : Outcome SaveClipboardResult)
    (e : Event) (post : list Event) : Prop :=
  ∀ path size,
    e = EvStat path size →
    match size with
    | Rejected _ => r = Fulfilled (Failure msg_not_created) ∧ post = []
    | Fulfilled O => ∃ u, post = [EvUnlink path u] ∧ r = Fulfilled (afterUnlink u)
    | Fulfilled (S _) => r = Fulfilled (Success path) ∧ post = []
    end.

(** A failed PowerShell invocation: the save tries to delete the output
    file, logs the failure and returns it. *)
Definition runnerFailureCleansUp (sys : Sys) (r : Outcome SaveClipboardResult)
    (pre : list Event) (e : Event) (post : list Event) : Prop :=
  ∀ file args opts m,
    e = EvExec file args opts (Rejected m) →
    r = Fulfilled (Failure m)
    ∧ ∃ path u,
        generatedPath sys pre = Some path
        ∧ post = [EvUnlink path u; EvDebug "Windows clipboard save failed" m].

(** What the Windows save does after the script: it inspects or deletes the
    output file, or writes to the log. *)
Definition followsScript (path : string) (e : Event) : Prop :=
  match e with
  | EvStat p _ => p = path
  | EvUnlink p _ => p = path
  | EvDebug _ _ => True
  | _ => False
  end.

(** ** ASCII texts *)

(** The text is ASCII. *)
Fixpoint asciiOnly (s : string) : bool :=
  match s with
  | EmptyString => true
  | String c s' => JsString.isSingle c && asciiOnly s'
  end.

(** A byte above 0x7F. *)
Definition nonAscii (b : byte) : Prop := JsString.isSingle (ascii_of_byte b) = false.

(** ** White space around a string *)

(** The string neither starts nor ends with white space. *)
Definition noEdgeSpace (s : string) : Prop :=
  JsString.trimStart s = s ∧ JsString.trimEnd s = s.

(** ** More sample systems *)

Module MoreSamples.

Import Samples.

(** wl-paste is installed and cannot list the types; xclip offers a PNG
    image. *)
Definition brokenWayland (file : string) (args : list string) : Outcome (list byte) :=
  if called file args "which" ["wl-paste"] then Fulfilled (bytes "/usr/bin/wl-paste")
  else if called file args "wl-paste" ["--list-types"]
       then Rejected "Command failed: wl-paste --list-types"
  else default (notFound file) (xclipWithPng file args).

(** xclip is installed and cannot open the display. *)
Definition brokenXclip (file : string) (args : list string) : Outcome (list byte) :=
  if called file args "which" ["xclip"] then Fulfilled (bytes "/usr/bin/xclip")
  else if String.eqb file "xclip" then Rejected "Error: Can't open display: (null)"
  else notFound file.

(** xsel is the only tool installed. *)
Definition onlyXsel (file : string) (args : list string) : Outcome (list byte) :=
  if called file args "which" ["xsel"] then Fulfilled (bytes "/usr/bin/xsel")
  else if called file args "xsel" ["--clipboard"; "--output"] then Fulfilled pngMagic
  else notFound file.

End MoreSamples.

(** ** Symbolic execution of a driver *)

(** The string operations stay folded while a driver is run. *)
Arguments JsString.startsWith : simpl never.
Arguments JsString.includes : simpl never.
Arguments JsString.trim : simpl never.
Arguments JsString.toLowerCase : simpl never.
Arguments JsString.substring : simpl never.
Arguments JsString.escapeBackslashes : simpl never.
Arguments Utf8.decode : simpl never.
Arguments Windows.saveImageScript : simpl never.
Arguments Windows.containsImageScript : simpl never.

Ltac unfold_driver :=
  unfold Linux.saveClipboardImageLinux, Linux.hasClipboardImageLinux,
    Windows.saveClipboardImageWindows, Windows.hasClipboardImageWindows,
    Windows.runPowerShell, Linux.wlPasteStep, Linux.xclipStep,
    Linux.reportNoImageData, Linux.storeImage, Linux.tryWlPaste, Linux.tryXclip, Linux.chooseType,
    Linux.hasXclip, Linux.hasXsel, Linux.hasWlPaste,
    Linux.andAwait, Linux.orAwait, Linux.when_, Linux.isNull,
    async, try_catch, cmd_bind, await, ret, return_,
    execFileText, execFileAsync, ensureClipboardDir, generateClipboardFilename,
    writeFile, stat, unlink, debug in *.

(** One case split on the innermost undecided scrutinee of the goal. *)
Ltac split_goal :=
  match goal with
  | |- context [match ?x with _ => _ end] =>
      lazymatch x with
      | context [match _ with _ => _ end] => fail
      | _ => destruct x eqn:?
      end
  end.

Ltac run_driver := unfold_driver; repeat (split_goal; simpl).

Lemma events_since_app w d evs :
  events_since w {| disk := d; history := history w ++ evs |} = evs.
Proof. unfold events_since. simpl. apply drop_app_length. Qed.

(** Brings the history of a finished run to the form [history w ++ evs]. *)
Ltac settle_history :=
  unfold record; simpl; rewrite <- ?app_assoc; simpl;
  rewrite ?events_since_app.

Section Detection.

Variable sys : Sys.

Lemma hasClipboardImageLinux_total w :
  ∃ b w', Linux.hasClipboardImageLinux sys w = (Fulfilled b, w').
Proof. run_driver; eauto. Qed.

Lemma hasClipboardImageWindows_total w :
  ∃ b w', Windows.hasClipboardImageWindows sys w = (Fulfilled b, w').
Proof. run_driver; eauto. Qed.

End Detection.

(** ** Wayland gate *)

Section WaylandGate.

Variable sys : Sys.

Lemma isWayland_false :
  sys_env sys "WAYLAND_DISPLAY" = None ∨ sys_env sys "WAYLAND_DISPLAY" = Some EmptyString →
  Linux.isWayland sys = false.
Proof. unfold Linux.isWayland. intros [-> | ->]; reflexivity. Qed.

Lemma detection_skips_wl_paste w :
  Linux.isWayland sys = false →
  let evs := events_since w (snd (Linux.hasClipboardImageLinux sys w)) in
  Forall (λ e, invokes "wl-paste" e = false) evs
  ∧ ∃ e rest, evs = e :: rest ∧ probes "xclip" e = true.
Proof.
  intros Hw. unfold_driver. rewrite Hw. cbv zeta.
  run_driver; settle_history; (split; [repeat constructor | eauto]).
Qed.

Lemma save_skips_wl_paste w :
  Linux.isWayland sys = false →
  let evs := events_since w (snd (Linux.saveClipboardImageLinux sys w)) in
  Forall (λ e, invokes "wl-paste" e = false) evs
  ∧ ∃ r rest, evs = EvEnsureDir r :: rest
      ∧ ∀ dir, r = Fulfilled dir → ∃ e rest', rest = e :: rest' ∧ probes "xclip" e = true.
Proof.
  intros Hw. unfold_driver. rewrite Hw. cbv zeta.
  run_driver; settle_history;
    (split; [repeat constructor | do 2 eexists; split; [reflexivity|]; intros; try discriminate; eauto]).
Qed.

End WaylandGate.

(** ** Detection in a fixed environment *)

Section FixedEnvironment.

Variable sys : Sys.
Hypothesis fixed : fixedEnvironment sys.

(** Every answer of the process runner met on a path holds in all worlds. *)
Ltac learn_answers :=
  repeat match goal with
  | E : sys_execFile sys ?f ?a ?o ?W = (?r, _) |- _ =>
      lazymatch goal with
      | _ : ∀ w', fst (sys_execFile sys f a o w') = r |- _ => fail
      | _ => assert (∀ w', fst (sys_execFile sys f a o w') = r)
               by (intros w'; rewrite (fixed f a o w' W), E; reflexivity)
      end
  end.

(** Runs the other side of the equation along the answers learnt. *)
Ltac replay :=
  repeat match goal with
  | |- context [sys_execFile sys ?f ?a ?o ?W] =>
      let r := fresh "r" in
      let E := fresh "E" in
      destruct (sys_execFile sys f a o W) as [r ?] eqn:E;
      match goal with
      | X : ∀ w', fst (sys_execFile sys f a o w') = _ |- _ =>
          let X' := fresh in
          pose proof (X W) as X'; rewrite E in X'; simpl in X'; subst r
      end; simpl
  end.

Lemma hasClipboardImageLinux_fixed w1 w2 :
  fst (Linux.hasClipboardImageLinux sys w1) = fst (Linux.hasClipboardImageLinux sys w2).
Proof.
  remember (fst (Linux.hasClipboardImageLinux sys w2)) as rhs eqn:Hrhs.
  run_driver; learn_answers; subst rhs; simpl; replay; reflexivity.
Qed.

Lemma hasClipboardImageWindows_fixed w1 w2 :
  fst (Windows.hasClipboardImageWindows sys w1) = fst (Windows.hasClipboardImageWindows sys w2).
Proof.
  remember (fst (Windows.hasClipboardImageWindows sys w2)) as rhs eqn:Hrhs.
  run_driver; learn_answers; subst rhs; simpl; replay; reflexivity.
Qed.

End FixedEnvironment.

(** ** Events of a run, one at a time *)

Lemma at_every_event_split Q pre evs :
  at_every_event Q pre evs →
  ∀ mid e post, evs = mid ++ e :: post → Q (pre ++ mid) e post.
Proof.
  revert pre. induction evs as [|e0 evs IH]; intros pre H mid e post Heq.
  - destruct mid; discriminate.
  - destruct H as [H0 H]. destruct mid as [|m mid]; simpl in Heq.
    + injection Heq as -> ->. rewrite app_nil_r. exact H0.
    + injection Heq as -> ->.
      replace (pre ++ m :: mid) with ((pre ++ [m]) ++ mid)
        by (rewrite <- app_assoc; reflexivity).
      eapply IH; [exact H | reflexivity].
Qed.

Lemma every_event Q evs :
  at_every_event Q [] evs →
  ∀ pre e post, evs = pre ++ e :: post → Q pre e post.
Proof. intros H pre e post Heq. exact (at_every_event_split Q [] evs H pre e post Heq). Qed.

Lemma at_every_event_app Q pre l1 l2 :
  at_every_event (λ p e post, Q p e (post ++ l2)) pre l1 →
  at_every_event Q (pre ++ l1) l2 →
  at_every_event Q pre (l1 ++ l2).
Proof.
  revert pre. induction l1 as [|e l1 IH]; intros pre H1 H2; simpl in *.
  - rewrite app_nil_r in H2. exact H2.
  - destruct H1 as [He H1]. split; [exact He|].
    apply IH; [exact H1|]. rewrite <- app_assoc. exact H2.
Qed.

Lemma at_every_event_impl (Q1 Q2 : list Event → Event → list Event → Prop) pre evs :
  (∀ p e post, Q1 p e post → Q2 p e post) →
  at_every_event Q1 pre evs → at_every_event Q2 pre evs.
Proof.
  intros Himp. revert pre. induction evs as [|e evs IH]; intros pre H; simpl in *.
  - exact I.
  - destruct H as [He H]. split; [apply Himp, He | apply IH, H].
Qed.

Lemma at_every_event_Forall (P : Event → Prop) pre evs :
  Forall P evs → at_every_event (λ _ e _, P e) pre evs.
Proof.
  intros H. revert pre. induction H as [|e evs He _ IH]; intros pre; simpl.
  - exact I.
  - split; [exact He | apply IH].
Qed.

Lemma at_every_event_pre (Q : Event → list Event → Prop) pre pre' evs :
  at_every_event (λ _ e post, Q e post) pre evs →
  at_every_event (λ _ e post, Q e post) pre' evs.
Proof.
  revert pre pre'. induction evs as [|e evs IH]; intros pre pre' H; simpl in *.
  - exact I.
  - destruct H as [He H]. split; [exact He | eapply IH, H].
Qed.

Section StopsAt.

Variable p : Event → bool.

Lemma stopsAt_mono (G G' : Prop) evs : (G → G') → stopsAt p G evs → stopsAt p G' evs.
Proof.
  intros HG. apply at_every_event_impl. intros _ e post H Hp.
  destruct (H Hp) as [Hg Hpost]. split; [apply HG, Hg | exact Hpost].
Qed.

(** When [G] fails, no event of the run satisfies [p]. *)
Lemma stopsAt_never (G : Prop) evs : ¬ G → stopsAt p G evs → Forall (λ e, p e = false) evs.
Proof.
  intros HG. unfold stopsAt.
  assert (∀ pre, at_every_event (λ _ e post, p e = true → G ∧ post = []) pre evs →
                 Forall (λ e, p e = false) evs) as Hgen; [| apply Hgen].
  induction evs as [|e evs IH]; intros pre H; simpl in *.
  - constructor.
  - destruct H as [He H]. constructor; [| exact (IH _ H)].
    destruct (p e) eqn:Hp; [| reflexivity].
    destruct (He eq_refl) as [Hg _]. contradiction.
Qed.

Lemma never_stopsAt (G : Prop) evs : Forall (λ e, p e = false) evs → stopsAt p G evs.
Proof.
  intros H. unfold stopsAt.
  eapply at_every_event_impl; [| apply (at_every_event_Forall _ [] evs H)].
  simpl. intros _ e post He Hp. congruence.
Qed.

Lemma stopsAt_app_never (G : Prop) l1 l2 :
  Forall (λ e, p e = false) l1 → stopsAt p G l2 → stopsAt p G (l1 ++ l2).
Proof.
  intros H1 H2. unfold stopsAt in *. apply at_every_event_app.
  - eapply at_every_event_impl; [| apply (at_every_event_Forall _ [] l1 H1)].
    simpl. intros _ e post He Hp. congruence.
  - eapply at_every_event_pre, H2.
Qed.

Lemma stopsAt_nil_r (G : Prop) l : stopsAt p G l → stopsAt p G (l ++ []).
Proof. rewrite app_nil_r. trivial. Qed.

Lemma stopsAt_split (G : Prop) evs :
  stopsAt p G evs →
  ∀ pre e post, evs = pre ++ e :: post → p e = true → G ∧ post = [].
Proof. intros H pre e post Heq. exact (every_event _ evs H pre e post Heq). Qed.

End StopsAt.

(** ** Histories only grow *)

Lemma events_since_refl w : events_since w w = [].
Proof. unfold events_since. apply drop_all. Qed.

Lemma events_since_trans w w1 w2 :
  history w1 = history w ++ events_since w w1 →
  history w2 = history w1 ++ events_since w1 w2 →
  history w2 = history w ++ events_since w w2
  ∧ events_since w w2 = events_since w w1 ++ events_since w1 w2.
Proof.
  intros H1 H2.
  assert (history w2 = history w ++ (events_since w w1 ++ events_since w1 w2)) as H.
  { rewrite H2. rewrite H1 at 1. rewrite <- app_assoc. reflexivity. }
  assert (events_since w w2 = events_since w w1 ++ events_since w1 w2) as E.
  { unfold events_since at 1. rewrite H. apply drop_app_length. }
  split; [rewrite E; exact H | exact E].
Qed.

(** Evaluates the closed tests on the command of an event. *)
Ltac eval_closed_in H :=
  repeat match type of H with
  | context [isTypeListing ?f ?a] =>
      let v := eval vm_compute in (isTypeListing f a) in
      change (isTypeListing f a) with v in H
  | context [bool_decide (?o = Linux.fetchOpts)] =>
      let v := eval vm_compute in (bool_decide (o = Linux.fetchOpts)) in
      change (bool_decide (o = Linux.fetchOpts)) with v in H
  end.

(** Uses the tests on the listed types met on the path. *)
Ltac use_includes_in H :=
  repeat match goal with
  | E : JsString.includes ?p ?s = _ |- _ =>
      match type of H with
      | context [JsString.includes p s] => rewrite E in H
      end
  end.

(** One goal for each event of an explicit run. *)
Ltac split_events :=
  repeat match goal with
  | |- _ ∧ _ => split
  | |- True => exact I
  end.

(** At the end of a path: the completion and the world are known. *)
Ltac at_leaf :=
  intros [= <- <-]; settle_history; rewrite ?events_since_refl; cbv zeta.

Section LinuxBlocks.

Variable sys : Sys.

Lemma ensureClipboardDir_events w c w' :
  await (R := SaveClipboardResult) (ensureClipboardDir sys) w = (c, w') →
  ∃ r, events_since w w' = [EvEnsureDir r]
       ∧ history w' = history w ++ [EvEnsureDir r]
       ∧ match r with Fulfilled dir => c = Normal dir | Rejected e => c = Throw e end.
Proof. run_driver; at_leaf; eexists; repeat split. Qed.

Lemma wlPasteStep_extends st w c w' :
  Linux.wlPasteStep sys st w = (c, w') →
  history w' = history w ++ events_since w w'.
Proof. run_driver; at_leaf; rewrite ?app_nil_r; reflexivity. Qed.

Lemma xclipStep_extends st w c w' :
  Linux.xclipStep sys st w = (c, w') →
  history w' = history w ++ events_since w w'.
Proof. run_driver; at_leaf; rewrite ?app_nil_r; reflexivity. Qed.

Lemma reportNoImageData_extends w (c : Completion SaveClipboardResult SaveClipboardResult) w' :
  Linux.reportNoImageData sys w = (c, w') →
  history w' = history w ++ events_since w w'.
Proof. run_driver; at_leaf; rewrite ?app_nil_r; reflexivity. Qed.

Lemma storeImage_extends dir fmt data w
    (c : Completion SaveClipboardResult SaveClipboardResult) w' :
  Linux.storeImage sys dir fmt data w = (c, w') →
  history w' = history w ++ events_since w w'.
Proof. run_driver; at_leaf; rewrite ?app_nil_r; reflexivity. Qed.

End LinuxBlocks.

Section LinuxRuns.

Variable sys : Sys.

Lemma events_since_after_dir w w0 w' dir evs :
  history w0 = history w ++ [EvEnsureDir (Fulfilled dir)] →
  history w' = history w0 ++ evs →
  events_since w w' = EvEnsureDir (Fulfilled dir) :: evs.
Proof.
  intros H0 H. unfold events_since. rewrite H, H0, <- app_assoc.
  apply drop_app_length.
Qed.

Lemma saveClipboardImageLinux_run w r w' :
  Linux.saveClipboardImageLinux sys w = (r, w') → LinuxSaveRun sys w r w'.
Proof.
  unfold Linux.saveClipboardImageLinux, async, cmd_bind.
  destruct (await (ensureClipboardDir sys) w) as [c0 w0] eqn:E0.
  destruct (ensureClipboardDir_events sys w c0 w0 E0) as (r0 & Hev0 & Hh0 & Hc0).
  destruct r0 as [dir|e]; subst c0.
  2: { intros [= <- <-]. eapply stopped_at_dir; [reflexivity | exact Hev0]. }
  fold initialLocals.
  destruct (Linux.wlPasteStep sys initialLocals w0) as [c1 w1] eqn:E1.
  pose proof (wlPasteStep_extends sys _ _ _ _ E1) as Hh1.
  destruct c1 as [st1|x|e].
  2,3: intros [= <- <-]; eapply stopped_at_wl; eauto; try reflexivity;
       eapply events_since_after_dir; eauto.
  destruct (Linux.xclipStep sys st1 w1) as [c2 w2] eqn:E2.
  pose proof (xclipStep_extends sys _ _ _ _ E2) as Hh2.
  destruct (events_since_trans w0 w1 w2 Hh1 Hh2) as [Hh12 He12].
  destruct c2 as [st2|x|e].
  2,3: intros [= <- <-]; eapply stopped_at_xclip; eauto; try reflexivity;
       rewrite <- He12; eapply events_since_after_dir; eauto.
  match goal with
  | |- context [match ?m w2 with _ => _ end] => destruct (m w2) as [c3 w3] eqn:E3
  end.
  assert (history w3 = history w2 ++ events_since w2 w3) as Hh3.
  { destruct (Linux.imageData st2);
      [eapply storeImage_extends | eapply reportNoImageData_extends]; exact E3. }
  destruct (events_since_trans w0 w2 w3 Hh12 Hh3) as [Hh123 He123].
  intros Hr.
  assert (r = settled c3 ∧ w' = w3) as [-> ->].
  { destruct c3; injection Hr as <- <-; split; reflexivity. }
  eapply finished; eauto.
  rewrite app_assoc, <- He12, <- He123. eapply events_since_after_dir; eauto.
Qed.

End LinuxRuns.

(** ** A type enumeration without an image type *)

Section NoImageListed.

Variable sys : Sys.

Ltac no_image_leaf :=
  at_leaf; unfold stopsAt; simpl; split_events;
  let H := fresh "H" in
  intros H; unfold listsNoImage, Linux.listsImage in H;
  eval_closed_in H; use_includes_in H; simpl in H;
  first [discriminate | split; reflexivity].

Lemma wlPasteStep_listsNoImage st w c w' :
  Linux.wlPasteStep sys st w = (c, w') →
  stopsAt listsNoImage (c = Return (Failure msg_no_image)) (events_since w w').
Proof. run_driver; no_image_leaf. Qed.

Lemma xclipStep_listsNoImage st w c w' :
  Linux.xclipStep sys st w = (c, w') →
  stopsAt listsNoImage (c = Return (Failure msg_no_image)) (events_since w w').
Proof. run_driver; no_image_leaf. Qed.

Lemma reportNoImageData_listsNoImage w
    (c : Completion SaveClipboardResult SaveClipboardResult) w' :
  Linux.reportNoImageData sys w = (c, w') →
  Forall (λ e, listsNoImage e = false) (events_since w w').
Proof. run_driver; at_leaf; repeat constructor. Qed.

Lemma storeImage_listsNoImage dir fmt data w
    (c : Completion SaveClipboardResult SaveClipboardResult) w' :
  Linux.storeImage sys dir fmt data w = (c, w') →
  Forall (λ e, listsNoImage e = false) (events_since w w').
Proof. run_driver; at_leaf; repeat constructor. Qed.

Lemma saveClipboardImageLinux_listsNoImage w r w' :
  Linux.saveClipboardImageLinux sys w = (r, w') →
  stopsAt listsNoImage (r = Fulfilled (Failure msg_no_image)) (events_since w w').
Proof.
  intros Hrun.
  destruct (saveClipboardImageLinux_run sys w r w' Hrun)
    as [e Hr Hev | dir w0 c1 H0 E1 Hend Hev | dir w0 st1 w1 c2 H0 E1 E2 Hend Hev
        | dir w0 st1 w1 st2 w2 c3 H0 E1 E2 E3 Hr Hev];
    rewrite Hev.
  - apply never_stopsAt. repeat constructor.
  - apply (stopsAt_app_never _ _ [_]); [repeat constructor |].
    eapply stopsAt_mono; [| exact (wlPasteStep_listsNoImage _ _ _ _ E1)].
    intros ->. exact Hend.
  - apply (stopsAt_app_never _ _ [_]); [repeat constructor |].
    apply stopsAt_app_never.
    + eapply stopsAt_never; [| exact (wlPasteStep_listsNoImage _ _ _ _ E1)].
      discriminate.
    + eapply stopsAt_mono; [| exact (xclipStep_listsNoImage _ _ _ _ E2)].
      intros ->. exact Hend.
  - apply (stopsAt_app_never _ _ [_]); [repeat constructor |].
    apply stopsAt_app_never.
    { eapply stopsAt_never; [| exact (wlPasteStep_listsNoImage _ _ _ _ E1)].
      discriminate. }
    apply stopsAt_app_never.
    { eapply stopsAt_never; [| exact (xclipStep_listsNoImage _ _ _ _ E2)].
      discriminate. }
    apply never_stopsAt.
    destruct (Linux.imageData st2);
      [eapply storeImage_listsNoImage | eapply reportNoImageData_listsNoImage];
      exact E3.
Qed.

End NoImageListed.

(** ** A fetch that yields no bytes *)

Section EmptyFetch.

Variable sys : Sys.

Ltac empty_fetch_leaf :=
  at_leaf; unfold stopsAt; simpl; split_events;
  let H := fresh "H" in
  intros H; unfold fetchedNothing in H; eval_closed_in H; simpl in H;
  first [ discriminate
        | match type of H with
          | (length ?l =? 0)%nat = true =>
              destruct l; [| discriminate]; split; [eexists|]; reflexivity
          end ].

Lemma wlPasteStep_fetchedNothing st w c w' :
  Linux.wlPasteStep sys st w = (c, w') →
  stopsAt fetchedNothing (keepsNothing c) (events_since w w').
Proof. run_driver; empty_fetch_leaf. Qed.

Lemma xclipStep_fetchedNothing st w c w' :
  Linux.xclipStep sys st w = (c, w') →
  stopsAt fetchedNothing (keepsNothing c) (events_since w w').
Proof. run_driver; empty_fetch_leaf. Qed.

Lemma reportNoImageData_fetchedNothing w
    (c : Completion SaveClipboardResult SaveClipboardResult) w' :
  Linux.reportNoImageData sys w = (c, w') →
  Forall (λ e, fetchedNothing e = false) (events_since w w').
Proof. run_driver; at_leaf; repeat constructor. Qed.

Lemma storeImage_fetchedNothing dir fmt data w
    (c : Completion SaveClipboardResult SaveClipboardResult) w' :
  Linux.storeImage sys dir fmt data w = (c, w') →
  Forall (λ e, fetchedNothing e = false) (events_since w w').
Proof. run_driver; at_leaf; repeat constructor. Qed.

(** With a Buffer in [imageData], empty or not, xclip is not consulted. *)
Lemma xclipStep_skip st data w :
  Linux.imageData st = Some data → Linux.xclipStep sys st w = (Normal st, w).
Proof. intros H. unfold Linux.xclipStep. rewrite H. reflexivity. Qed.

Lemma storeImage_empty dir fmt w :
  Linux.storeImage (A := SaveClipboardResult) sys dir fmt [] w
  = (Return (Failure msg_empty), w).
Proof. reflexivity. Qed.

Lemma keepsNothing_data c st :
  c = Normal st → keepsNothing c → Linux.imageData st = Some [].
Proof. intros -> [fmt [= ->]]. reflexivity. Qed.

(** What the last part of the function does with the locals left by the
    two blocks. *)
Lemma finish_fetchedNothing dir st w
    (c : Completion SaveClipboardResult SaveClipboardResult) w' evs :
  match Linux.imageData st with
  | None => Linux.reportNoImageData sys
  | Some data => Linux.storeImage sys dir (Linux.format st) data
  end w = (c, w') →
  stopsAt fetchedNothing (keepsNothing (Normal st)) evs →
  stopsAt fetchedNothing (settled c = Fulfilled (Failure msg_empty))
          (evs ++ events_since w w').
Proof.
  intros E Hevs. destruct (Linux.imageData st) as [[|b data]|] eqn:Hdata.
  - rewrite storeImage_empty in E. injection E as <- <-.
    rewrite events_since_refl, app_nil_r.
    eapply stopsAt_mono; [| exact Hevs]. reflexivity.
  - apply stopsAt_app_never.
    + eapply stopsAt_never; [| exact Hevs].
      intros Hk. apply (keepsNothing_data _ st eq_refl) in Hk. congruence.
    + apply never_stopsAt. eapply storeImage_fetchedNothing, E.
  - apply stopsAt_app_never.
    + eapply stopsAt_never; [| exact Hevs].
      intros Hk. apply (keepsNothing_data _ st eq_refl) in Hk. congruence.
    + apply never_stopsAt. eapply reportNoImageData_fetchedNothing, E.
Qed.

Lemma not_keepsNothing_ended c r : ended c r → ¬ keepsNothing c.
Proof. intros Hend [fmt ->]. exact Hend. Qed.

Lemma saveClipboardImageLinux_fetchedNothing w r w' :
  Linux.saveClipboardImageLinux sys w = (r, w') →
  stopsAt fetchedNothing (r = Fulfilled (Failure msg_empty)) (events_since w w').
Proof.
  intros Hrun.
  destruct (saveClipboardImageLinux_run sys w r w' Hrun)
    as [e Hr Hev | dir w0 c1 H0 E1 Hend Hev | dir w0 st1 w1 c2 H0 E1 E2 Hend Hev
        | dir w0 st1 w1 st2 w2 c3 H0 E1 E2 E3 Hr Hev];
    rewrite Hev.
  - apply never_stopsAt. repeat constructor.
  - apply (stopsAt_app_never _ _ [_]); [repeat constructor |].
    apply never_stopsAt.
    eapply stopsAt_never; [| exact (wlPasteStep_fetchedNothing _ _ _ _ E1)].
    eapply not_keepsNothing_ended, Hend.
  - apply (stopsAt_app_never _ _ [_]); [repeat constructor |].
    destruct (Linux.imageData st1) as [data|] eqn:Hdata.
    { rewrite (xclipStep_skip st1 data w1 Hdata) in E2.
      injection E2 as <- <-. destruct Hend. }
    apply stopsAt_app_never.
    + eapply stopsAt_never; [| exact (wlPasteStep_fetchedNothing _ _ _ _ E1)].
      intros Hk. apply (keepsNothing_data _ st1 eq_refl) in Hk. congruence.
    + apply never_stopsAt.
      eapply stopsAt_never; [| exact (xclipStep_fetchedNothing _ _ _ _ E2)].
      eapply not_keepsNothing_ended, Hend.
  - apply (stopsAt_app_never _ _ [_]); [repeat constructor |].
    subst r.
    destruct (Linux.imageData st1) as [data|] eqn:Hdata.
    + rewrite (xclipStep_skip st1 data w1 Hdata) in E2.
      injection E2 as <- <-.
      rewrite events_since_refl. simpl.
      eapply finish_fetchedNothing; [exact E3 |].
      exact (wlPasteStep_fetchedNothing _ _ _ _ E1).
    + apply stopsAt_app_never.
      * eapply stopsAt_never; [| exact (wlPasteStep_fetchedNothing _ _ _ _ E1)].
        intros Hk. apply (keepsNothing_data _ st1 eq_refl) in Hk. congruence.
      * eapply finish_fetchedNothing; [exact E3 |].
        exact (xclipStep_fetchedNothing _ _ _ _ E2).
Qed.

End EmptyFetch.

(** ** Type negotiation *)

Section Negotiation.

Variable sys : Sys.

Lemma chooseType_firstSupported types w :
  Linux.chooseType types w =
  match firstSupported types with
  | Some choice => (Normal choice, w)
  | None => (Return (Failure msg_no_image), w)
  end.
Proof.
  unfold Linux.chooseType, firstSupported, formatPriority. simpl.
  destruct (JsString.includes "image/png" types); [reflexivity|].
  destruct (JsString.includes "image/jpeg" types); [reflexivity|].
  destruct (JsString.includes "image/gif" types); reflexivity.
Qed.

Ltac negotiates_leaf :=
  at_leaf; simpl; split_events;
  let Hl := fresh "Hl" in
  let Hf := fresh "Hf" in
  let Ht := fresh "Ht" in
  intros ? ? ? ? (? & ? & ? & [=] & Ht & ->) Hf; subst;
  eval_closed_in Ht; try discriminate Ht;
  unfold firstSupported, formatPriority in Hf; simpl in Hf;
  use_includes_in Hf; simpl in Hf;
  first [ discriminate Hf
        | injection Hf as <- <-; do 2 eexists; split; [reflexivity |];
          intros ? [=]; subst; split; reflexivity ].

Lemma wlPasteStep_negotiates st w c w' :
  Linux.wlPasteStep sys st w = (c, w') →
  at_every_event (λ _, negotiates c) [] (events_since w w').
Proof. run_driver; negotiates_leaf. Qed.

Lemma xclipStep_negotiates st w c w' :
  Linux.xclipStep sys st w = (c, w') →
  at_every_event (λ _, negotiates c) [] (events_since w w').
Proof. run_driver; negotiates_leaf. Qed.

Ltac not_listed_leaf :=
  at_leaf; repeat constructor;
  let Ht := fresh "Ht" in
  intros ? ? (? & ? & ? & [=] & Ht & _); subst;
  eval_closed_in Ht; discriminate Ht.

Lemma reportNoImageData_not_listed w
    (c : Completion SaveClipboardResult SaveClipboardResult) w' :
  Linux.reportNoImageData sys w = (c, w') →
  Forall (λ e, ∀ file types, ¬ listed e file types) (events_since w w').
Proof. run_driver; not_listed_leaf. Qed.

Lemma storeImage_not_listed dir fmt data w
    (c : Completion SaveClipboardResult SaveClipboardResult) w' :
  Linux.storeImage sys dir fmt data w = (c, w') →
  Forall (λ e, ∀ file types, ¬ listed e file types) (events_since w w').
Proof. run_driver; not_listed_leaf. Qed.

(** With bytes to store, the first operation is the file name. *)
Lemma storeImage_first dir fmt data w
    (c : Completion SaveClipboardResult SaveClipboardResult) w' :
  data ≠ [] →
  Linux.storeImage sys dir fmt data w = (c, w') →
  ∃ name rest, events_since w w' = EvGenName fmt name :: rest.
Proof.
  intros Hdata. destruct data as [|b data]; [congruence|]. clear Hdata.
  run_driver; try discriminate; at_leaf; do 2 eexists; reflexivity.
Qed.

Lemma not_listed_negotiated pre evs :
  Forall (λ e, ∀ file types, ¬ listed e file types) evs →
  at_every_event (λ _, negotiated) pre evs.
Proof.
  intros H.
  eapply at_every_event_impl; [| apply (at_every_event_Forall _ pre evs H)].
  simpl. intros _ e post Hno file types mime fmt Hl. destruct (Hno _ _ Hl).
Qed.

(** A block followed by the rest of the run. *)
Lemma negotiates_then c evs rest :
  at_every_event (λ _, negotiates c) [] evs →
  (∀ data fmt,
      c = Normal {| Linux.imageData := Some data; Linux.format := fmt |} →
      data ≠ [] → ∃ name post, rest = EvGenName fmt name :: post) →
  at_every_event (λ _ e post, negotiated e (post ++ rest)) [] evs.
Proof.
  intros Hevs Hrest. eapply at_every_event_impl; [| exact Hevs].
  simpl. intros _ e post Hneg file types mime fmt Hl Hf.
  destruct (Hneg file types mime fmt Hl Hf) as (res & post' & -> & Hres).
  exists res, (post' ++ rest). split; [reflexivity|].
  intros data Hd Hne. destruct (Hres data Hd) as [-> ->].
  exact (Hrest data fmt eq_refl Hne).
Qed.

Lemma negotiated_app pre l1 l2 :
  at_every_event (λ _ e post, negotiated e (post ++ l2)) [] l1 →
  at_every_event (λ _, negotiated) [] l2 →
  at_every_event (λ _, negotiated) pre (l1 ++ l2).
Proof.
  intros H1 H2. apply at_every_event_app.
  - exact (at_every_event_pre (λ e post, negotiated e (post ++ l2)) [] pre l1 H1).
  - exact (at_every_event_pre negotiated [] (pre ++ l1) l2 H2).
Qed.

Lemma finish_first dir data fmt w
    (c : Completion SaveClipboardResult SaveClipboardResult) w' :
  match Linux.imageData {| Linux.imageData := Some data; Linux.format := fmt |} with
  | None => Linux.reportNoImageData sys
  | Some d =>
      Linux.storeImage sys dir
        (Linux.format {| Linux.imageData := Some data; Linux.format := fmt |}) d
  end w = (c, w') →
  data ≠ [] → ∃ name post, events_since w w' = EvGenName fmt name :: post.
Proof. simpl. intros E Hne. eapply storeImage_first; eauto. Qed.

Lemma finish_not_listed dir st w
    (c : Completion SaveClipboardResult SaveClipboardResult) w' :
  match Linux.imageData st with
  | None => Linux.reportNoImageData sys
  | Some data => Linux.storeImage sys dir (Linux.format st) data
  end w = (c, w') →
  Forall (λ e, ∀ file types, ¬ listed e file types) (events_since w w').
Proof.
  destruct (Linux.imageData st);
    [apply storeImage_not_listed | apply reportNoImageData_not_listed].
Qed.

Lemma saveClipboardImageLinux_negotiated w r w' :
  Linux.saveClipboardImageLinux sys w = (r, w') →
  at_every_event (λ _, negotiated) [] (events_since w w').
Proof.
  intros Hrun.
  assert (∀ dir, Forall (λ e, ∀ file types, ¬ listed e file types)
                        [EvEnsureDir (Fulfilled dir)]) as Hdir.
  { intros dir. repeat constructor. intros ? ? (? & ? & ? & [=] & _). }
  destruct (saveClipboardImageLinux_run sys w r w' Hrun)
    as [e Hr Hev | dir w0 c1 H0 E1 Hend Hev | dir w0 st1 w1 c2 H0 E1 E2 Hend Hev
        | dir w0 st1 w1 st2 w2 c3 H0 E1 E2 E3 Hr Hev];
    rewrite Hev.
  - apply not_listed_negotiated. repeat constructor.
    intros ? ? (? & ? & ? & [=] & _).
  - apply (at_every_event_app _ [] [_]);
      [apply (negotiates_then (Normal initialLocals)); [| intros; discriminate];
       simpl; split; [| exact I]; intros ? ? ? ? (? & ? & ? & [=] & _) |].
    rewrite <- (app_nil_r (events_since w0 w')).
    apply negotiated_app; [| exact I].
    eapply negotiates_then; [exact (wlPasteStep_negotiates _ _ _ _ E1) |].
    intros data fmt ->. destruct Hend.
  - apply (at_every_event_app _ [] [_]);
      [apply (negotiates_then (Normal initialLocals)); [| intros; discriminate];
       simpl; split; [| exact I]; intros ? ? ? ? (? & ? & ? & [=] & _) |].
    apply negotiated_app.
    + eapply negotiates_then; [exact (wlPasteStep_negotiates _ _ _ _ E1) |].
      intros data fmt [= ->] _.
      rewrite (xclipStep_skip sys {| Linux.imageData := Some data; Linux.format := fmt |}
                 data w1 eq_refl) in E2.
      injection E2 as <- <-. destruct Hend.
    + rewrite <- (app_nil_r (events_since w1 w')).
      apply negotiated_app; [| exact I].
      eapply negotiates_then; [exact (xclipStep_negotiates _ _ _ _ E2) |].
      intros data fmt ->. destruct Hend.
  - apply (at_every_event_app _ [] [_]);
      [apply (negotiates_then (Normal initialLocals)); [| intros; discriminate];
       simpl; split; [| exact I]; intros ? ? ? ? (? & ? & ? & [=] & _) |].
    apply negotiated_app.
    + eapply negotiates_then; [exact (wlPasteStep_negotiates _ _ _ _ E1) |].
      intros data fmt [= ->] Hne.
      rewrite (xclipStep_skip sys {| Linux.imageData := Some data; Linux.format := fmt |}
                 data w1 eq_refl) in E2.
      injection E2 as <- <-. rewrite events_since_refl. simpl.
      eapply finish_first; eauto.
    + apply negotiated_app.
      * eapply negotiates_then; [exact (xclipStep_negotiates _ _ _ _ E2) |].
        intros data fmt [= ->] Hne. eapply finish_first; eauto.
      * apply not_listed_negotiated. eapply finish_not_listed, E3.
Qed.

End Negotiation.

(** ** Persistence on Linux *)

Section LinuxPersistence.

Variable sys : Sys.

Lemma filenameOf_app l1 l2 :
  filenameOf l1 = None → filenameOf (l1 ++ l2) = filenameOf l2.
Proof.
  induction l1 as [|e l1 IH]; [reflexivity|].
  destruct e as [| | fmt [name|m] | | | |]; simpl; try exact IH. discriminate.
Qed.

Lemma wlPasteStep_no_filename st w c w' :
  Linux.wlPasteStep sys st w = (c, w') → filenameOf (events_since w w') = None.
Proof. run_driver; at_leaf; reflexivity. Qed.

Lemma xclipStep_no_filename st w c w' :
  Linux.xclipStep sys st w = (c, w') → filenameOf (events_since w w') = None.
Proof. run_driver; at_leaf; reflexivity. Qed.


(** The two blocks and the report return failures only, and never throw. *)
Lemma wlPasteStep_completion st w c w' :
  Linux.wlPasteStep sys st w = (c, w') →
  match c with
  | Normal _ => True
  | Return x => ∃ m, x = Failure m
  | Throw _ => False
  end.
Proof. run_driver; intros [= <- <-]; eauto. Qed.

Lemma xclipStep_completion st w c w' :
  Linux.xclipStep sys st w = (c, w') →
  match c with
  | Normal _ => True
  | Return x => ∃ m, x = Failure m
  | Throw _ => False
  end.
Proof. run_driver; intros [= <- <-]; eauto. Qed.

Lemma reportNoImageData_completion w
    (c : Completion SaveClipboardResult SaveClipboardResult) w' :
  Linux.reportNoImageData sys w = (c, w') →
  ∃ m, c = Return (Failure m).
Proof. run_driver; intros [= <- <-]; eauto. Qed.

(** Writing, checking and cleaning up. *)
Lemma storeImage_disk dir fmt data w
    (c : Completion SaveClipboardResult SaveClipboardResult) w' :
  Linux.storeImage sys dir fmt data w = (c, w') →
  match c with
  | Normal _ => False
  | Return (Success p) =>
      ∃ name, filenameOf (events_since w w') = Some name
              ∧ p = sys_pathJoin sys dir name
              ∧ disk w' !! p = Some data ∧ data ≠ []
  | Return (Failure _) =>
      unlinkNeverFaults sys →
      ∀ name, filenameOf (events_since w w') = Some name →
              disk w' !! sys_pathJoin sys dir name = None
  | Throw m =>
      ∃ pre, events_since w w' = pre ++ [EvGenName fmt (Rejected m)]
  end.
Proof.
  run_driver; at_leaf; simpl;
    try (intros Hno name' Hname; try discriminate Hname;
         injection Hname as <-;
         repeat match goal with
         | E : sys_unlinkFault sys ?p ?W = Some _ |- _ =>
             rewrite (Hno p W) in E; discriminate E
         end);
    try (eexists; repeat split; [simplify_map_eq; reflexivity | intros ->; discriminate]);
    try (exists []; reflexivity);
    simplify_map_eq; try done.
Qed.

End LinuxPersistence.

Section LinuxOutcome.

Variable sys : Sys.

Ltac fetched_leaf :=
  intros [= <- <-]; settle_history; rewrite ?events_since_refl; simpl;
  intros Hnone; split;
  [ intros data Hdata; first [congruence | injection Hdata as <-];
    first [ eexists [_; _], _, _; split; [reflexivity | repeat constructor]
          | eexists [_], _, _; split; [reflexivity | repeat constructor] ]
  | intros Hdata; first [discriminate Hdata | repeat constructor] ].

(** The bytes kept by a block are those of its one successful fetch. *)
Lemma wlPasteStep_fetched st w st' w' :
  Linux.wlPasteStep sys st w = (Normal st', w') →
  Linux.imageData st = None →
  (∀ data, Linux.imageData st' = Some data →
     ∃ pre file args,
       events_since w w' = pre ++ [EvExec file args Linux.fetchOpts (Fulfilled data)]
       ∧ Forall (λ e, fetched e = false) pre)
  ∧ (Linux.imageData st' = None → Forall (λ e, fetched e = false) (events_since w w')).
Proof.
  destruct st as [[d|] f]; [intros _ [=] |].
  run_driver; try discriminate; fetched_leaf.
Qed.

Lemma xclipStep_fetched st w st' w' :
  Linux.xclipStep sys st w = (Normal st', w') →
  Linux.imageData st = None →
  (∀ data, Linux.imageData st' = Some data →
     ∃ pre file args,
       events_since w w' = pre ++ [EvExec file args Linux.fetchOpts (Fulfilled data)]
       ∧ Forall (λ e, fetched e = false) pre)
  ∧ (Linux.imageData st' = None → Forall (λ e, fetched e = false) (events_since w w')).
Proof.
  destruct st as [[d|] f]; [intros _ [=] |].
  run_driver; try discriminate; fetched_leaf.
Qed.

Lemma storeImage_not_fetched dir fmt data w
    (c : Completion SaveClipboardResult SaveClipboardResult) w' :
  Linux.storeImage sys dir fmt data w = (c, w') →
  Forall (λ e, fetched e = false) (events_since w w').
Proof. run_driver; at_leaf; repeat constructor. Qed.

(** The locals after the two blocks, with the events of both. *)
Lemma blocks_fetched w0 st1 w1 st2 w2 :
  Linux.wlPasteStep sys initialLocals w0 = (Normal st1, w1) →
  Linux.xclipStep sys st1 w1 = (Normal st2, w2) →
  ∀ data, Linux.imageData st2 = Some data →
    ∃ pre file args,
      events_since w0 w1 ++ events_since w1 w2
        = pre ++ [EvExec file args Linux.fetchOpts (Fulfilled data)]
      ∧ Forall (λ e, fetched e = false) pre.
Proof.
  intros E1 E2 data Hdata.
  destruct (wlPasteStep_fetched _ _ _ _ E1 eq_refl) as [H1 H1'].
  destruct (Linux.imageData st1) as [data1|] eqn:Hd1.
  - rewrite (xclipStep_skip sys st1 data1 w1 Hd1) in E2. injection E2 as <- <-.
    rewrite events_since_refl, app_nil_r.
    apply H1. congruence.
  - destruct (xclipStep_fetched _ _ _ _ E2 Hd1) as [H2 _].
    destruct (H2 data Hdata) as (pre & file & args & -> & Hpre).
    exists (events_since w0 w1 ++ pre), file, args. split.
    + rewrite app_assoc. reflexivity.
    + apply Forall_app. split; [apply H1'; reflexivity | assumption].
Qed.

Lemma generatedPath_finished dir evs rest :
  filenameOf evs = None →
  generatedPath sys (EvEnsureDir (Fulfilled dir) :: evs ++ rest)
  = option_map (sys_pathJoin sys dir) (filenameOf rest).
Proof.
  intros H. unfold generatedPath. simpl. rewrite (filenameOf_app _ _ H).
  destruct (filenameOf rest); reflexivity.
Qed.

Lemma blocks_no_filename w0 st1 w1 c2 w2 :
  Linux.wlPasteStep sys initialLocals w0 = (Normal st1, w1) →
  Linux.xclipStep sys st1 w1 = (c2, w2) →
  filenameOf (events_since w0 w1 ++ events_since w1 w2) = None.
Proof.
  intros E1 E2. rewrite filenameOf_app; [| eapply wlPasteStep_no_filename, E1].
  eapply xclipStep_no_filename, E2.
Qed.

(** A successful save: the file holds the bytes of the one successful
    fetch of the run. *)
Lemma saveClipboardImageLinux_success w p w' :
  Linux.saveClipboardImageLinux sys w = (Fulfilled (Success p), w') →
  generatedPath sys (events_since w w') = Some p
  ∧ ∃ pre file args data post,
      events_since w w'
        = pre ++ EvExec file args Linux.fetchOpts (Fulfilled data) :: post
      ∧ Forall (λ e, fetched e = false) pre
      ∧ Forall (λ e, fetched e = false) post
      ∧ disk w' !! p = Some data
      ∧ data ≠ [].
Proof.
  intros Hrun.
  destruct (saveClipboardImageLinux_run sys w _ w' Hrun)
    as [e Hr Hev | dir w0 c1 H0 E1 Hend Hev | dir w0 st1 w1 c2 H0 E1 E2 Hend Hev
        | dir w0 st1 w1 st2 w2 c3 H0 E1 E2 E3 Hr Hev].
  - discriminate Hr.
  - pose proof (wlPasteStep_completion sys _ _ _ _ E1) as Hc.
    destruct c1 as [st|x|e']; simpl in Hend; [destruct Hend | | discriminate Hend].
    injection Hend as <-. destruct Hc as [m Hm]. discriminate Hm.
  - pose proof (xclipStep_completion sys _ _ _ _ E2) as Hc.
    destruct c2 as [st|x|e']; simpl in Hend; [destruct Hend | | discriminate Hend].
    injection Hend as <-. destruct Hc as [m Hm]. discriminate Hm.
  - destruct (Linux.imageData st2) as [data|] eqn:Hdata.
    2: { destruct (reportNoImageData_completion sys _ _ _ E3) as [m ->].
         discriminate Hr. }
    pose proof (storeImage_disk sys _ _ _ _ _ _ E3) as Hdisk.
    pose proof (storeImage_not_fetched _ _ _ _ _ _ E3) as Hpost.
    destruct c3 as [x|[q|m]|m]; simpl in Hr;
      [destruct Hdisk | | discriminate Hr | discriminate Hr].
    injection Hr as ->.
    destruct Hdisk as (name & Hname & -> & Hfile & Hne).
    destruct (blocks_fetched _ _ _ _ _ E1 E2 data Hdata)
      as (pre & file & args & Hpre & Hnot).
    rewrite Hev. split.
    + rewrite app_assoc, generatedPath_finished, Hname; [reflexivity|].
      eapply blocks_no_filename; eauto.
    + exists (EvEnsureDir (Fulfilled dir) :: pre), file, args, data,
        (events_since w2 w').
      repeat split; try assumption.
      * rewrite app_assoc, Hpre, <- app_assoc. reflexivity.
      * constructor; [reflexivity | exact Hnot].
Qed.


(** A save is rejected only by the directory or by the file name. *)
Lemma saveClipboardImageLinux_rejected w m w' :
  Linux.saveClipboardImageLinux sys w = (Rejected m, w') →
  ∃ pre, events_since w w' = pre ++ [EvEnsureDir (Rejected m)]
         ∨ ∃ fmt, events_since w w' = pre ++ [EvGenName fmt (Rejected m)].
Proof.
  intros Hrun.
  destruct (saveClipboardImageLinux_run sys w _ w' Hrun)
    as [e Hr Hev | dir w0 c1 H0 E1 Hend Hev | dir w0 st1 w1 c2 H0 E1 E2 Hend Hev
        | dir w0 st1 w1 st2 w2 c3 H0 E1 E2 E3 Hr Hev]; rewrite Hev.
  - injection Hr as ->. exists []. left. reflexivity.
  - pose proof (wlPasteStep_completion sys _ _ _ _ E1) as Hc.
    destruct c1 as [st|x|e']; simpl in Hend; [destruct Hend | discriminate Hend | destruct Hc].
  - pose proof (xclipStep_completion sys _ _ _ _ E2) as Hc.
    destruct c2 as [st|x|e']; simpl in Hend; [destruct Hend | discriminate Hend | destruct Hc].
  - destruct (Linux.imageData st2) as [data|] eqn:Hdata.
    2: { destruct (reportNoImageData_completion sys _ _ _ E3) as [m' ->].
         discriminate Hr. }
    pose proof (storeImage_disk sys _ _ _ _ _ _ E3) as Hdisk.
    destruct c3 as [x|x|m']; simpl in Hr;
      [destruct Hdisk | discriminate Hr |].
    destruct Hdisk as [pre Hpre]. injection Hr as ->.
    exists (EvEnsureDir (Fulfilled dir) :: events_since w0 w1 ++ events_since w1 w2 ++ pre).
    right. exists (Linux.format st2). rewrite Hpre.
    simpl. rewrite <- !app_assoc. reflexivity.
Qed.

End LinuxOutcome.

(** ** The Windows driver *)

Section WindowsOutcome.

Variable sys : Sys.

Lemma saveClipboardImageWindows_extends w r w' :
  Windows.saveClipboardImageWindows sys w = (r, w') →
  history w' = history w ++ events_since w w'.
Proof. run_driver; at_leaf; reflexivity. Qed.


(** The same in full: the four operations of a successful save, and the
    file as the PowerShell process left it. *)
Lemma saveClipboardImageWindows_written w p w' :
  Windows.saveClipboardImageWindows sys w = (Fulfilled (Success p), w') →
  ∃ dir name out content w1,
    events_since w w'
    = [EvEnsureDir (Fulfilled dir); EvGenName "png" (Fulfilled name);
       EvExec "powershell.exe" (saveCommand sys dir name) noOpts (Fulfilled out);
       EvStat p (Fulfilled (length content))]
    ∧ p = sys_pathJoin sys dir name
    ∧ disk w1 = disk w
    ∧ history w1
      = history w ++ [EvEnsureDir (Fulfilled dir); EvGenName "png" (Fulfilled name)]
    ∧ sys_execFile sys "powershell.exe" (saveCommand sys dir name) noOpts w1
      = (Fulfilled out, disk w')
    ∧ disk w' !! p = Some content
    ∧ content ≠ [].
Proof.
  unfold saveCommand, powershellArgs.
  run_driver; intros [= <- <-] || intros [=]; settle_history.
  match goal with
  | E : sys_execFile sys _ _ _ ?W = (Fulfilled _, _) |- _ =>
      do 4 eexists; exists W
  end.
  split; [reflexivity|]. repeat split; try reflexivity; try eassumption.
  - simpl. rewrite <- app_assoc. reflexivity.
  - intros ->. discriminate.
Qed.


(** When the script says NO_IMAGE the result is the no-image failure. *)
Lemma saveClipboardImageWindows_said_no_image w r w' :
  Windows.saveClipboardImageWindows sys w = (r, w') →
  Forall (λ e, saidNoImage e = true → r = Fulfilled (Failure msg_no_image))
         (events_since w w').
Proof.
  unfold saidNoImage, scriptResult.
  run_driver; at_leaf; repeat constructor; intros; congruence.
Qed.

Lemma saveClipboardImageWindows_rejected w m w' :
  Windows.saveClipboardImageWindows sys w = (Rejected m, w') →
  ∃ pre, events_since w w' = pre ++ [EvEnsureDir (Rejected m)]
         ∨ ∃ fmt, events_since w w' = pre ++ [EvGenName fmt (Rejected m)].
Proof.
  run_driver; intros [= <- <-] || intros [=]; settle_history;
    first [ exists []; left; reflexivity
          | eexists [_]; right; eexists; reflexivity ].
Qed.

(** When the PowerShell invocation fails, the failure of the process
    runner is the result. *)
Lemma saveClipboardImageWindows_powershell_failed w r w' :
  Windows.saveClipboardImageWindows sys w = (r, w') →
  Forall (λ e, ∀ file args opts m,
                 e = EvExec file args opts (Rejected m) →
                 r = Fulfilled (Failure m))
         (events_since w w').
Proof.
  run_driver; at_leaf; repeat constructor; intros ? ? ? ? [=]; subst; reflexivity.
Qed.

End WindowsOutcome.

(** ** No clipboard tool *)

Section NoTool.

Variable sys : Sys.

(** No executable is installed: every [which] fails. *)
Hypothesis nothing_installed :
  ∀ tool opts w, ∃ m, fst (sys_execFile sys "which" [tool] opts w) = Rejected m.

Ltac prune :=
  match goal with
  | E : sys_execFile sys "which" [?t] ?o ?W = (Fulfilled _, _) |- _ =>
      exfalso; destruct (nothing_installed t o W) as [? Hm];
      rewrite E in Hm; discriminate Hm
  end.

Lemma saveClipboardImageLinux_no_tool w dir :
  sys_ensureClipboardDir sys w = Fulfilled dir →
  fst (Linux.saveClipboardImageLinux sys w) = Fulfilled (Failure msg_no_tool).
Proof.
  intros Hdir. unfold_driver. rewrite Hdir. simpl.
  repeat (split_goal; simpl; try prune). all: reflexivity.
Qed.

End NoTool.

(** ** A tool, and no image *)

(** A path on which the process runner answers against what is known of
    it. *)
Ltac impossible_answer :=
  match goal with
  | H : ∀ opts w, ∃ out, fst (sys_execFile ?sys "which" [?t] opts w) = Fulfilled out,
    E : sys_execFile ?sys "which" [?t] ?o ?W = (Rejected _, _) |- _ =>
      exfalso; destruct (H o W) as [? Hm]; rewrite E in Hm; discriminate Hm
  | H : ∀ args opts w, ∃ m, fst (sys_execFile ?sys ?f args opts w) = Rejected m,
    E : sys_execFile ?sys ?f ?a ?o ?W = (Fulfilled _, _) |- _ =>
      exfalso; destruct (H a o W) as [? Hm]; rewrite E in Hm; discriminate Hm
  end.

(** One of the three tools is installed, and no run of wl-paste or of xclip
    succeeds: the save ends in its last check, which finds the tool. *)
Lemma saveClipboardImageLinux_tool_without_image sys tool w dir :
  tool ∈ ["wl-paste"; "xclip"; "xsel"] →
  (∀ opts w1, ∃ out, fst (sys_execFile sys "which" [tool] opts w1) = Fulfilled out) →
  (∀ args opts w1, ∃ m, fst (sys_execFile sys "wl-paste" args opts w1) = Rejected m) →
  (∀ args opts w1, ∃ m, fst (sys_execFile sys "xclip" args opts w1) = Rejected m) →
  sys_ensureClipboardDir sys w = Fulfilled dir →
  fst (Linux.saveClipboardImageLinux sys w) = Fulfilled (Failure msg_no_image).
Proof.
  intros Hin Htool Hwl Hxclip Hdir.
  rewrite !elem_of_cons, elem_of_nil in Hin.
  destruct Hin as [-> | [-> | [-> | []]]];
    unfold_driver; rewrite Hdir; simpl;
    repeat (split_goal; simpl; try impossible_answer); reflexivity.
Qed.

(** ** Case-insensitive comparison *)

Lemma lowerChar_idempotent c : JsString.lowerChar (JsString.lowerChar c) = JsString.lowerChar c.
Proof.
  destruct c as [[] [] [] [] [] [] [] []]; reflexivity.
Qed.

Lemma toLowerCase_equalsIgnoringCase s t :
  JsString.toLowerCase t = t →
  String.eqb (JsString.toLowerCase s) t = equalsIgnoringCase s t.
Proof.
  revert t. induction s as [|a s IH]; intros [|b t] Ht; try reflexivity.
  simpl in *. injection Ht as Hb Ht.
  unfold sameLetter. rewrite Hb, (IH t Ht). reflexivity.
Qed.

Section WindowsDetection.

Variable sys : Sys.

Lemma hasClipboardImageWindows_spec w :
  ∃ b w', Windows.hasClipboardImageWindows sys w = (Fulfilled b, w')
    ∧ (b = true ↔
       ∃ out, fst (sys_execFile sys "powershell.exe"
                     (powershellArgs Windows.containsImageScript) noOpts w)
              = Fulfilled out
              ∧ equalsIgnoringCase (JsString.trim (Utf8.decode out)) "true"
                = true).
Proof.
  unfold powershellArgs.
  run_driver; do 2 eexists; (split; [reflexivity|]);
    rewrite ?toLowerCase_equalsIgnoringCase in * by reflexivity;
    (split;
     [ intros Hb; try discriminate Hb; eauto
     | intros (out & Ho & Hout); simpl in Ho; try discriminate Ho;
       injection Ho as <-; congruence ]).
Qed.

End WindowsDetection.

(** * Examples *)

Section Examples.

Import Samples.

Example trim_drops_line_end : JsString.trim (String.append " True" crlf) = "True".
Proof. reflexivity. Qed.

Example includes_finds_type :
  JsString.includes "image/png" "TARGETS image/png text/html" = true
  ∧ JsString.includes "image/gif" "TARGETS image/png text/html" = false.
Proof. split; reflexivity. Qed.

Example error_line_message :
  JsString.trim (JsString.substring 7 "ERROR: Access is denied. ") = "Access is denied.".
Proof. reflexivity. Qed.

Example backslashes_are_doubled :
  JsString.escapeBackslashes "C:\Temp\a.png" = "C:\\Temp\\a.png".
Proof. reflexivity. Qed.

(** The clipboard holds a PNG image, xclip alone is installed and lists
    image/png: the save succeeds and the file starts with 89 50 4E 47. *)
Example png_through_xclip :
  let sys := desktop x11Session (λ file args, default (notFound file) (xclipWithPng file args)) in
  let run := Linux.saveClipboardImageLinux sys emptyWorld in
  fst run = Fulfilled (Success "/tmp/kilocode-clipboard/clipboard-1700000000000-ab12cd.png")
  ∧ disk (snd run) !! "/tmp/kilocode-clipboard/clipboard-1700000000000-ab12cd.png"
    = Some pngMagic.
Proof. vm_compute. split; reflexivity. Qed.

(** PowerShell prints [True]: the clipboard holds an image. *)
Example windows_detects_image :
  fst (Windows.hasClipboardImageWindows
         (windows (Fulfilled (bytes (String.append "True" crlf))) None) emptyWorld)
  = Fulfilled true.
Proof. reflexivity. Qed.

(** The same when the output starts with a byte order mark, which [trim]
    removes with the rest of the white space. *)
Example windows_detects_image_after_mark :
  fst (Windows.hasClipboardImageWindows
         (windows (Fulfilled (byteOrderMark ++ bytes (String.append "True" crlf))) None)
         emptyWorld)
  = Fulfilled true.
Proof. reflexivity. Qed.

(** A byte that is not UTF-8 is read as U+FFFD, EF BF BD. *)
Example stray_byte_is_replaced :
  Utf8.decode (bytes "Acc" ++ [xe8] ++ bytes "s")
  = string_of_list_byte (bytes "Acc" ++ Utf8.replacement ++ bytes "s").
Proof. reflexivity. Qed.

(** PowerShell saves the image and prints [SUCCESS]. *)
Example windows_saves_image :
  fst (Windows.saveClipboardImageWindows
         (windows (Fulfilled (bytes (String.append "SUCCESS" crlf))) (Some pngMagic))
         emptyWorld)
  = Fulfilled (Success windowsPath).
Proof. vm_compute. reflexivity. Qed.

End Examples.

(** * The claims *)

Section Claims.

Import Samples MoreSamples.

(** C1.  In every run of [saveClipboardImageLinux], when a type enumeration
    (by wl-paste under Wayland, or by xclip) succeeds and lists none of
    image/png, image/jpeg and image/gif, the result is the failure
    "No image found in clipboard." and the enumeration is the last
    operation of the run: no later backend is probed, negotiated with or
    fetched from. *)
Theorem no_image_listed_is_definitive sys w r w' pre e post :
  Linux.saveClipboardImageLinux sys w = (r, w') →
  events_since w w' = pre ++ e :: post →
  listsNoImage e = true →
  r = Fulfilled (Failure msg_no_image) ∧ post = [].
Proof.
  intros Hrun Hev He.
  exact (stopsAt_split _ _ _ (saveClipboardImageLinux_listsNoImage sys w r w' Hrun)
           pre e post Hev He).
Qed.

(** Under Wayland wl-paste lists text only, while xclip is installed and
    offers a PNG image: the save fails at once. *)
Lemma no_image_listed_is_definitive_witness :
  fst (Linux.saveClipboardImageLinux (desktop waylandSession textOnWayland) emptyWorld)
  = Fulfilled (Failure msg_no_image)
  ∧ @nil Event = [].
Proof.
  pose (run := Linux.saveClipboardImageLinux (desktop waylandSession textOnWayland)
                 emptyWorld).
  apply (no_image_listed_is_definitive
           (desktop waylandSession textOnWayland) emptyWorld (fst run) (snd run)
           (take 2 (events_since emptyWorld (snd run)))
           (EvExec "wl-paste" ["--list-types"] noOpts
              (Fulfilled (bytes "text/plain UTF8_STRING")))
           []);
    vm_compute; reflexivity.
Defined.

(** C3, as the code has it.  In every run of [saveClipboardImageLinux],
    when a byte fetch succeeds with a zero-length byte sequence, the fetch
    is the last operation of the run and the result is the failure
    "Clipboard image is empty.": no further backend is tried. *)
Theorem empty_fetch_is_terminal sys w r w' pre e post :
  Linux.saveClipboardImageLinux sys w = (r, w') →
  events_since w w' = pre ++ e :: post →
  fetchedNothing e = true →
  r = Fulfilled (Failure msg_empty) ∧ post = [].
Proof.
  intros Hrun Hev He.
  exact (stopsAt_split _ _ _ (saveClipboardImageLinux_fetchedNothing sys w r w' Hrun)
           pre e post Hev He).
Qed.

Lemma empty_fetch_is_terminal_witness :
  fst (Linux.saveClipboardImageLinux (desktop waylandSession emptyOnWayland) emptyWorld)
  = Fulfilled (Failure msg_empty)
  ∧ @nil Event = [].
Proof.
  pose (run := Linux.saveClipboardImageLinux (desktop waylandSession emptyOnWayland)
                 emptyWorld).
  apply (empty_fetch_is_terminal
           (desktop waylandSession emptyOnWayland) emptyWorld (fst run) (snd run)
           (take 3 (events_since emptyWorld (snd run)))
           (EvExec "wl-paste" ["--type"; "image/png"] Linux.fetchOpts (Fulfilled []))
           []);
    vm_compute; reflexivity.
Defined.

(** C3, as stated, fails.  Under Wayland wl-paste lists image/png and its
    fetch succeeds with no bytes; xclip is installed and would deliver a
    PNG image (it does when the same machine runs without Wayland).  The
    save ends with "Clipboard image is empty." and xclip is neither probed
    nor run. *)
Lemma empty_fetch_does_not_fall_through :
  let sys := desktop waylandSession emptyOnWayland in
  let run := Linux.saveClipboardImageLinux sys emptyWorld in
  fst run = Fulfilled (Failure msg_empty)
  ∧ events_since emptyWorld (snd run) =
      [ EvEnsureDir (Fulfilled "/tmp/kilocode-clipboard");
        EvExec "which" ["wl-paste"] noOpts (Fulfilled (bytes "/usr/bin/wl-paste"));
        EvExec "wl-paste" ["--list-types"] noOpts (Fulfilled (bytes "image/png"));
        EvExec "wl-paste" ["--type"; "image/png"] Linux.fetchOpts (Fulfilled []) ]
  ∧ Forall (λ e, invokes "xclip" e = false ∧ probes "xclip" e = false)
           (events_since emptyWorld (snd run))
  ∧ fst (Linux.saveClipboardImageLinux (desktop x11Session emptyOnWayland) emptyWorld)
    = Fulfilled (Success "/tmp/kilocode-clipboard/clipboard-1700000000000-ab12cd.png").
Proof. vm_compute. repeat split; repeat constructor. Qed.

(** C9.  When WAYLAND_DISPLAY is unset or empty, neither the detection nor
    the save runs the executable wl-paste, whatever is installed, and the
    first backend probed is xclip: the detection starts with [which xclip],
    the save does so right after the staging directory. *)
Theorem wl_paste_needs_wayland sys w :
  sys_env sys "WAYLAND_DISPLAY" = None
  ∨ sys_env sys "WAYLAND_DISPLAY" = Some EmptyString →
  (let evs := events_since w (snd (Linux.hasClipboardImageLinux sys w)) in
   Forall (λ e, invokes "wl-paste" e = false) evs
   ∧ ∃ e rest, evs = e :: rest ∧ probes "xclip" e = true)
  ∧ (let evs := events_since w (snd (Linux.saveClipboardImageLinux sys w)) in
     Forall (λ e, invokes "wl-paste" e = false) evs
     ∧ ∃ r rest, evs = EvEnsureDir r :: rest
         ∧ ∀ dir, r = Fulfilled dir →
                  ∃ e rest', rest = e :: rest' ∧ probes "xclip" e = true).
Proof.
  intros Henv. pose proof (isWayland_false sys Henv) as Hw. split.
  - exact (detection_skips_wl_paste sys w Hw).
  - exact (save_skips_wl_paste sys w Hw).
Qed.

(** wl-paste is installed, WAYLAND_DISPLAY is not set. *)
Lemma wl_paste_needs_wayland_witness :
  Forall (λ e, invokes "wl-paste" e = false)
    (events_since emptyWorld
       (snd (Linux.saveClipboardImageLinux (desktop x11Session textOnWayland) emptyWorld))).
Proof.
  exact (proj1 (proj2 (wl_paste_needs_wayland (desktop x11Session textOnWayland)
                         emptyWorld (or_introl eq_refl)))).
Defined.

(** C8.  In a fixed environment (the process runner answers a command the
    same way whenever it is asked), two consecutive existence checks
    return the same boolean, on Linux and on Windows. *)
Theorem detection_is_repeatable sys w :
  fixedEnvironment sys →
  (∃ b, fst (Linux.hasClipboardImageLinux sys w) = Fulfilled b
        ∧ fst (Linux.hasClipboardImageLinux sys
                 (snd (Linux.hasClipboardImageLinux sys w))) = Fulfilled b)
  ∧ (∃ b, fst (Windows.hasClipboardImageWindows sys w) = Fulfilled b
          ∧ fst (Windows.hasClipboardImageWindows sys
                   (snd (Windows.hasClipboardImageWindows sys w))) = Fulfilled b).
Proof.
  intros Hfixed. split.
  - destruct (hasClipboardImageLinux_total sys w) as (b & w' & E).
    exists b.
    rewrite (hasClipboardImageLinux_fixed sys Hfixed
               (snd (Linux.hasClipboardImageLinux sys w)) w), E.
    split; reflexivity.
  - destruct (hasClipboardImageWindows_total sys w) as (b & w' & E).
    exists b.
    rewrite (hasClipboardImageWindows_fixed sys Hfixed
               (snd (Windows.hasClipboardImageWindows sys w)) w), E.
    split; reflexivity.
Qed.

Lemma detection_is_repeatable_witness :
  ∃ b, fst (Linux.hasClipboardImageLinux (desktop x11Session textOnWayland) emptyWorld)
       = Fulfilled b
       ∧ fst (Linux.hasClipboardImageLinux (desktop x11Session textOnWayland)
                (snd (Linux.hasClipboardImageLinux (desktop x11Session textOnWayland)
                        emptyWorld)))
         = Fulfilled b.
Proof.
  refine (proj1 (detection_is_repeatable (desktop x11Session textOnWayland) emptyWorld _)).
  unfold fixedEnvironment. simpl. reflexivity.
Defined.

(** C10.  [hasClipboardImageWindows] always settles with a boolean (it
    never throws), and the boolean is true exactly when the PowerShell
    invocation succeeds and its trimmed standard output equals "true"
    compared case-insensitively. *)
Theorem windows_detection_reads_true sys w :
  ∃ b w', Windows.hasClipboardImageWindows sys w = (Fulfilled b, w')
    ∧ (b = true ↔
       ∃ out, fst (sys_execFile sys "powershell.exe"
                     (powershellArgs Windows.containsImageScript) noOpts w)
              = Fulfilled out
              ∧ equalsIgnoringCase (JsString.trim (Utf8.decode out)) "true"
                = true).
Proof. exact (hasClipboardImageWindows_spec sys w). Qed.

(** C5, as the code has it.  When no executable is installed (every
    [which] fails), [saveClipboardImageLinux] rejects if the staging
    directory cannot be prepared; otherwise it fails with
    "No clipboard tool available. ...".  That message tells the case
    apart: it is not the message of the no-image case, and the no-image
    message is what the save fails with when one of the three tools is
    installed and no run of wl-paste or xclip succeeds.  On Windows there
    is no probe and no message of its own: when the invocation of
    powershell.exe fails, [saveClipboardImageWindows] fails with the
    message of the process runner, and when the script prints NO_IMAGE it
    fails with the no-image message. *)
Theorem no_tool_is_told_apart :
  (∀ sys w,
      (∀ tool opts w1, ∃ m, fst (sys_execFile sys "which" [tool] opts w1) = Rejected m) →
      match sys_ensureClipboardDir sys w with
      | Fulfilled _ =>
          fst (Linux.saveClipboardImageLinux sys w) = Fulfilled (Failure msg_no_tool)
      | Rejected m => fst (Linux.saveClipboardImageLinux sys w) = Rejected m
      end)
  ∧ (∀ sys tool w dir,
        tool ∈ ["wl-paste"; "xclip"; "xsel"] →
        (∀ opts w1, ∃ out, fst (sys_execFile sys "which" [tool] opts w1) = Fulfilled out) →
        (∀ args opts w1, ∃ m, fst (sys_execFile sys "wl-paste" args opts w1) = Rejected m) →
        (∀ args opts w1, ∃ m, fst (sys_execFile sys "xclip" args opts w1) = Rejected m) →
        sys_ensureClipboardDir sys w = Fulfilled dir →
        fst (Linux.saveClipboardImageLinux sys w) = Fulfilled (Failure msg_no_image))
  ∧ msg_no_tool ≠ msg_no_image
  ∧ (∀ sys w r w' pre e post,
        Windows.saveClipboardImageWindows sys w = (r, w') →
        events_since w w' = pre ++ e :: post →
        (∀ file args opts m,
            e = EvExec file args opts (Rejected m) → r = Fulfilled (Failure m))
        ∧ (saidNoImage e = true → r = Fulfilled (Failure msg_no_image))).
Proof.
  split; [| split; [| split]].
  - intros sys w Hnone.
    destruct (sys_ensureClipboardDir sys w) as [dir|m] eqn:Hdir.
    + exact (saveClipboardImageLinux_no_tool sys Hnone w dir Hdir).
    + unfold_driver. rewrite Hdir. reflexivity.
  - exact saveClipboardImageLinux_tool_without_image.
  - discriminate.
  - intros sys w r w' pre e post Hrun Hev. split.
    + pose proof (saveClipboardImageWindows_powershell_failed sys w r w' Hrun) as Hall.
      rewrite Hev in Hall. apply Forall_app in Hall as [_ Hall].
      apply Forall_cons in Hall as [He _]. exact He.
    + pose proof (saveClipboardImageWindows_said_no_image sys w r w' Hrun) as Hall.
      rewrite Hev in Hall. apply Forall_app in Hall as [_ Hall].
      apply Forall_cons in Hall as [He _]. exact He.
Qed.

(** Nothing is installed; xclip is installed and cannot open the display;
    powershell.exe cannot be started. *)
Lemma no_tool_is_told_apart_witness :
  fst (Linux.saveClipboardImageLinux (desktop x11Session nothingInstalled) emptyWorld)
  = Fulfilled (Failure msg_no_tool)
  ∧ fst (Linux.saveClipboardImageLinux (desktop x11Session brokenXclip) emptyWorld)
    = Fulfilled (Failure msg_no_image)
  ∧ fst (Windows.saveClipboardImageWindows (windows (notFound "powershell.exe") None)
           emptyWorld)
    = Fulfilled (Failure "spawn powershell.exe ENOENT").
Proof.
  split; [| split].
  - apply (proj1 no_tool_is_told_apart (desktop x11Session nothingInstalled) emptyWorld).
    intros tool opts w1. eexists. reflexivity.
  - apply (proj1 (proj2 no_tool_is_told_apart) (desktop x11Session brokenXclip)
             "xclip" emptyWorld "/tmp/kilocode-clipboard").
    + rewrite !elem_of_cons. right. left. reflexivity.
    + intros opts w1. eexists. reflexivity.
    + intros args opts w1. eexists. reflexivity.
    + intros args opts w1. eexists. reflexivity.
    + reflexivity.
  - pose (run := Windows.saveClipboardImageWindows
                   (windows (notFound "powershell.exe") None) emptyWorld).
    apply (proj1 (proj2 (proj2 (proj2 no_tool_is_told_apart))
                    (windows (notFound "powershell.exe") None) emptyWorld
                    (fst run) (snd run)
                    (take 2 (events_since emptyWorld (snd run)))
                    (EvExec "powershell.exe"
                       (saveCommand (windows (notFound "powershell.exe") None)
                          "C:\Temp\kilocode-clipboard" "clipboard-1.png")
                       noOpts (Rejected "spawn powershell.exe ENOENT"))
                    (drop 3 (events_since emptyWorld (snd run)))
                    ltac:(vm_compute; reflexivity) ltac:(vm_compute; reflexivity))
             _ _ _ _ eq_refl).
Defined.

(** C5, as stated, fails.  No executable is installed and the staging
    directory cannot be created: the save does not fail with a message, it
    rejects, on Linux and on Windows. *)
Lemma no_tool_save_can_reject :
  (∀ tool opts w,
      ∃ m, fst (sys_execFile bareReadOnlyHome "which" [tool] opts w) = Rejected m)
  ∧ fst (Linux.saveClipboardImageLinux bareReadOnlyHome emptyWorld)
    = Rejected "EACCES: permission denied, mkdir '/tmp/kilocode-clipboard'"
  ∧ fst (Windows.saveClipboardImageWindows bareReadOnlyHome emptyWorld)
    = Rejected "EACCES: permission denied, mkdir '/tmp/kilocode-clipboard'".
Proof.
  split; [| split].
  - intros tool opts w. eexists. reflexivity.
  - vm_compute. reflexivity.
  - vm_compute. reflexivity.
Qed.

(** C7.  The chain of tests in the two blocks chooses the first supported
    type in the order png, jpeg, gif: image/png when it is listed,
    otherwise image/jpeg when it is listed, otherwise image/gif when it is
    listed.  In every run a type enumeration that lists a supported type
    is followed at once by the fetch of the chosen type from the same
    backend, and bytes that arrive, unless there are none, get a file name
    of the chosen format. *)
Theorem format_follows_priority :
  (∀ types w,
      Linux.chooseType types w =
      match firstSupported types with
      | Some choice => (Normal choice, w)
      | None => (Return (Failure msg_no_image), w)
      end)
  ∧ (∀ types,
        firstSupported types =
        if JsString.includes "image/png" types then Some ("image/png", "png")
        else if JsString.includes "image/jpeg" types then Some ("image/jpeg", "jpeg")
        else if JsString.includes "image/gif" types then Some ("image/gif", "gif")
        else None)
  ∧ (∀ sys w r w' pre e post,
        Linux.saveClipboardImageLinux sys w = (r, w') →
        events_since w w' = pre ++ e :: post →
        negotiated e post).
Proof.
  split; [| split].
  - exact chooseType_firstSupported.
  - reflexivity.
  - intros sys w r w' pre e post Hrun Hev.
    exact (every_event _ _ (saveClipboardImageLinux_negotiated sys w r w' Hrun)
             pre e post Hev).
Qed.

(** xclip lists [TARGETS image/png text/html]: image/png is fetched and
    the file name is asked for the format png. *)
Lemma format_follows_priority_witness :
  ∃ res post',
    drop 3 (events_since emptyWorld
              (snd (Linux.saveClipboardImageLinux (desktop x11Session textOnWayland)
                      emptyWorld)))
    = EvExec "xclip" (fetchArgs "xclip" "image/png") Linux.fetchOpts res :: post'
    ∧ ∀ data, res = Fulfilled data → data ≠ [] →
        ∃ name post'', post' = EvGenName "png" name :: post''.
Proof.
  pose (run := Linux.saveClipboardImageLinux (desktop x11Session textOnWayland)
                 emptyWorld).
  refine (proj2 (proj2 format_follows_priority)
            (desktop x11Session textOnWayland) emptyWorld (fst run) (snd run)
            (take 2 (events_since emptyWorld (snd run)))
            (EvExec "xclip" Linux.xclipTargets noOpts
               (Fulfilled (bytes "TARGETS image/png text/html")))
            (drop 3 (events_since emptyWorld (snd run)))
            _ _ "xclip" "TARGETS image/png text/html" "image/png" "png" _ _).
  - vm_compute; reflexivity.
  - vm_compute; reflexivity.
  - exists Linux.xclipTargets, noOpts, (bytes "TARGETS image/png text/html").
    vm_compute. repeat split.
  - vm_compute; reflexivity.
Defined.

(** C6, as the code has it.  After a successful save on Linux the file at
    the returned path holds exactly the bytes of the one successful fetch
    of the run, and they are not empty.  On Windows no bytes are fetched:
    the script itself writes the file, with [$img.Save] in the PNG
    format, and prints SUCCESS.  A successful save is the preparation of
    the directory, the file name, the one PowerShell call with the script
    for the output path and the inspection of the output file; the disk is
    as that call left it, with a non-empty file of the inspected size at
    the returned path. *)
Theorem saved_file_holds_fetched_bytes :
  (∀ sys w p w',
      Linux.saveClipboardImageLinux sys w = (Fulfilled (Success p), w') →
      ∃ pre file args data post,
        events_since w w'
          = pre ++ EvExec file args Linux.fetchOpts (Fulfilled data) :: post
        ∧ Forall (λ e, fetched e = false) pre
        ∧ Forall (λ e, fetched e = false) post
        ∧ disk w' !! p = Some data
        ∧ length data > 0)
  ∧ (∀ sys w p w',
        Windows.saveClipboardImageWindows sys w = (Fulfilled (Success p), w') →
        ∃ dir name out content w1,
          events_since w w'
          = [EvEnsureDir (Fulfilled dir); EvGenName "png" (Fulfilled name);
             EvExec "powershell.exe" (saveCommand sys dir name) noOpts (Fulfilled out);
             EvStat p (Fulfilled (length content))]
          ∧ p = sys_pathJoin sys dir name
          ∧ disk w1 = disk w
          ∧ history w1
            = history w ++ [EvEnsureDir (Fulfilled dir); EvGenName "png" (Fulfilled name)]
          ∧ sys_execFile sys "powershell.exe" (saveCommand sys dir name) noOpts w1
            = (Fulfilled out, disk w')
          ∧ disk w' !! p = Some content
          ∧ length content > 0).
Proof.
  split.
  - intros sys w p w' Hrun.
    destruct (saveClipboardImageLinux_success sys w p w' Hrun)
      as (_ & pre & file & args & data & post & Hev & Hpre & Hpost & Hfile & Hne).
    exists pre, file, args, data, post. repeat split; try assumption.
    destruct data; [congruence | simpl; lia].
  - intros sys w p w' Hrun.
    destruct (saveClipboardImageWindows_written sys w p w' Hrun)
      as (dir & name & out & content & w1 & Hev & Hp & Hd & Hh & Hexec & Hfile & Hne).
    exists dir, name, out, content, w1. repeat split; try assumption.
    destruct content; [congruence | simpl; lia].
Qed.

(** On Linux xclip delivers the PNG magic number and the file holds it; on
    Windows the script leaves a file and prints SUCCESS. *)
Lemma saved_file_holds_fetched_bytes_witness :
  (∃ pre file args data post,
      events_since emptyWorld
        (snd (Linux.saveClipboardImageLinux (desktop x11Session textOnWayland) emptyWorld))
        = pre ++ EvExec file args Linux.fetchOpts (Fulfilled data) :: post
      ∧ Forall (λ e, fetched e = false) pre
      ∧ Forall (λ e, fetched e = false) post
      ∧ disk (snd (Linux.saveClipboardImageLinux (desktop x11Session textOnWayland)
                     emptyWorld))
          !! "/tmp/kilocode-clipboard/clipboard-1700000000000-ab12cd.png"
        = Some data
      ∧ length data > 0)
  ∧ (let sys := windows (Fulfilled (bytes (String.append "SUCCESS" crlf))) (Some pngMagic) in
     let w' := snd (Windows.saveClipboardImageWindows sys emptyWorld) in
     ∃ dir name out content w1,
       events_since emptyWorld w'
       = [EvEnsureDir (Fulfilled dir); EvGenName "png" (Fulfilled name);
          EvExec "powershell.exe" (saveCommand sys dir name) noOpts (Fulfilled out);
          EvStat windowsPath (Fulfilled (length content))]
       ∧ windowsPath = sys_pathJoin sys dir name
       ∧ disk w1 = disk emptyWorld
       ∧ history w1
         = history emptyWorld
             ++ [EvEnsureDir (Fulfilled dir); EvGenName "png" (Fulfilled name)]
       ∧ sys_execFile sys "powershell.exe" (saveCommand sys dir name) noOpts w1
         = (Fulfilled out, disk w')
       ∧ disk w' !! windowsPath = Some content
       ∧ length content > 0).
Proof.
  split.
  - apply (proj1 saved_file_holds_fetched_bytes (desktop x11Session textOnWayland)
             emptyWorld "/tmp/kilocode-clipboard/clipboard-1700000000000-ab12cd.png").
    vm_compute. reflexivity.
  - apply (proj2 saved_file_holds_fetched_bytes
             (windows (Fulfilled (bytes (String.append "SUCCESS" crlf))) (Some pngMagic))
             emptyWorld windowsPath).
    vm_compute. reflexivity.
Defined.

(** C6, as stated, fails.  On Windows the clipboard holds an image and the
    script saves it: the save succeeds, the file holds the PNG data that
    [$img.Save] wrote, and the only bytes that the backend returned are
    the line SUCCESS.  No call of the run returned the content of the
    file. *)
Lemma windows_file_is_not_what_was_returned :
  let sys := windows (Fulfilled (bytes (String.append "SUCCESS" crlf))) (Some pngMagic) in
  let run := Windows.saveClipboardImageWindows sys emptyWorld in
  fst run = Fulfilled (Success windowsPath)
  ∧ disk (snd run) !! windowsPath = Some pngMagic
  ∧ events_since emptyWorld (snd run)
    = [ EvEnsureDir (Fulfilled "C:\Temp\kilocode-clipboard");
        EvGenName "png" (Fulfilled "clipboard-1.png");
        EvExec "powershell.exe"
          (saveCommand sys "C:\Temp\kilocode-clipboard" "clipboard-1.png") noOpts
          (Fulfilled (bytes (String.append "SUCCESS" crlf)));
        EvStat windowsPath (Fulfilled 4) ]
  ∧ ¬ holdsFetchedBytes (events_since emptyWorld (snd run)) (disk (snd run)) windowsPath.
Proof.
  cbv zeta.
  assert (events_since emptyWorld
            (snd (Windows.saveClipboardImageWindows
                    (windows (Fulfilled (bytes (String.append "SUCCESS" crlf)))
                       (Some pngMagic)) emptyWorld))
          = [ EvEnsureDir (Fulfilled "C:\Temp\kilocode-clipboard");
              EvGenName "png" (Fulfilled "clipboard-1.png");
              EvExec "powershell.exe"
                (saveCommand (windows (Fulfilled (bytes (String.append "SUCCESS" crlf)))
                                (Some pngMagic))
                   "C:\Temp\kilocode-clipboard" "clipboard-1.png") noOpts
                (Fulfilled (bytes (String.append "SUCCESS" crlf)));
              EvStat windowsPath (Fulfilled 4) ]) as Hev
    by (vm_compute; reflexivity).
  assert (disk (snd (Windows.saveClipboardImageWindows
                       (windows (Fulfilled (bytes (String.append "SUCCESS" crlf)))
                          (Some pngMagic)) emptyWorld))
            !! windowsPath = Some pngMagic) as Hfile
    by (vm_compute; reflexivity).
  split; [vm_compute; reflexivity |].
  split; [exact Hfile |]. split; [exact Hev |].
  intros (file & args & opts & data & Hin & Hdata).
  rewrite Hfile in Hdata. injection Hdata as <-.
  rewrite Hev in Hin.
  rewrite !elem_of_cons, elem_of_nil in Hin.
  destruct Hin as [Hin | [Hin | [Hin | [Hin | []]]]]; discriminate Hin.
Qed.




(** The Windows driver returns without any cleanup when PowerShell prints
    an ERROR line, after a byte order mark or not: what [$img.Save] left
    at the path stays there. *)
Example windows_error_line_skips_cleanup :
  let sys := windows (Fulfilled (byteOrderMark
                                   ++ bytes "ERROR: A generic error occurred in GDI+."))
                     (Some []) in
  let run := Windows.saveClipboardImageWindows sys emptyWorld in
  fst run = Fulfilled (Failure "A generic error occurred in GDI+.")
  ∧ generatedPath sys (events_since emptyWorld (snd run)) = Some windowsPath
  ∧ disk (snd run) !! windowsPath = Some [].
Proof. vm_compute. repeat split. Qed.

(** C4, as the code has it.  The two detections never reject.  The two
    saves reject when [ensureClipboardDir] rejects, and a save that
    rejects does so with the failure of [ensureClipboardDir] or of
    [generateClipboardFilename], its last operation: a failure of the
    process runner or of the file system is always returned as a result. *)
Theorem only_setup_failures_cross sys w :
  (∃ b w', Linux.hasClipboardImageLinux sys w = (Fulfilled b, w'))
  ∧ (∃ b w', Windows.hasClipboardImageWindows sys w = (Fulfilled b, w'))
  ∧ (∀ m, sys_ensureClipboardDir sys w = Rejected m →
          fst (Linux.saveClipboardImageLinux sys w) = Rejected m
          ∧ fst (Windows.saveClipboardImageWindows sys w) = Rejected m)
  ∧ (∀ m w',
        Linux.saveClipboardImageLinux sys w = (Rejected m, w') →
        ∃ pre, events_since w w' = pre ++ [EvEnsureDir (Rejected m)]
               ∨ ∃ fmt, events_since w w' = pre ++ [EvGenName fmt (Rejected m)])
  ∧ (∀ m w',
        Windows.saveClipboardImageWindows sys w = (Rejected m, w') →
        ∃ pre, events_since w w' = pre ++ [EvEnsureDir (Rejected m)]
               ∨ ∃ fmt, events_since w w' = pre ++ [EvGenName fmt (Rejected m)]).
Proof.
  split; [exact (hasClipboardImageLinux_total sys w) |].
  split; [exact (hasClipboardImageWindows_total sys w) |].
  split; [| split].
  - intros m Hdir. unfold_driver. rewrite Hdir. split; reflexivity.
  - exact (saveClipboardImageLinux_rejected sys w).
  - exact (saveClipboardImageWindows_rejected sys w).
Qed.

Lemma only_setup_failures_cross_witness :
  fst (Linux.saveClipboardImageLinux readOnlyHome emptyWorld)
  = Rejected "EACCES: permission denied, mkdir '/tmp/kilocode-clipboard'"
  ∧ fst (Windows.saveClipboardImageWindows readOnlyHome emptyWorld)
    = Rejected "EACCES: permission denied, mkdir '/tmp/kilocode-clipboard'".
Proof.
  apply (proj1 (proj2 (proj2 (only_setup_failures_cross readOnlyHome emptyWorld)))).
  reflexivity.
Defined.

(** C4, as stated, fails.  The staging directory cannot be created: both
    saves reject instead of returning [{ success: false, error }]. *)
Lemma save_rejects_without_directory :
  fst (Linux.saveClipboardImageLinux readOnlyHome emptyWorld)
  = Rejected "EACCES: permission denied, mkdir '/tmp/kilocode-clipboard'"
  ∧ fst (Windows.saveClipboardImageWindows readOnlyHome emptyWorld)
    = Rejected "EACCES: permission denied, mkdir '/tmp/kilocode-clipboard'".
Proof. vm_compute. split; reflexivity. Qed.

End Claims.

(** * Further properties of the drivers *)

(** ** Substrings *)


Lemma startsWith_cons a p b s :
  JsString.startsWith (String a p) (String b s)
  = if Ascii.eqb a b then JsString.startsWith p s else false.
Proof. reflexivity. Qed.

Lemma includes_unfold p s :
  JsString.includes p s
  = if JsString.startsWith p s then true
    else match s with
         | EmptyString => false
         | String _ s' => JsString.includes p s'
         end.
Proof. destruct s; reflexivity. Qed.

Lemma startsWith_prefix p s :
  JsString.startsWith p s = true ↔ ∃ post, s = String.append p post.
Proof.
  revert s. induction p as [|a p IH]; intros s.
  - split; [intros _; exists s; reflexivity | reflexivity].
  - destruct s as [|b s].
    + split; [discriminate | intros [post [=]]].
    + rewrite startsWith_cons. destruct (Ascii.eqb a b) eqn:Hab.
      * apply Ascii.eqb_eq in Hab as ->. rewrite IH. split.
        -- intros [post ->]. exists post. reflexivity.
        -- intros [post [= ->]]. exists post. reflexivity.
      * apply Ascii.eqb_neq in Hab. split; [discriminate |].
        intros [post [= -> _]]. congruence.
Qed.

Lemma includes_substring p s :
  JsString.includes p s = true ↔
  ∃ pre post, s = String.append pre (String.append p post).
Proof.
  induction s as [|b s IH]; rewrite includes_unfold;
    destruct (JsString.startsWith p _) eqn:Hp.
  - apply startsWith_prefix in Hp as [post Hpost].
    split; [intros _; exists EmptyString, post; exact Hpost | reflexivity].
  - split; [discriminate |]. intros (pre & post & Heq).
    destruct pre; [| discriminate Heq]. simpl in Heq.
    assert (JsString.startsWith p EmptyString = true) as H
        by (apply startsWith_prefix; eauto).
    congruence.
  - apply startsWith_prefix in Hp as [post Hpost].
    split; [intros _; exists EmptyString, post; exact Hpost | reflexivity].
  - rewrite IH. split.
    + intros (pre & post & ->). exists (String b pre), post. reflexivity.
    + intros (pre & post & Heq). destruct pre as [|c pre]; simpl in Heq.
      * assert (JsString.startsWith p (String b s) = true) as H
            by (apply startsWith_prefix; eauto).
        congruence.
      * injection Heq as _ ->. eauto.
Qed.

(** ** Decoding and ASCII texts *)

Lemma code_of_byte b : JsString.code (ascii_of_byte b) = Byte.to_N b.
Proof. destruct b; reflexivity. Qed.

Lemma string_of_list_byte_app l1 l2 :
  string_of_list_byte (l1 ++ l2)
  = String.append (string_of_list_byte l1) (string_of_list_byte l2).
Proof.
  induction l1 as [|b l1 IH]; [reflexivity |].
  change (string_of_list_byte ((b :: l1) ++ l2))
    with (String (ascii_of_byte b) (string_of_list_byte (l1 ++ l2))).
  rewrite IH. reflexivity.
Qed.

(** [string_of_list_byte] one byte at a time. *)
Ltac byte_cons :=
  repeat match goal with
  | |- context [string_of_list_byte (?b :: ?l)] =>
      change (string_of_list_byte (b :: l))
        with (String (ascii_of_byte b) (string_of_list_byte l))
  | H : context [string_of_list_byte (?b :: ?l)] |- _ =>
      change (string_of_list_byte (b :: l))
        with (String (ascii_of_byte b) (string_of_list_byte l)) in H
  end.

(** A byte above 0x7F is not the first character of an ASCII text. *)
Lemma startsWith_nonAscii a p b s :
  JsString.isSingle a = true → nonAscii b →
  JsString.startsWith (String a p) (String (ascii_of_byte b) s) = false.
Proof.
  intros Ha Hb. rewrite startsWith_cons.
  destruct (Ascii.eqb a (ascii_of_byte b)) eqn:E; [| reflexivity].
  apply Ascii.eqb_eq in E. subst a. unfold nonAscii in Hb. congruence.
Qed.

Lemma includes_nonAscii a p b s :
  JsString.isSingle a = true → nonAscii b →
  JsString.includes (String a p) (String (ascii_of_byte b) s)
  = JsString.includes (String a p) s.
Proof.
  intros Ha Hb. rewrite includes_unfold, (startsWith_nonAscii a p b s Ha Hb). reflexivity.
Qed.

Lemma includes_nonAscii_run a p l s :
  JsString.isSingle a = true → Forall nonAscii l →
  JsString.includes (String a p) (String.append (string_of_list_byte l) s)
  = JsString.includes (String a p) s.
Proof.
  intros Ha Hl. induction Hl as [|b l Hb _ IH]; [reflexivity |].
  change (String.append (string_of_list_byte (b :: l)) s)
    with (String (ascii_of_byte b) (String.append (string_of_list_byte l) s)).
  rewrite (includes_nonAscii a p b _ Ha Hb). exact IH.
Qed.

Lemma replacement_nonAscii : Forall nonAscii Utf8.replacement.
Proof. repeat constructor. Qed.

Lemma within_nonAscii lo hi b :
  (0x80 <= lo)%N → Utf8.within lo hi b = true → nonAscii b.
Proof.
  unfold Utf8.within, nonAscii, JsString.isSingle. intros Hlo H.
  apply andb_true_iff in H as [H _]. apply N.leb_le in H.
  rewrite code_of_byte. apply N.ltb_ge. lia.
Qed.

(** What a byte opens, and what that says of the byte. *)
Lemma lead_cases b :
  (Utf8.lead b = Utf8.Single ∧ JsString.isSingle (ascii_of_byte b) = true)
  ∨ (Utf8.lead b = Utf8.Invalid ∧ nonAscii b)
  ∨ (∃ m lo hi, Utf8.lead b = Utf8.Multi (S m) lo hi ∧ (0x80 <= lo)%N ∧ nonAscii b).
Proof.
  destruct b; vm_compute;
    first [ left; split; reflexivity
          | right; left; split; reflexivity
          | right; right; do 3 eexists; split; [reflexivity |];
            split; [discriminate | reflexivity] ].
Qed.

Lemma scan_unfold seen more lo hi b rest :
  Utf8.scan seen more lo hi (b :: rest)
  = let fresh :=
      match Utf8.lead b with
      | Utf8.Single => b :: Utf8.scan [] 0 0 0 rest
      | Utf8.Multi m l h => Utf8.scan [b] m l h rest
      | Utf8.Invalid => Utf8.replacement ++ Utf8.scan [] 0 0 0 rest
      end in
    match more with
    | O => fresh
    | S m =>
        if Utf8.within lo hi b then
          match m with
          | O => seen ++ b :: Utf8.scan [] 0 0 0 rest
          | S _ => Utf8.scan (seen ++ [b]) m 0x80 0xBF rest
          end
        else Utf8.replacement ++ fresh
    end.
Proof. reflexivity. Qed.

(** A sequence under way comes out as bytes above 0x7F. *)
Lemma scan_head seen m lo hi input :
  seen ≠ [] → Forall nonAscii seen → (0x80 <= lo)%N →
  ∃ c out, Utf8.scan seen (S m) lo hi input = c :: out ∧ nonAscii c.
Proof.
  revert seen m lo hi. induction input as [|b rest IH]; intros seen m lo hi Hne Hseen Hlo.
  - exists xef, [xbf; xbd]. split; reflexivity.
  - rewrite scan_unfold. cbv zeta.
    destruct (Utf8.within lo hi b) eqn:Hb.
    + pose proof (within_nonAscii lo hi b Hlo Hb) as Hnb.
      destruct m as [|m].
      * destruct seen as [|c seen]; [contradiction |].
        exists c, (seen ++ b :: Utf8.scan [] 0 0 0 rest). split; [reflexivity |].
        apply Forall_cons in Hseen as [Hc _]. exact Hc.
      * apply IH.
        -- destruct seen; discriminate.
        -- apply Forall_app. split; [exact Hseen | repeat constructor; exact Hnb].
        -- discriminate.
    + exists xef. eexists. split; reflexivity.
Qed.

(** Decoding does not change whether the text starts with an ASCII text. *)
Lemma startsWith_scan p input :
  asciiOnly p = true →
  JsString.startsWith p (string_of_list_byte (Utf8.scan [] 0 0 0 input))
  = JsString.startsWith p (string_of_list_byte input).
Proof.
  revert p. induction input as [|b rest IH]; intros p Hp; [reflexivity |].
  destruct p as [|a p]; [reflexivity |].
  simpl in Hp. apply andb_true_iff in Hp as [Ha Hp].
  rewrite scan_unfold. cbv zeta.
  destruct (lead_cases b) as [[-> Hb] | [[-> Hb] | (m & lo & hi & -> & Hlo & Hb)]].
  - byte_cons. rewrite !startsWith_cons, (IH p Hp). reflexivity.
  - unfold Utf8.replacement. simpl app. byte_cons.
    rewrite (startsWith_nonAscii a p b _ Ha Hb).
    apply startsWith_nonAscii; [exact Ha | reflexivity].
  - destruct (scan_head [b] m lo hi rest) as (c & out & -> & Hc);
      [discriminate | repeat constructor; exact Hb | exact Hlo |].
    byte_cons.
    rewrite (startsWith_nonAscii a p c _ Ha Hc), (startsWith_nonAscii a p b _ Ha Hb).
    reflexivity.
Qed.

(** Decoding does not change whether the text contains an ASCII text. *)
Lemma includes_scan a p input :
  asciiOnly (String a p) = true →
  JsString.includes (String a p) (string_of_list_byte (Utf8.scan [] 0 0 0 input))
  = JsString.includes (String a p) (string_of_list_byte input)
  ∧ ∀ seen m lo hi,
      Forall nonAscii seen → (0x80 <= lo)%N →
      JsString.includes (String a p) (string_of_list_byte (Utf8.scan seen (S m) lo hi input))
      = JsString.includes (String a p) (string_of_list_byte input).
Proof.
  intros Hp. pose proof Hp as Hap. simpl in Hap. apply andb_true_iff in Hap as [Ha _].
  induction input as [|b rest [IH0 IH1]].
  - split; [reflexivity |]. intros seen m lo hi _ _.
    change (Utf8.scan seen (S m) lo hi []) with (Utf8.replacement ++ []).
    rewrite string_of_list_byte_app.
    exact (includes_nonAscii_run a p _ _ Ha replacement_nonAscii).
  - assert (JsString.includes (String a p)
              (string_of_list_byte (Utf8.scan [] 0 0 0 (b :: rest)))
            = JsString.includes (String a p) (string_of_list_byte (b :: rest))) as Hfresh.
    { rewrite includes_unfold, (startsWith_scan _ (b :: rest) Hp).
      rewrite (includes_unfold _ (string_of_list_byte (b :: rest))).
      destruct (JsString.startsWith _ (string_of_list_byte (b :: rest))); [reflexivity |].
      rewrite scan_unfold. cbv zeta.
      destruct (lead_cases b) as [[-> Hb] | [[-> Hb] | (m & lo & hi & -> & Hlo & Hb)]].
      - byte_cons. exact IH0.
      - change (Utf8.replacement ++ Utf8.scan [] 0 0 0 rest)
          with (xef :: [xbf; xbd] ++ Utf8.scan [] 0 0 0 rest).
        byte_cons. cbv iota. rewrite <- IH0, string_of_list_byte_app.
        exact (includes_nonAscii_run a p [xbf; xbd] _ Ha ltac:(repeat constructor)).
      - destruct (scan_head [b] m lo hi rest) as (c & out & Hout & Hc);
          [discriminate | repeat constructor; exact Hb | exact Hlo |].
        pose proof (IH1 [b] m lo hi ltac:(repeat constructor; exact Hb) Hlo) as H1.
        rewrite Hout in H1 |- *. byte_cons. cbv iota.
        rewrite (includes_nonAscii a p c _ Ha Hc) in H1. exact H1. }
    split; [exact Hfresh |].
    intros seen m lo hi Hseen Hlo. rewrite scan_unfold. cbv zeta.
    byte_cons.
    destruct (Utf8.within lo hi b) eqn:Hb.
    + pose proof (within_nonAscii lo hi b Hlo Hb) as Hnb.
      rewrite (includes_nonAscii a p b _ Ha Hnb).
      destruct m as [|m].
      * rewrite string_of_list_byte_app, (includes_nonAscii_run a p seen _ Ha Hseen).
        byte_cons. rewrite (includes_nonAscii a p b _ Ha Hnb). exact IH0.
      * apply IH1; [| discriminate].
        apply Forall_app. split; [exact Hseen | repeat constructor; exact Hnb].
    + rewrite string_of_list_byte_app,
        (includes_nonAscii_run a p _ _ Ha replacement_nonAscii).
      exact Hfresh.
Qed.

Lemma includes_decode p out :
  asciiOnly p = true → p ≠ EmptyString →
  JsString.includes p (Utf8.decode out) = JsString.includes p (string_of_list_byte out).
Proof.
  intros Hp Hne. destruct p as [|a p]; [contradiction |].
  exact (proj1 (includes_scan a p out Hp)).
Qed.

(** ** White space *)

Lemma trimStart_unfold s :
  JsString.trimStart s =
  match s with
  | EmptyString => EmptyString
  | String a r1 =>
      if JsString.isSpace a then JsString.trimStart r1
      else match r1 with
           | EmptyString => s
           | String b r2 =>
               if JsString.isSpace2 a b then JsString.trimStart r2
               else match r2 with
                    | EmptyString => s
                    | String c r3 =>
                        if JsString.isSpace3 a b c then JsString.trimStart r3 else s
                    end
           end
  end.
Proof. destruct s; reflexivity. Qed.

Lemma trimEnd_unfold s :
  JsString.trimEnd s =
  match s with
  | EmptyString => EmptyString
  | String c s' => if JsString.isBlank s then EmptyString else String c (JsString.trimEnd s')
  end.
Proof. destruct s; reflexivity. Qed.

(** Induction on a string, three characters at a time. *)
Lemma string_ind3 (P : string → Prop) :
  P EmptyString →
  (∀ a, P (String a EmptyString)) →
  (∀ a b, P (String a (String b EmptyString))) →
  (∀ a b c r, P r → P (String c r) → P (String b (String c r)) →
              P (String a (String b (String c r)))) →
  ∀ s, P s.
Proof.
  intros H0 H1 H2 H3.
  assert (∀ s, P s ∧ (∀ c, P (String c s)) ∧ (∀ b c, P (String b (String c s)))) as H.
  { induction s as [|x s (IHa & IHb & IHc)].
    - repeat split; auto.
    - repeat split; auto. }
  intros s. apply H.
Qed.

Lemma isBlank_true s : JsString.isBlank s = true ↔ JsString.trimStart s = EmptyString.
Proof. unfold JsString.isBlank. destruct (JsString.trimStart s); split; congruence. Qed.

(** A character that is white space, or that opens white space, is not a
    continuation byte. *)
Lemma isSpace_not_cont a : JsString.isSpace a = true → JsString.isCont a = false.
Proof. destruct a as [[] [] [] [] [] [] [] []]; vm_compute; congruence. Qed.

Lemma isLead2_not_cont a : JsString.isLead2 a = true → JsString.isCont a = false.
Proof. destruct a as [[] [] [] [] [] [] [] []]; vm_compute; congruence. Qed.

Lemma isLead3_not_cont a : JsString.isLead3 a = true → JsString.isCont a = false.
Proof. destruct a as [[] [] [] [] [] [] [] []]; vm_compute; congruence. Qed.

Lemma isSpace2_lead a b : JsString.isSpace2 a b = true → JsString.isCont a = false.
Proof.
  unfold JsString.isSpace2. intros H.
  apply andb_true_iff in H as [H _]. apply andb_true_iff in H as [H _].
  exact (isLead2_not_cont a H).
Qed.

Lemma isSpace3_lead a b c : JsString.isSpace3 a b c = true → JsString.isCont a = false.
Proof.
  unfold JsString.isSpace3. intros H.
  apply andb_true_iff in H as [H _]. apply andb_true_iff in H as [H _].
  apply andb_true_iff in H as [H _].
  exact (isLead3_not_cont a H).
Qed.

Lemma isSpace2_cont a b : JsString.isCont b = false → JsString.isSpace2 a b = false.
Proof.
  unfold JsString.isSpace2. intros ->.
  rewrite andb_false_r. reflexivity.
Qed.

Lemma isSpace3_cont a b c :
  JsString.isCont b = false ∨ JsString.isCont c = false → JsString.isSpace3 a b c = false.
Proof.
  unfold JsString.isSpace3. intros [-> | ->];
    rewrite ?andb_false_r; reflexivity.
Qed.

Lemma trimStart_length s :
  (String.length (JsString.trimStart s) <= String.length s)%nat.
Proof.
  induction s as [| a | a b | a b c r IH1 IH2 IH3] using string_ind3; simpl in *;
    repeat match goal with
    | |- context [if ?x then _ else _] => destruct x
    end; simpl in *; lia.
Qed.

(** White space is not left at the start. *)
Lemma trimStart_idempotent s :
  JsString.trimStart (JsString.trimStart s) = JsString.trimStart s.
Proof.
  induction s as [| a | a b | a b c r IH1 IH2 IH3] using string_ind3; simpl in *;
    repeat match goal with
    | |- context [if ?x then _ else _] => destruct x eqn:?
    end; simpl in *;
    repeat match goal with
    | E : ?x = _ |- context [if ?x then _ else _] => rewrite E
    end; auto.
Qed.

(** What follows a string does not change the white space removed at its
    start. *)
Lemma trimStart_append s t :
  JsString.trimStart (String.append s t)
  = JsString.trimStart (String.append (JsString.trimStart s) t).
Proof.
  induction s as [| a | a b | a b c r IH1 IH2 IH3] using string_ind3;
    try reflexivity.
  - simpl JsString.trimStart at 3. destruct (JsString.isSpace a) eqn:Ha; [| reflexivity].
    change (String.append (String a EmptyString) t) with (String a t).
    rewrite (trimStart_unfold (String a t)), Ha. reflexivity.
  - simpl JsString.trimStart at 3.
    change (String.append (String a (String b EmptyString)) t) with (String a (String b t)).
    destruct (JsString.isSpace a) eqn:Ha.
    + rewrite (trimStart_unfold (String a (String b t))), Ha.
      destruct (JsString.isSpace b) eqn:Hb; [| reflexivity].
      rewrite (trimStart_unfold (String b t)), Hb. reflexivity.
    + destruct (JsString.isSpace2 a b) eqn:Hab; [| reflexivity].
      rewrite (trimStart_unfold (String a (String b t))), Ha, Hab. reflexivity.
  - rewrite (trimStart_unfold (String a (String b (String c r)))).
    change (String.append (String a (String b (String c r))) t)
      with (String a (String b (String c (String.append r t)))).
    destruct (JsString.isSpace a) eqn:Ha.
    + rewrite (trimStart_unfold (String a _)), Ha. exact IH3.
    + destruct (JsString.isSpace2 a b) eqn:Hab.
      * rewrite (trimStart_unfold (String a _)), Ha, Hab. exact IH2.
      * destruct (JsString.isSpace3 a b c) eqn:Habc; [| reflexivity].
        rewrite (trimStart_unfold (String a _)), Ha, Hab, Habc. exact IH1.
Qed.

Lemma trimStart_blank pre s :
  JsString.isBlank pre = true →
  JsString.trimStart (String.append pre s) = JsString.trimStart s.
Proof.
  intros H. apply isBlank_true in H. rewrite trimStart_append, H. reflexivity.
Qed.

(** White space starts with a byte that is not a continuation byte. *)
Lemma isBlank_first b r :
  JsString.isBlank (String b r) = true → JsString.isCont b = false.
Proof.
  intros H. apply isBlank_true in H. rewrite (trimStart_unfold (String b r)) in H.
  destruct (JsString.isSpace b) eqn:Hb; [exact (isSpace_not_cont b Hb) |].
  destruct r as [|b2 r2]; [discriminate H |].
  destruct (JsString.isSpace2 b b2) eqn:Hb2; [exact (isSpace2_lead b b2 Hb2) |].
  destruct r2 as [|b3 r3]; [discriminate H |].
  destruct (JsString.isSpace3 b b2 b3) eqn:Hb3; [exact (isSpace3_lead b b2 b3 Hb3) |].
  discriminate H.
Qed.

Lemma shorter_differs (s t : string) :
  (String.length s < String.length t)%nat → s ≠ t.
Proof. intros H ->. lia. Qed.

(** White space after a string that does not start with white space does
    not make it start with white space. *)
Lemma trimStart_kept s t :
  JsString.trimStart s = s → s ≠ EmptyString → JsString.isBlank t = true →
  JsString.trimStart (String.append s t) = String.append s t.
Proof.
  intros Hs Hne Ht. destruct s as [|a r]; [contradiction |].
  assert (∀ b q, t = String b q → JsString.isCont b = false) as Hfirst
      by (intros b q ->; exact (isBlank_first b q Ht)).
  rewrite (trimStart_unfold (String a r)) in Hs.
  destruct (JsString.isSpace a) eqn:Ha.
  { exfalso. revert Hs. apply shorter_differs.
    pose proof (trimStart_length r). simpl. lia. }
  destruct r as [|b r2].
  { change (String.append (String a EmptyString) t) with (String a t).
    rewrite (trimStart_unfold (String a t)), Ha.
    destruct t as [|p1 q]; [reflexivity |].
    rewrite (isSpace2_cont a p1 (Hfirst _ _ eq_refl)).
    destruct q as [|p2 q2]; [reflexivity |].
    rewrite (isSpace3_cont a p1 p2 (or_introl (Hfirst _ _ eq_refl))). reflexivity. }
  destruct (JsString.isSpace2 a b) eqn:Hab.
  { exfalso. revert Hs. apply shorter_differs.
    pose proof (trimStart_length r2). simpl. lia. }
  destruct r2 as [|c r3].
  { change (String.append (String a (String b EmptyString)) t)
      with (String a (String b t)).
    rewrite (trimStart_unfold (String a (String b t))), Ha, Hab.
    destruct t as [|p1 q]; [reflexivity |].
    rewrite (isSpace3_cont a b p1 (or_intror (Hfirst _ _ eq_refl))). reflexivity. }
  destruct (JsString.isSpace3 a b c) eqn:Habc.
  { exfalso. revert Hs. apply shorter_differs.
    pose proof (trimStart_length r3). simpl. lia. }
  change (String.append (String a (String b (String c r3))) t)
    with (String a (String b (String c (String.append r3 t)))).
  rewrite (trimStart_unfold (String a (String b (String c _)))), Ha, Hab, Habc.
  reflexivity.
Qed.

(** A string followed by white space is white space only if it is itself. *)
Lemma isBlank_append s t :
  JsString.isBlank (String.append s t) = true → JsString.isBlank t = true →
  JsString.isBlank s = true.
Proof.
  intros Hst Ht. apply isBlank_true. apply isBlank_true in Hst.
  rewrite trimStart_append in Hst.
  destruct (JsString.trimStart s) as [|a r] eqn:Hs; [reflexivity |].
  rewrite trimStart_kept in Hst; [discriminate Hst | | discriminate | exact Ht].
  rewrite <- Hs. apply trimStart_idempotent.
Qed.

Lemma trimEnd_blank t : JsString.isBlank t = true → JsString.trimEnd t = EmptyString.
Proof. intros H. rewrite trimEnd_unfold. destruct t; [reflexivity | rewrite H; reflexivity]. Qed.

Lemma trimEnd_kept s t :
  JsString.trimEnd s = s → JsString.isBlank t = true →
  JsString.trimEnd (String.append s t) = s.
Proof.
  intros Hs Ht. induction s as [|c s IH].
  - exact (trimEnd_blank t Ht).
  - rewrite trimEnd_unfold in Hs.
    destruct (JsString.isBlank (String c s)) eqn:Hb; [discriminate Hs |].
    injection Hs as Hs.
    change (String.append (String c s) t) with (String c (String.append s t)).
    rewrite trimEnd_unfold.
    destruct (JsString.isBlank (String c (String.append s t))) eqn:Hb'.
    + pose proof (isBlank_append (String c s) t Hb' Ht). congruence.
    + rewrite (IH Hs). reflexivity.
Qed.

(** [trim] removes the white space on both sides and nothing else. *)
Lemma trim_surrounded pre core post :
  JsString.isBlank pre = true → JsString.isBlank post = true → noEdgeSpace core →
  JsString.trim (String.append pre (String.append core post)) = core.
Proof.
  intros Hpre Hpost [Hstart Hend]. unfold JsString.trim.
  rewrite (trimStart_blank pre _ Hpre).
  destruct core as [|c core].
  - change (String.append EmptyString post) with post.
    apply isBlank_true in Hpost. rewrite Hpost. reflexivity.
  - rewrite (trimStart_kept _ post Hstart ltac:(discriminate) Hpost).
    exact (trimEnd_kept _ post Hend Hpost).
Qed.

Lemma listsImage_chooseType types w :
  Linux.listsImage types = true ↔
  ∃ choice, Linux.chooseType types w = (Normal choice, w).
Proof.
  unfold Linux.listsImage, Linux.chooseType, ret, return_.
  destruct (JsString.includes "image/png" types);
    [split; [eauto | reflexivity] |].
  destruct (JsString.includes "image/jpeg" types);
    [split; [eauto | reflexivity] |].
  destruct (JsString.includes "image/gif" types);
    [split; [eauto | reflexivity] |].
  split; [discriminate | intros [choice [=]]].
Qed.

Section LinuxDetection.
Variable sys : Sys.

Lemma detection_follows_listing w b w' :
  Linux.hasClipboardImageLinux sys w = (Fulfilled b, w') →
  at_every_event
    (λ _ e post, ∀ file types, listed e file types →
                 post = [] ∧ b = Linux.listsImage types)
    [] (events_since w w')
  ∧ (b = true →
     ∃ pre e file types,
       events_since w w' = pre ++ [e] ∧ listed e file types
       ∧ Linux.listsImage types = true).
Proof.
  run_driver; intros [= <- <-]; settle_history;
    (split;
     [ simpl; split_events;
       let Ht := fresh "Ht" in
       intros ? ? (? & ? & ? & [=] & Ht & ->); subst; eval_closed_in Ht;
       first [discriminate Ht | split; reflexivity]
     | let Hb := fresh "Hb" in
       intros Hb; try discriminate Hb;
       first [ eexists [], _, _, _; split; [reflexivity|]
             | eexists [_], _, _, _; split; [reflexivity|]
             | eexists [_; _], _, _, _; split; [reflexivity|]
             | eexists [_; _; _], _, _, _; split; [reflexivity|]
             | eexists [_; _; _; _], _, _, _; split; [reflexivity|] ];
       (split; [do 3 eexists; repeat split | assumption]) ]).
Qed.

Lemma detection_reads_only_linux w r w' :
  Linux.hasClipboardImageLinux sys w = (r, w') →
  Forall (λ e, touchesFiles e = false ∧ asksForBytes e = false) (events_since w w').
Proof. run_driver; at_leaf; repeat constructor. Qed.

Lemma detection_reads_only_windows w r w' :
  Windows.hasClipboardImageWindows sys w = (r, w') →
  Forall (λ e, touchesFiles e = false ∧ asksForBytes e = false) (events_since w w').
Proof. run_driver; at_leaf; repeat constructor. Qed.

Lemma detection_xsel w b w' :
  Linux.hasClipboardImageLinux sys w = (Fulfilled b, w') →
  at_every_event
    (λ _ e post, invokes "xsel" e = true →
                 post = [] ∧ b = false
                 ∧ ∃ res, e = EvExec "xsel" ["--clipboard"; "--output"]
                                Linux.xselProbeOpts res)
    [] (events_since w w').
Proof.
  run_driver; intros [= <- <-]; settle_history; simpl; split_events;
    intros H; try discriminate H; repeat split; eauto.
Qed.

Ltac found_leaf :=
  at_leaf; simpl; split_events;
  intros tool Hinv Hne; cbv beta iota delta [invokes] in Hinv; try discriminate Hinv;
  apply String.eqb_eq in Hinv; subst tool; try congruence;
  repeat first [ apply Exists_cons_hd; reflexivity | apply Exists_cons_tl ].

Lemma detection_runs_found_tools w r w' :
  Linux.hasClipboardImageLinux sys w = (r, w') →
  at_every_event runsFoundToolsOnly [] (events_since w w').
Proof. run_driver; found_leaf. Qed.

End LinuxDetection.

Lemma at_every_event_frame Q x y pre evs :
  framed Q →
  at_every_event Q pre evs →
  at_every_event (λ p e post, Q p e (post ++ y)) (x ++ pre) evs.
Proof.
  intros HQ. revert pre. induction evs as [|e evs IH]; intros pre H; simpl in *.
  - exact I.
  - destruct H as [He H]. split; [apply HQ, He |].
    rewrite <- app_assoc. apply IH, H.
Qed.

Lemma at_every_event_blocks Q l1 l2 :
  framed Q →
  at_every_event Q [] l1 → at_every_event Q [] l2 →
  at_every_event Q [] (l1 ++ l2).
Proof.
  intros HQ H1 H2. apply at_every_event_app.
  - exact (at_every_event_frame Q [] l2 [] l1 HQ H1).
  - pose proof (at_every_event_frame Q l1 [] [] l2 HQ H2) as H.
    rewrite app_nil_r in H.
    eapply at_every_event_impl; [| exact H].
    simpl. intros p e post. rewrite app_nil_r. trivial.
Qed.

Section SaveEvery.

Variable sys : Sys.
Variable Q : list Event → Event → list Event → Prop.
Hypothesis Q_framed : framed Q.
Hypothesis Q_dir : ∀ r, Q [] (EvEnsureDir r) [].
Hypothesis Q_wl : ∀ st w c w',
  Linux.wlPasteStep sys st w = (c, w') → at_every_event Q [] (events_since w w').
Hypothesis Q_xclip : ∀ st w c w',
  Linux.xclipStep sys st w = (c, w') → at_every_event Q [] (events_since w w').
Hypothesis Q_report : ∀ w (c : Completion SaveClipboardResult SaveClipboardResult) w',
  Linux.reportNoImageData sys w = (c, w') → at_every_event Q [] (events_since w w').
Hypothesis Q_store : ∀ dir fmt data w
    (c : Completion SaveClipboardResult SaveClipboardResult) w',
  Linux.storeImage sys dir fmt data w = (c, w') →
  at_every_event Q [] (events_since w w').

Lemma saveClipboardImageLinux_every w r w' :
  Linux.saveClipboardImageLinux sys w = (r, w') →
  at_every_event Q [] (events_since w w').
Proof.
  intros Hrun.
  assert (∀ r0, at_every_event Q [] [EvEnsureDir r0]) as Hd.
  { intros r0. simpl. split; [apply Q_dir | exact I]. }
  destruct (saveClipboardImageLinux_run sys w r w' Hrun)
    as [e Hr Hev | dir w0 c1 H0 E1 Hend Hev | dir w0 st1 w1 c2 H0 E1 E2 Hend Hev
        | dir w0 st1 w1 st2 w2 c3 H0 E1 E2 E3 Hr Hev];
    rewrite Hev.
  - apply Hd.
  - apply (at_every_event_blocks Q [_]); eauto.
  - apply (at_every_event_blocks Q [_]); eauto.
    apply at_every_event_blocks; eauto.
  - apply (at_every_event_blocks Q [_]); eauto.
    apply at_every_event_blocks; eauto.
    apply at_every_event_blocks; eauto.
    destruct (Linux.imageData st2); eauto.
Qed.

End SaveEvery.

Section SaveProps.
Variable sys : Sys.

Lemma runsFoundToolsOnly_framed : framed runsFoundToolsOnly.
Proof.
  intros x y pre e post H tool Hi Hne. apply Exists_app. right. exact (H tool Hi Hne).
Qed.

Ltac found_leaf :=
  at_leaf; simpl; split_events;
  intros tool Hinv Hne; cbv beta iota delta [invokes] in Hinv; try discriminate Hinv;
  apply String.eqb_eq in Hinv; subst tool; try congruence;
  repeat first [ apply Exists_cons_hd; reflexivity | apply Exists_cons_tl ].

Lemma save_runs_found_tools w r w' :
  Linux.saveClipboardImageLinux sys w = (r, w') →
  at_every_event runsFoundToolsOnly [] (events_since w w').
Proof.
  apply saveClipboardImageLinux_every.
  - exact runsFoundToolsOnly_framed.
  - intros r0 tool Hi. discriminate Hi.
  - intros st w0 c w0'. run_driver; found_leaf.
  - intros st w0 c w0'. run_driver; found_leaf.
  - intros w0 c w0'. run_driver; found_leaf.
  - intros dir fmt data w0 c w0'. run_driver; found_leaf.
Qed.

Lemma logsFailure_framed : framed logsFailure.
Proof.
  intros x y pre e post H file args opts m He Hw Hx.
  destruct (H file args opts m He Hw Hx) as (note & post' & ->).
  exists note, (post' ++ y). reflexivity.
Qed.

Ltac logs_leaf :=
  at_leaf; simpl; split_events;
  intros ? ? ? ? [=] ? ?; subst; try congruence; do 2 eexists; reflexivity.

Lemma save_logs_failures w r w' :
  Linux.saveClipboardImageLinux sys w = (r, w') →
  at_every_event logsFailure [] (events_since w w').
Proof.
  apply saveClipboardImageLinux_every.
  - exact logsFailure_framed.
  - intros r0 ? ? ? ? [=].
  - intros st w0 c w0'. run_driver; logs_leaf.
  - intros st w0 c w0'. run_driver; logs_leaf.
  - intros w0 c w0'. run_driver; logs_leaf.
  - intros dir fmt data w0 c w0'. run_driver; logs_leaf.
Qed.

Lemma detection_logs_failures w r w' :
  Linux.hasClipboardImageLinux sys w = (r, w') →
  at_every_event logsFailure [] (events_since w w').
Proof. run_driver; logs_leaf. Qed.

Lemma save_never_runs_xsel w r w' :
  Linux.saveClipboardImageLinux sys w = (r, w') →
  at_every_event (λ _ e _, invokes "xsel" e = false) [] (events_since w w').
Proof.
  apply saveClipboardImageLinux_every.
  - intros x y pre e post H. exact H.
  - reflexivity.
  - intros st w0 c w0'. run_driver; at_leaf; simpl; split_events; reflexivity.
  - intros st w0 c w0'. run_driver; at_leaf; simpl; split_events; reflexivity.
  - intros w0 c w0'. run_driver; at_leaf; simpl; split_events; reflexivity.
  - intros dir fmt data w0 c w0'. run_driver; at_leaf; simpl; split_events; reflexivity.
Qed.

End SaveProps.

Lemma at_every_event_after (Q : Event → list Event → Prop) l1 l2 :
  Forall (λ e, ∀ post, Q e post) l1 →
  at_every_event (λ _, Q) [] l2 →
  at_every_event (λ _, Q) [] (l1 ++ l2).
Proof.
  intros H1 H2. apply at_every_event_app.
  - eapply at_every_event_impl; [| apply (at_every_event_Forall _ [] l1 H1)].
    simpl. intros _ e post H. apply H.
  - eapply at_every_event_pre, H2.
Qed.

Section IoFailure.
Variable sys : Sys.

Ltac quiet_leaf := at_leaf; repeat constructor.

Lemma wlPasteStep_quiet st w c w' :
  Linux.wlPasteStep sys st w = (c, w') →
  Forall (λ e, touchesFiles e = false) (events_since w w').
Proof. run_driver; quiet_leaf. Qed.

Lemma xclipStep_quiet st w c w' :
  Linux.xclipStep sys st w = (c, w') →
  Forall (λ e, touchesFiles e = false) (events_since w w').
Proof. run_driver; quiet_leaf. Qed.

Lemma reportNoImageData_quiet w
    (c : Completion SaveClipboardResult SaveClipboardResult) w' :
  Linux.reportNoImageData sys w = (c, w') →
  Forall (λ e, touchesFiles e = false) (events_since w w').
Proof. run_driver; quiet_leaf. Qed.

Lemma quiet_reportsIoFailure r evs :
  Forall (λ e, touchesFiles e = false) evs →
  Forall (λ e, ∀ post, reportsIoFailure r e post) evs.
Proof.
  intros H. eapply Forall_impl; [exact H |].
  intros e He post path m [[data ->] | ->]; discriminate He.
Qed.

Lemma storeImage_reportsIoFailure dir fmt data w
    (c : Completion SaveClipboardResult SaveClipboardResult) w' :
  Linux.storeImage sys dir fmt data w = (c, w') →
  at_every_event (λ _, reportsIoFailure (settled c)) [] (events_since w w').
Proof.
  run_driver; at_leaf; simpl; split_events;
    intros path m [[d [=]] | [=]]; subst; (split; [reflexivity | eexists; reflexivity]).
Qed.

Lemma saveClipboardImageLinux_reportsIoFailure w r w' :
  Linux.saveClipboardImageLinux sys w = (r, w') →
  at_every_event (λ _, reportsIoFailure r) [] (events_since w w').
Proof.
  intros Hrun.
  assert (∀ r0, Forall (λ e, ∀ post, reportsIoFailure r e post) [EvEnsureDir r0]) as Hd.
  { intros r0. constructor; [| constructor].
    intros post path m [[d [=]] | [=]]. }
  destruct (saveClipboardImageLinux_run sys w r w' Hrun)
    as [e Hr Hev | dir w0 c1 H0 E1 Hend Hev | dir w0 st1 w1 c2 H0 E1 E2 Hend Hev
        | dir w0 st1 w1 st2 w2 c3 H0 E1 E2 E3 Hr Hev];
    rewrite Hev.
  - rewrite <- (app_nil_r [_]). apply at_every_event_after; [apply Hd | exact I].
  - rewrite <- (app_nil_r (_ :: _)). apply at_every_event_after; [| exact I].
    apply (Forall_app _ [_]). split; [apply Hd |].
    eapply quiet_reportsIoFailure, wlPasteStep_quiet, E1.
  - rewrite <- (app_nil_r (_ :: _)). apply at_every_event_after; [| exact I].
    apply (Forall_app _ [_]). split; [apply Hd |].
    apply Forall_app. split.
    + eapply quiet_reportsIoFailure, wlPasteStep_quiet, E1.
    + eapply quiet_reportsIoFailure, xclipStep_quiet, E2.
  - change (EvEnsureDir (Fulfilled dir)
              :: events_since w0 w1 ++ events_since w1 w2 ++ events_since w2 w')
      with ([EvEnsureDir (Fulfilled dir)]
              ++ events_since w0 w1 ++ events_since w1 w2 ++ events_since w2 w').
    rewrite 2!app_assoc. apply at_every_event_after.
    + apply Forall_app. split; [apply Forall_app; split |]; [apply Hd | |].
      * eapply quiet_reportsIoFailure, wlPasteStep_quiet, E1.
      * eapply quiet_reportsIoFailure, xclipStep_quiet, E2.
    + subst r. destruct (Linux.imageData st2).
      * eapply storeImage_reportsIoFailure, E3.
      * rewrite <- (app_nil_r (events_since w2 w')).
        apply at_every_event_after; [| exact I].
        eapply quiet_reportsIoFailure, reportNoImageData_quiet, E3.
Qed.

End IoFailure.

Section SaveShape.
Variable sys : Sys.

(** The operations of a successful store. *)
Lemma storeImage_success dir fmt data w p w' :
  Linux.storeImage (A := SaveClipboardResult) sys dir fmt data w
  = (Return (Success p), w') →
  ∃ name,
    p = sys_pathJoin sys dir name
    ∧ events_since w w' =
        [ EvGenName fmt (Fulfilled name);
          EvWriteFile p data (Fulfilled tt);
          EvStat p (Fulfilled (length data)) ].
Proof.
  run_driver; intros [= <- <-] || intros [=]; settle_history.
  eexists. split; [reflexivity|]. simplify_map_eq. reflexivity.
Qed.

Lemma saveClipboardImageLinux_success_tail w p w' :
  Linux.saveClipboardImageLinux sys w = (Fulfilled (Success p), w') →
  ∃ pre file args data fmt name,
    events_since w w' =
      pre ++ [ EvExec file args Linux.fetchOpts (Fulfilled data);
               EvGenName fmt (Fulfilled name);
               EvWriteFile p data (Fulfilled tt);
               EvStat p (Fulfilled (length data)) ]
    ∧ Forall (λ e, touchesFiles e = false ∨ ∃ dir, e = EvEnsureDir (Fulfilled dir)) pre.
Proof.
  intros Hrun.
  destruct (saveClipboardImageLinux_run sys w _ w' Hrun)
    as [e Hr Hev | dir w0 c1 H0 E1 Hend Hev | dir w0 st1 w1 c2 H0 E1 E2 Hend Hev
        | dir w0 st1 w1 st2 w2 c3 H0 E1 E2 E3 Hr Hev].
  - discriminate Hr.
  - pose proof (wlPasteStep_completion sys _ _ _ _ E1) as Hc.
    destruct c1 as [st|x|e']; simpl in Hend; [destruct Hend | | discriminate Hend].
    injection Hend as <-. destruct Hc as [m Hm]. discriminate Hm.
  - pose proof (xclipStep_completion sys _ _ _ _ E2) as Hc.
    destruct c2 as [st|x|e']; simpl in Hend; [destruct Hend | | discriminate Hend].
    injection Hend as <-. destruct Hc as [m Hm]. discriminate Hm.
  - destruct (Linux.imageData st2) as [data|] eqn:Hdata.
    2: { destruct (reportNoImageData_completion sys _ _ _ E3) as [m ->].
         discriminate Hr. }
    pose proof (storeImage_disk sys _ _ _ _ _ _ E3) as Hdisk.
    destruct c3 as [x|[q|m]|m]; simpl in Hr;
      [destruct Hdisk | | discriminate Hr | discriminate Hr].
    injection Hr as ->.
    destruct (storeImage_success _ _ _ _ _ _ E3) as (name & Hp & Hev3).
    destruct (blocks_fetched sys _ _ _ _ _ E1 E2 data Hdata)
      as (pre & file & args & Hpre & _).
    exists (EvEnsureDir (Fulfilled dir) :: pre), file, args, data, (Linux.format st2), name.
    split.
    + rewrite Hev, app_assoc, Hpre, Hev3, <- app_assoc. reflexivity.
    + constructor; [right; eauto |].
      assert (Forall (λ e, touchesFiles e = false)
                (events_since w0 w1 ++ events_since w1 w2)) as Hq.
      { apply Forall_app. split;
          [eapply wlPasteStep_quiet, E1 | eapply xclipStep_quiet, E2]. }
      rewrite Hpre in Hq. apply Forall_app in Hq as [Hq _].
      eapply Forall_impl; [exact Hq |]. intros e He. left. exact He.
Qed.

(** The staging directory comes first. *)
Lemma saveClipboardImageLinux_dir_first w r w' :
  Linux.saveClipboardImageLinux sys w = (r, w') →
  ∃ r0 rest, events_since w w' = EvEnsureDir r0 :: rest
    ∧ ∀ m, r0 = Rejected m → rest = [] ∧ r = Rejected m.
Proof.
  intros Hrun.
  destruct (saveClipboardImageLinux_run sys w r w' Hrun)
    as [e Hr Hev | dir w0 c1 H0 E1 Hend Hev | dir w0 st1 w1 c2 H0 E1 E2 Hend Hev
        | dir w0 st1 w1 st2 w2 c3 H0 E1 E2 E3 Hr Hev];
    rewrite Hev; do 2 eexists; (split; [reflexivity|]); intros m [=].
  subst. split; reflexivity.
Qed.

Lemma saveClipboardImageWindows_dir_first w r w' :
  Windows.saveClipboardImageWindows sys w = (r, w') →
  ∃ r0 rest, events_since w w' = EvEnsureDir r0 :: rest
    ∧ ∀ m, r0 = Rejected m → rest = [] ∧ r = Rejected m.
Proof.
  run_driver; at_leaf; do 2 eexists; (split; [reflexivity|]); intros m' [=];
    subst; split; reflexivity.
Qed.

(** ** wl-paste before xclip *)

Ltac order_leaf := at_leaf; repeat constructor.

Lemma wlPasteStep_leaves_xclip st w c w' :
  Linux.wlPasteStep sys st w = (c, w') →
  Forall (λ e, touchesXclip e = false) (events_since w w').
Proof. run_driver; order_leaf. Qed.

Lemma xclipStep_leaves_wl st w c w' :
  Linux.xclipStep sys st w = (c, w') →
  Forall (λ e, invokes "wl-paste" e = false) (events_since w w').
Proof. run_driver; order_leaf. Qed.

Lemma reportNoImageData_leaves_wl w
    (c : Completion SaveClipboardResult SaveClipboardResult) w' :
  Linux.reportNoImageData sys w = (c, w') →
  Forall (λ e, invokes "wl-paste" e = false) (events_since w w').
Proof. run_driver; order_leaf. Qed.

Lemma storeImage_leaves_wl dir fmt data w
    (c : Completion SaveClipboardResult SaveClipboardResult) w' :
  Linux.storeImage sys dir fmt data w = (c, w') →
  Forall (λ e, invokes "wl-paste" e = false) (events_since w w').
Proof. run_driver; order_leaf. Qed.

(** A run is a wl-paste phase followed by a phase without wl-paste. *)
Lemma saveClipboardImageLinux_phases w r w' :
  Linux.saveClipboardImageLinux sys w = (r, w') →
  ∃ early late,
    events_since w w' = early ++ late
    ∧ Forall (λ e, touchesXclip e = false) early
    ∧ Forall (λ e, invokes "wl-paste" e = false) late.
Proof.
  intros Hrun.
  destruct (saveClipboardImageLinux_run sys w r w' Hrun)
    as [e Hr Hev | dir w0 c1 H0 E1 Hend Hev | dir w0 st1 w1 c2 H0 E1 E2 Hend Hev
        | dir w0 st1 w1 st2 w2 c3 H0 E1 E2 E3 Hr Hev];
    rewrite Hev.
  - exists [EvEnsureDir (Rejected e)], []. repeat split; repeat constructor.
  - exists (EvEnsureDir (Fulfilled dir) :: events_since w0 w'), [].
    rewrite app_nil_r. repeat split; [| constructor].
    constructor; [reflexivity | eapply wlPasteStep_leaves_xclip, E1].
  - exists (EvEnsureDir (Fulfilled dir) :: events_since w0 w1), (events_since w1 w').
    repeat split.
    + constructor; [reflexivity | eapply wlPasteStep_leaves_xclip, E1].
    + eapply xclipStep_leaves_wl, E2.
  - exists (EvEnsureDir (Fulfilled dir) :: events_since w0 w1),
      (events_since w1 w2 ++ events_since w2 w').
    repeat split.
    + constructor; [reflexivity | eapply wlPasteStep_leaves_xclip, E1].
    + apply Forall_app. split; [eapply xclipStep_leaves_wl, E2 |].
      destruct (Linux.imageData st2);
        [eapply storeImage_leaves_wl | eapply reportNoImageData_leaves_wl]; exact E3.
Qed.

Lemma phases_order (early late pre post : list Event) e :
  early ++ late = pre ++ e :: post →
  Forall (λ e, touchesXclip e = false) early →
  Forall (λ e, invokes "wl-paste" e = false) late →
  invokes "wl-paste" e = true →
  Forall (λ e, touchesXclip e = false) pre.
Proof.
  intros Heq Hearly Hlate He.
  apply app_eq_inv in Heq as [(k & -> & Hk) | (k & -> & Hk)].
  - apply Forall_app in Hearly as [Hpre _]. exact Hpre.
  - subst late. apply Forall_app in Hlate as [_ Hlate].
    apply Forall_cons in Hlate as [Hlate _]. congruence.
Qed.

End SaveShape.

Section SoftFailure.
Variable sys : Sys.

Ltac fall_leaf :=
  at_leaf; simpl; split_events;
  intros ? ? ? [=]; subst; (split; [reflexivity | eexists; split; reflexivity]).

Lemma wlPasteStep_failure st w c w' :
  Linux.wlPasteStep sys st w = (c, w') →
  at_every_event
    (λ _ e post, ∀ args opts m,
       e = EvExec "wl-paste" args opts (Rejected m) →
       post = [EvDebug "wl-paste failed, trying xclip" m]
       ∧ ∃ st', c = Normal st' ∧ Linux.imageData st' = Linux.imageData st)
    [] (events_since w w').
Proof. run_driver; fall_leaf. Qed.

Lemma xclipStep_failure st w c w' :
  Linux.xclipStep sys st w = (c, w') →
  at_every_event
    (λ _ e post, ∀ args opts m,
       e = EvExec "xclip" args opts (Rejected m) →
       post = [EvDebug "xclip failed, trying xsel" m]
       ∧ ∃ st', c = Normal st' ∧ Linux.imageData st' = None)
    [] (events_since w w').
Proof.
  destruct st as [[d|] f]; run_driver; try discriminate; fall_leaf.
Qed.

Lemma xclipStep_first st w c w' :
  Linux.imageData st = None →
  Linux.xclipStep sys st w = (c, w') →
  ∃ probe rest, events_since w w' = EvExec "which" ["xclip"] noOpts probe :: rest.
Proof.
  destruct st as [[d|] f]; [intros [=] |]. intros _.
  run_driver; try discriminate; at_leaf; do 2 eexists; reflexivity.
Qed.

Lemma reportNoImageData_first w
    (c : Completion SaveClipboardResult SaveClipboardResult) w' :
  Linux.reportNoImageData sys w = (c, w') →
  (∃ probe rest, events_since w w' = EvExec "which" ["wl-paste"] noOpts probe :: rest)
  ∧ (c = Return (Failure msg_no_image) ∨ c = Return (Failure msg_no_tool)).
Proof.
  run_driver; at_leaf; (split; [do 2 eexists; reflexivity | auto]).
Qed.

Lemma not_wl_paste_falls evs :
  Forall (λ e, invokes "wl-paste" e = false) evs →
  Forall (λ e, ∀ post, wlFailureFallsToXclip e post) evs.
Proof.
  intros H. eapply Forall_impl; [exact H |].
  intros e He post args opts m ->. discriminate He.
Qed.

Lemma saveClipboardImageLinux_wl_failure w r w' :
  Linux.saveClipboardImageLinux sys w = (r, w') →
  at_every_event (λ _, wlFailureFallsToXclip) [] (events_since w w').
Proof.
  intros Hrun.
  assert (∀ rest c1 w0 w1,
            Linux.wlPasteStep sys initialLocals w0 = (c1, w1) →
            (∀ st1, c1 = Normal st1 → Linux.imageData st1 = None →
                    ∃ probe rest', rest = EvExec "which" ["xclip"] noOpts probe :: rest') →
            at_every_event (λ _ e post, wlFailureFallsToXclip e (post ++ rest)) []
              (events_since w0 w1)) as Hwl.
  { intros rest c1 w0 w1 E1 Hrest.
    eapply at_every_event_impl; [| exact (wlPasteStep_failure _ _ _ _ E1)].
    simpl. intros _ e post H args opts m He.
    destruct (H args opts m He) as (-> & st' & -> & Hst').
    destruct (Hrest st' eq_refl Hst') as (probe & rest' & ->).
    do 2 eexists. reflexivity. }
  destruct (saveClipboardImageLinux_run sys w r w' Hrun)
    as [e Hr Hev | dir w0 c1 H0 E1 Hend Hev | dir w0 st1 w1 c2 H0 E1 E2 Hend Hev
        | dir w0 st1 w1 st2 w2 c3 H0 E1 E2 E3 Hr Hev];
    rewrite Hev.
  - simpl. split; [| exact I]. intros ? ? ? [=].
  - apply (at_every_event_after _ [_]); [constructor; [| constructor]; intros ? ? ? ? [=] |].
    rewrite <- (app_nil_r (events_since w0 w')).
    apply at_every_event_app; [| exact I].
    apply (Hwl [] c1 w0 w' E1). intros st1 ->. destruct Hend.
  - apply (at_every_event_after _ [_]); [constructor; [| constructor]; intros ? ? ? ? [=] |].
    apply at_every_event_app.
    + apply (Hwl _ _ w0 w1 E1). intros st [= <-] Hnone.
      exact (xclipStep_first _ _ _ _ Hnone E2).
    + eapply at_every_event_pre.
      rewrite <- (app_nil_r (events_since w1 w')).
      apply at_every_event_after; [| exact I].
      eapply not_wl_paste_falls, xclipStep_leaves_wl, E2.
  - apply (at_every_event_after _ [_]); [constructor; [| constructor]; intros ? ? ? ? [=] |].
    apply at_every_event_app.
    + apply (Hwl _ _ w0 w1 E1). intros st [= <-] Hnone.
      destruct (xclipStep_first _ _ _ _ Hnone E2) as (probe & rest & ->).
      do 2 eexists. reflexivity.
    + eapply at_every_event_pre.
      rewrite <- (app_nil_r (_ ++ _)).
      apply at_every_event_after; [| exact I].
      eapply not_wl_paste_falls. apply Forall_app. split.
      * eapply xclipStep_leaves_wl, E2.
      * destruct (Linux.imageData st2);
          [eapply storeImage_leaves_wl | eapply reportNoImageData_leaves_wl]; exact E3.
Qed.

Lemma reportNoImageData_leaves_xclip w
    (c : Completion SaveClipboardResult SaveClipboardResult) w' :
  Linux.reportNoImageData sys w = (c, w') →
  Forall (λ e, invokes "xclip" e = false) (events_since w w').
Proof. run_driver; at_leaf; repeat constructor. Qed.

Lemma storeImage_leaves_xclip dir fmt data w
    (c : Completion SaveClipboardResult SaveClipboardResult) w' :
  Linux.storeImage sys dir fmt data w = (c, w') →
  Forall (λ e, invokes "xclip" e = false) (events_since w w').
Proof. run_driver; at_leaf; repeat constructor. Qed.

Lemma not_xclip_ends r evs :
  Forall (λ e, invokes "xclip" e = false) evs →
  Forall (λ e, ∀ post, xclipFailureEndsSave r e post) evs.
Proof.
  intros H. eapply Forall_impl; [exact H |].
  intros e He post args opts m ->. discriminate He.
Qed.

Lemma untouched_not_run evs :
  Forall (λ e, touchesXclip e = false) evs →
  Forall (λ e, invokes "xclip" e = false) evs.
Proof.
  intros H. eapply Forall_impl; [exact H |].
  intros e He. unfold touchesXclip in He. apply orb_false_iff in He as [He _]. exact He.
Qed.

Lemma saveClipboardImageLinux_xclip_failure w r w' :
  Linux.saveClipboardImageLinux sys w = (r, w') →
  at_every_event (λ _, xclipFailureEndsSave r) [] (events_since w w').
Proof.
  intros Hrun.
  assert (∀ r0, Forall (λ e, ∀ post, xclipFailureEndsSave r e post) [EvEnsureDir r0])
    as Hd.
  { intros r0. constructor; [| constructor]. intros ? ? ? ? [=]. }
  destruct (saveClipboardImageLinux_run sys w r w' Hrun)
    as [e Hr Hev | dir w0 c1 H0 E1 Hend Hev | dir w0 st1 w1 c2 H0 E1 E2 Hend Hev
        | dir w0 st1 w1 st2 w2 c3 H0 E1 E2 E3 Hr Hev];
    rewrite Hev.
  - rewrite <- (app_nil_r [_]). apply at_every_event_after; [apply Hd | exact I].
  - rewrite <- (app_nil_r (_ :: _)). apply at_every_event_after; [| exact I].
    apply (Forall_app _ [_]). split; [apply Hd |].
    eapply not_xclip_ends, untouched_not_run, wlPasteStep_leaves_xclip, E1.
  - apply (at_every_event_after _ (_ :: _)).
    { apply (Forall_app _ [_]). split; [apply Hd |].
      eapply not_xclip_ends, untouched_not_run, wlPasteStep_leaves_xclip, E1. }
    eapply at_every_event_impl; [| exact (xclipStep_failure _ _ _ _ E2)].
    simpl. intros _ e post H args opts m He.
    destruct (H args opts m He) as (_ & st' & -> & _). destruct Hend.
  - change (EvEnsureDir (Fulfilled dir)
              :: events_since w0 w1 ++ events_since w1 w2 ++ events_since w2 w')
      with ([EvEnsureDir (Fulfilled dir)]
              ++ events_since w0 w1 ++ events_since w1 w2 ++ events_since w2 w').
    rewrite app_assoc. apply at_every_event_after.
    { apply Forall_app. split; [apply Hd |].
      eapply not_xclip_ends, untouched_not_run, wlPasteStep_leaves_xclip, E1. }
    apply at_every_event_app.
    + eapply at_every_event_impl; [| exact (xclipStep_failure _ _ _ _ E2)].
      simpl. intros _ e post H args opts m He.
      destruct (H args opts m He) as (-> & st' & [= <-] & Hnone).
      rewrite Hnone in E3.
      destruct (reportNoImageData_first _ _ _ E3) as [(probe & rest & ->) Hc].
      split; [do 2 eexists; reflexivity |].
      subst r. destruct Hc as [-> | ->]; auto.
    + eapply at_every_event_pre.
      rewrite <- (app_nil_r (events_since w2 w')).
      apply at_every_event_after; [| exact I].
      eapply not_xclip_ends.
      destruct (Linux.imageData st2);
        [eapply storeImage_leaves_xclip | eapply reportNoImageData_leaves_xclip]; exact E3.
Qed.

End SoftFailure.

Section OnlyXsel.

Variable sys : Sys.

Hypothesis wl_paste_missing :
  ∀ opts w, ∃ m, fst (sys_execFile sys "which" ["wl-paste"] opts w) = Rejected m.
Hypothesis xclip_missing :
  ∀ opts w, ∃ m, fst (sys_execFile sys "which" ["xclip"] opts w) = Rejected m.
Hypothesis xsel_installed :
  ∀ opts w, ∃ out, fst (sys_execFile sys "which" ["xsel"] opts w) = Fulfilled out.

Ltac prune :=
  match goal with
  | E : sys_execFile sys "which" ["xsel"] ?o ?W = (Rejected _, _) |- _ =>
      exfalso; destruct (xsel_installed o W) as [? Hm];
      rewrite E in Hm; discriminate Hm
  | E : sys_execFile sys "which" ["wl-paste"] ?o ?W = (Fulfilled _, _) |- _ =>
      exfalso; destruct (wl_paste_missing o W) as [? Hm];
      rewrite E in Hm; discriminate Hm
  | E : sys_execFile sys "which" ["xclip"] ?o ?W = (Fulfilled _, _) |- _ =>
      exfalso; destruct (xclip_missing o W) as [? Hm];
      rewrite E in Hm; discriminate Hm
  end.

Lemma only_xsel_detection w :
  fst (Linux.hasClipboardImageLinux sys w) = Fulfilled false.
Proof.
  unfold_driver. simpl.
  repeat (split_goal; simpl; try prune). all: reflexivity.
Qed.

Lemma only_xsel_save w dir :
  sys_ensureClipboardDir sys w = Fulfilled dir →
  fst (Linux.saveClipboardImageLinux sys w) = Fulfilled (Failure msg_no_image).
Proof.
  intros Hdir. unfold_driver. rewrite Hdir. simpl.
  repeat (split_goal; simpl; try prune). all: reflexivity.
Qed.

End OnlyXsel.

Section Agreement.
Variable sys : Sys.
Hypothesis fixed : fixedEnvironment sys.

Ltac learn_answers :=
  repeat match goal with
  | E : sys_execFile sys ?f ?a ?o ?W = (?r, _) |- _ =>
      lazymatch goal with
      | _ : ∀ w', fst (sys_execFile sys f a o w') = r |- _ => fail
      | _ => assert (∀ w', fst (sys_execFile sys f a o w') = r)
               by (intros w'; rewrite (fixed f a o w' W), E; reflexivity)
      end
  end.

Ltac replay_step :=
  match goal with
  | X : ∀ w', fst (sys_execFile sys ?f ?a ?o w') = _
    |- context [sys_execFile sys ?f ?a ?o ?W] =>
      let r := fresh "r" in
      let E := fresh "E" in
      let X' := fresh in
      destruct (sys_execFile sys f a o W) as [r ?] eqn:E;
      pose proof (X W) as X'; rewrite E in X'; simpl in X'; subst r
  end.

Ltac use_types :=
  repeat match goal with
  | E : JsString.includes ?p ?s = _ |- context [JsString.includes ?p ?s] => rewrite E
  end.

Lemma detection_false_save_fails w1 w2 p :
  fst (Linux.hasClipboardImageLinux sys w1) = Fulfilled false →
  fst (Linux.saveClipboardImageLinux sys w2) ≠ Fulfilled (Success p).
Proof.
  remember (fst (Linux.saveClipboardImageLinux sys w2)) as rhs eqn:Hrhs.
  run_driver; intros Hb; simpl in Hb; try discriminate Hb;
    try (injection Hb as Hb; unfold Linux.listsImage in Hb;
         apply orb_false_iff in Hb as [Hb Hgif];
         apply orb_false_iff in Hb as [Hpng Hjpeg]);
    learn_answers; subst rhs; simpl;
    repeat (first [replay_step | split_goal]; simpl; use_types; simpl);
    discriminate.
Qed.

End Agreement.

Section WindowsSave.
Variable sys : Sys.

Lemma saveClipboardImageWindows_shape w r w' :
  Windows.saveClipboardImageWindows sys w = (r, w') →
  (∃ m, events_since w w' = [EvEnsureDir (Rejected m)])
  ∨ (∃ dir m, events_since w w'
              = [EvEnsureDir (Fulfilled dir); EvGenName "png" (Rejected m)])
  ∨ (∃ dir name res rest,
        events_since w w'
        = EvEnsureDir (Fulfilled dir) :: EvGenName "png" (Fulfilled name)
            :: EvExec "powershell.exe" (saveCommand sys dir name) noOpts res :: rest
        ∧ Forall (followsScript (sys_pathJoin sys dir name)) rest).
Proof.
  unfold saveCommand, powershellArgs.
  run_driver; at_leaf;
    first [ left; eexists; reflexivity
          | right; left; do 2 eexists; reflexivity
          | right; right; do 4 eexists; split;
            [reflexivity | repeat constructor; reflexivity] ].
Qed.

Lemma saveClipboardImageWindows_scriptDecides w r w' :
  Windows.saveClipboardImageWindows sys w = (r, w') →
  at_every_event (scriptDecides sys r) [] (events_since w w').
Proof.
  unfold scriptDecides, scriptResult.
  run_driver; at_leaf; simpl; split_events;
    intros ? ? ? ? [=]; subst;
    repeat split; intros; try congruence; try reflexivity;
    do 3 eexists; split; reflexivity.
Qed.

Lemma saveClipboardImageWindows_fileDecides w r w' :
  Windows.saveClipboardImageWindows sys w = (r, w') →
  at_every_event (λ _, fileDecides r) [] (events_since w w').
Proof.
  unfold fileDecides.
  run_driver; at_leaf; simpl; split_events;
    intros ? ? [=]; subst;
    repeat match goal with
    | |- context [length ?c] => is_var c; destruct c; try discriminate
    end; simpl;
    first [ split; reflexivity | eexists; split; reflexivity ].
Qed.

Lemma saveClipboardImageWindows_runnerFailure w r w' :
  Windows.saveClipboardImageWindows sys w = (r, w') →
  at_every_event (runnerFailureCleansUp sys r) [] (events_since w w').
Proof.
  unfold runnerFailureCleansUp.
  run_driver; at_leaf; simpl; split_events;
    intros ? ? ? ? [=]; subst;
    (split; [reflexivity | do 2 eexists; split; reflexivity]).
Qed.

Lemma hasClipboardImageWindows_runnerFailure w r w' :
  Windows.hasClipboardImageWindows sys w = (r, w') →
  at_every_event
    (λ _ e post, ∀ file args opts m,
       e = EvExec file args opts (Rejected m) →
       r = Fulfilled false ∧ post = [EvDebug "Windows clipboard check failed" m])
    [] (events_since w w').
Proof.
  run_driver; at_leaf; simpl; split_events;
    intros ? ? ? ? [=]; subst; split; reflexivity.
Qed.

End WindowsSave.

Lemma at_every_event_to_Forall (P : Event → Prop) pre evs :
  at_every_event (λ _ e _, P e) pre evs → Forall P evs.
Proof.
  revert pre. induction evs as [|e evs IH]; intros pre H; simpl in *.
  - constructor.
  - destruct H as [He H]. constructor; [exact He | exact (IH _ H)].
Qed.

(** * Further properties, one by one *)

Section Extras.

Import Samples MoreSamples.

(** X1.  The Linux detection is decided by the first type enumeration
    that succeeds: such an enumeration is the last operation of the run
    and the answer is whether it lists image/png, image/jpeg or image/gif;
    the answer is true only through such an enumeration. *)
Theorem detection_follows_first_listing sys w b w' :
  Linux.hasClipboardImageLinux sys w = (Fulfilled b, w') →
  (∀ pre e post file types,
      events_since w w' = pre ++ e :: post → listed e file types →
      post = [] ∧ b = Linux.listsImage types)
  ∧ (b = true →
     ∃ pre e file types,
       events_since w w' = pre ++ [e] ∧ listed e file types
       ∧ Linux.listsImage types = true).
Proof.
  intros Hrun. destruct (detection_follows_listing sys w b w' Hrun) as [Hall Htrue].
  split; [| exact Htrue].
  intros pre e post file types Hev. exact (every_event _ _ Hall pre e post Hev file types).
Qed.

(** Under Wayland wl-paste lists text only: the answer is false although
    xclip offers a PNG image. *)
Lemma detection_follows_first_listing_witness :
  @nil Event = [] ∧ false = Linux.listsImage "text/plain UTF8_STRING".
Proof.
  pose (run := Linux.hasClipboardImageLinux (desktop waylandSession textOnWayland)
                 emptyWorld).
  refine (proj1 (detection_follows_first_listing
                   (desktop waylandSession textOnWayland) emptyWorld false (snd run) _)
            (take 1 (events_since emptyWorld (snd run)))
            (EvExec "wl-paste" ["--list-types"] noOpts
               (Fulfilled (bytes "text/plain UTF8_STRING")))
            [] "wl-paste" "text/plain UTF8_STRING" _ _).
  - vm_compute; reflexivity.
  - vm_compute; reflexivity.
  - exists ["--list-types"], noOpts, (bytes "text/plain UTF8_STRING").
    vm_compute. repeat split.
Defined.

(** X2.  The two detections never prepare the staging directory, never
    ask for a file name, never write, inspect or delete a file, and never
    make a call with the options of a byte fetch. *)
Theorem detection_never_touches_files sys w :
  Forall (λ e, touchesFiles e = false ∧ asksForBytes e = false)
    (events_since w (snd (Linux.hasClipboardImageLinux sys w)))
  ∧ Forall (λ e, touchesFiles e = false ∧ asksForBytes e = false)
      (events_since w (snd (Windows.hasClipboardImageWindows sys w))).
Proof.
  split.
  - eapply detection_reads_only_linux, surjective_pairing.
  - eapply detection_reads_only_windows, surjective_pairing.
Qed.

(** X3.  When the Linux detection runs xsel, it is with
    [--clipboard --output] and a buffer of 1024 bytes, as its last
    operation, and the answer is false whatever xsel delivers. *)
Theorem xsel_detects_nothing sys w b w' pre e post :
  Linux.hasClipboardImageLinux sys w = (Fulfilled b, w') →
  events_since w w' = pre ++ e :: post →
  invokes "xsel" e = true →
  post = [] ∧ b = false
  ∧ ∃ res, e = EvExec "xsel" ["--clipboard"; "--output"] Linux.xselProbeOpts res.
Proof.
  intros Hrun Hev. exact (every_event _ _ (detection_xsel sys w b w' Hrun) pre e post Hev).
Qed.

(** Only xsel is installed and it delivers the bytes of a PNG image. *)
Lemma xsel_detects_nothing_witness :
  @nil Event = [] ∧ false = false
  ∧ ∃ res, EvExec "xsel" ["--clipboard"; "--output"] Linux.xselProbeOpts
             (Fulfilled pngMagic)
           = EvExec "xsel" ["--clipboard"; "--output"] Linux.xselProbeOpts res.
Proof.
  pose (run := Linux.hasClipboardImageLinux (desktop x11Session onlyXsel) emptyWorld).
  apply (xsel_detects_nothing (desktop x11Session onlyXsel) emptyWorld false (snd run)
           (take 2 (events_since emptyWorld (snd run))));
    vm_compute; reflexivity.
Defined.

(** X4.  The Linux detection and the Linux save run an executable other
    than [which] only after [which] has found it in the same run. *)
Theorem tools_run_only_when_found sys w :
  (∀ r w' pre e post tool,
      Linux.hasClipboardImageLinux sys w = (r, w') →
      events_since w w' = pre ++ e :: post →
      invokes tool e = true → tool ≠ "which" →
      Exists (λ e', found tool e' = true) pre)
  ∧ (∀ r w' pre e post tool,
        Linux.saveClipboardImageLinux sys w = (r, w') →
        events_since w w' = pre ++ e :: post →
        invokes tool e = true → tool ≠ "which" →
        Exists (λ e', found tool e' = true) pre).
Proof.
  split; intros r w' pre e post tool Hrun Hev.
  - exact (every_event _ _ (detection_runs_found_tools sys w r w' Hrun) pre e post Hev tool).
  - exact (every_event _ _ (save_runs_found_tools sys w r w' Hrun) pre e post Hev tool).
Qed.

Lemma tools_run_only_when_found_witness :
  Exists (λ e', found "xclip" e' = true)
    (take 2 (events_since emptyWorld
               (snd (Linux.saveClipboardImageLinux (desktop x11Session textOnWayland)
                       emptyWorld)))).
Proof.
  pose (run := Linux.saveClipboardImageLinux (desktop x11Session textOnWayland)
                 emptyWorld).
  apply (proj2 (tools_run_only_when_found (desktop x11Session textOnWayland) emptyWorld)
           (fst run) (snd run) (take 2 (events_since emptyWorld (snd run)))
           (EvExec "xclip" Linux.xclipTargets noOpts
              (Fulfilled (bytes "TARGETS image/png text/html")))
           (drop 3 (events_since emptyWorld (snd run))) "xclip").
  - vm_compute; reflexivity.
  - vm_compute; reflexivity.
  - reflexivity.
  - discriminate.
Defined.

(** X5.  In the Linux detection and in the Linux save, every failed run
    of wl-paste or xclip is followed at once by a debug entry that carries
    the message of the failure. *)
Theorem failed_runs_are_logged sys w :
  (∀ r w' pre e post,
      Linux.hasClipboardImageLinux sys w = (r, w') →
      events_since w w' = pre ++ e :: post → logsFailure pre e post)
  ∧ (∀ r w' pre e post,
        Linux.saveClipboardImageLinux sys w = (r, w') →
        events_since w w' = pre ++ e :: post → logsFailure pre e post).
Proof.
  split; intros r w' pre e post Hrun Hev.
  - exact (every_event _ _ (detection_logs_failures sys w r w' Hrun) pre e post Hev).
  - exact (every_event _ _ (save_logs_failures sys w r w' Hrun) pre e post Hev).
Qed.

Lemma failed_runs_are_logged_witness :
  ∃ note post',
    drop 2 (events_since emptyWorld
              (snd (Linux.hasClipboardImageLinux (desktop x11Session brokenXclip)
                      emptyWorld)))
    = EvDebug note "Error: Can't open display: (null)" :: post'.
Proof.
  pose (run := Linux.hasClipboardImageLinux (desktop x11Session brokenXclip) emptyWorld).
  refine (proj1 (failed_runs_are_logged (desktop x11Session brokenXclip) emptyWorld)
            (fst run) (snd run) (take 1 (events_since emptyWorld (snd run)))
            (EvExec "xclip" Linux.xclipTargets noOpts
               (Rejected "Error: Can't open display: (null)"))
            (drop 2 (events_since emptyWorld (snd run))) _ _
            "xclip" Linux.xclipTargets noOpts "Error: Can't open display: (null)"
            eq_refl _ _).
  - vm_compute; reflexivity.
  - vm_compute; reflexivity.
  - discriminate.
  - discriminate.
Defined.

(** X6.  The Linux save never runs xsel: it only asks [which] for it. *)
Theorem save_never_invokes_xsel sys w :
  Forall (λ e, invokes "xsel" e = false)
    (events_since w (snd (Linux.saveClipboardImageLinux sys w))).
Proof.
  eapply at_every_event_to_Forall, save_never_runs_xsel, surjective_pairing.
Qed.

(** X7.  On a machine where xsel is the only tool installed, the Linux
    detection answers false and, once the staging directory is there, the
    Linux save fails with "No image found in clipboard.", not with the
    message about missing tools. *)
Theorem only_xsel_means_no_image sys w dir :
  (∀ opts w1, ∃ m, fst (sys_execFile sys "which" ["wl-paste"] opts w1) = Rejected m) →
  (∀ opts w1, ∃ m, fst (sys_execFile sys "which" ["xclip"] opts w1) = Rejected m) →
  (∀ opts w1, ∃ out, fst (sys_execFile sys "which" ["xsel"] opts w1) = Fulfilled out) →
  sys_ensureClipboardDir sys w = Fulfilled dir →
  fst (Linux.hasClipboardImageLinux sys w) = Fulfilled false
  ∧ fst (Linux.saveClipboardImageLinux sys w) = Fulfilled (Failure msg_no_image).
Proof.
  intros Hwl Hxclip Hxsel Hdir. split.
  - exact (only_xsel_detection sys Hwl Hxclip Hxsel w).
  - exact (only_xsel_save sys Hwl Hxclip Hxsel w dir Hdir).
Qed.

Lemma only_xsel_means_no_image_witness :
  fst (Linux.hasClipboardImageLinux (desktop x11Session onlyXsel) emptyWorld)
  = Fulfilled false
  ∧ fst (Linux.saveClipboardImageLinux (desktop x11Session onlyXsel) emptyWorld)
    = Fulfilled (Failure msg_no_image).
Proof.
  apply (only_xsel_means_no_image (desktop x11Session onlyXsel) emptyWorld
           "/tmp/kilocode-clipboard").
  - intros opts w1. eexists. reflexivity.
  - intros opts w1. eexists. reflexivity.
  - intros opts w1. eexists. reflexivity.
  - reflexivity.
Defined.

(** X8.  In the Linux save a failed run of wl-paste, the enumeration or
    the fetch, is logged as "wl-paste failed, trying xclip" and the next
    operation is the probe [which xclip]. *)
Theorem wl_paste_failure_falls_to_xclip sys w r w' pre e post :
  Linux.saveClipboardImageLinux sys w = (r, w') →
  events_since w w' = pre ++ e :: post →
  wlFailureFallsToXclip e post.
Proof.
  intros Hrun Hev.
  exact (every_event _ _ (saveClipboardImageLinux_wl_failure sys w r w' Hrun)
           pre e post Hev).
Qed.

Lemma wl_paste_failure_falls_to_xclip_witness :
  ∃ probe post',
    drop 3 (events_since emptyWorld
              (snd (Linux.saveClipboardImageLinux (desktop waylandSession brokenWayland)
                      emptyWorld)))
    = EvDebug "wl-paste failed, trying xclip" "Command failed: wl-paste --list-types"
        :: EvExec "which" ["xclip"] noOpts probe :: post'.
Proof.
  pose (run := Linux.saveClipboardImageLinux (desktop waylandSession brokenWayland)
                 emptyWorld).
  refine (wl_paste_failure_falls_to_xclip
            (desktop waylandSession brokenWayland) emptyWorld (fst run) (snd run)
            (take 2 (events_since emptyWorld (snd run)))
            (EvExec "wl-paste" ["--list-types"] noOpts
               (Rejected "Command failed: wl-paste --list-types"))
            (drop 3 (events_since emptyWorld (snd run))) _ _
            ["--list-types"] noOpts "Command failed: wl-paste --list-types" eq_refl).
  - vm_compute; reflexivity.
  - vm_compute; reflexivity.
Defined.

(** X9.  In the Linux save a failed run of xclip, the enumeration or the
    fetch, is logged as "xclip failed, trying xsel"; the next operation is
    the probe [which wl-paste] of the final tool check, and the save fails
    with "No image found in clipboard." or with the message about missing
    tools. *)
Theorem xclip_failure_ends_save sys w r w' pre e post :
  Linux.saveClipboardImageLinux sys w = (r, w') →
  events_since w w' = pre ++ e :: post →
  xclipFailureEndsSave r e post.
Proof.
  intros Hrun Hev.
  exact (every_event _ _ (saveClipboardImageLinux_xclip_failure sys w r w' Hrun)
           pre e post Hev).
Qed.

Lemma xclip_failure_ends_save_witness :
  fst (Linux.saveClipboardImageLinux (desktop x11Session brokenXclip) emptyWorld)
  = Fulfilled (Failure msg_no_image)
  ∨ fst (Linux.saveClipboardImageLinux (desktop x11Session brokenXclip) emptyWorld)
    = Fulfilled (Failure msg_no_tool).
Proof.
  pose (run := Linux.saveClipboardImageLinux (desktop x11Session brokenXclip) emptyWorld).
  refine (proj2 (xclip_failure_ends_save
                   (desktop x11Session brokenXclip) emptyWorld (fst run) (snd run)
                   (take 2 (events_since emptyWorld (snd run)))
                   (EvExec "xclip" Linux.xclipTargets noOpts
                      (Rejected "Error: Can't open display: (null)"))
                   (drop 3 (events_since emptyWorld (snd run))) _ _
                   Linux.xclipTargets noOpts "Error: Can't open display: (null)"
                   eq_refl)).
  - vm_compute; reflexivity.
  - vm_compute; reflexivity.
Defined.

(** X10.  In the Linux save the backends are tried in order and never
    again: when wl-paste is run, xclip has been neither probed nor run
    before in that run. *)
Theorem wl_paste_runs_before_xclip sys w r w' pre e post :
  Linux.saveClipboardImageLinux sys w = (r, w') →
  events_since w w' = pre ++ e :: post →
  invokes "wl-paste" e = true →
  Forall (λ e', touchesXclip e' = false) pre.
Proof.
  intros Hrun Hev He.
  destruct (saveClipboardImageLinux_phases sys w r w' Hrun)
    as (early & late & Hsplit & Hearly & Hlate).
  rewrite Hsplit in Hev.
  exact (phases_order early late pre post e Hev Hearly Hlate He).
Qed.

Lemma wl_paste_runs_before_xclip_witness :
  Forall (λ e', touchesXclip e' = false)
    (take 3 (events_since emptyWorld
               (snd (Linux.saveClipboardImageLinux (desktop waylandSession emptyOnWayland)
                       emptyWorld)))).
Proof.
  pose (run := Linux.saveClipboardImageLinux (desktop waylandSession emptyOnWayland)
                 emptyWorld).
  apply (wl_paste_runs_before_xclip
           (desktop waylandSession emptyOnWayland) emptyWorld (fst run) (snd run)
           (take 3 (events_since emptyWorld (snd run)))
           (EvExec "wl-paste" ["--type"; "image/png"] Linux.fetchOpts (Fulfilled []))
           []);
    vm_compute; reflexivity.
Defined.

(** X11.  In the Linux save a write or an inspection of the file that
    fails is followed by one attempt to delete the file, which ends the
    run, and the result is the failure with the message of the write or of
    the inspection, whatever the deletion does. *)
Theorem io_failure_is_reported sys w r w' pre e post :
  Linux.saveClipboardImageLinux sys w = (r, w') →
  events_since w w' = pre ++ e :: post →
  reportsIoFailure r e post.
Proof.
  intros Hrun Hev.
  exact (every_event _ _ (saveClipboardImageLinux_reportsIoFailure sys w r w' Hrun)
           pre e post Hev).
Qed.

Lemma io_failure_is_reported_witness :
  fst (Linux.saveClipboardImageLinux failingDisk emptyWorld)
  = Fulfilled (Failure "EIO: i/o error, write")
  ∧ ∃ u, drop 6 (events_since emptyWorld
                   (snd (Linux.saveClipboardImageLinux failingDisk emptyWorld)))
         = [EvUnlink linuxPath u].
Proof.
  pose (run := Linux.saveClipboardImageLinux failingDisk emptyWorld).
  refine (io_failure_is_reported failingDisk emptyWorld (fst run) (snd run)
            (take 5 (events_since emptyWorld (snd run)))
            (EvWriteFile linuxPath pngMagic (Rejected "EIO: i/o error, write"))
            (drop 6 (events_since emptyWorld (snd run))) _ _
            linuxPath "EIO: i/o error, write" (or_introl (ex_intro _ pngMagic eq_refl))).
  - vm_compute; reflexivity.
  - vm_compute; reflexivity.
Defined.

(** X12.  A successful Linux save ends with four operations: the fetch
    that delivered the bytes, the request of a file name, one write of
    exactly those bytes to the returned path, and one inspection that
    reports their length; before them no file is touched beyond the
    staging directory, and nothing is deleted. *)
Theorem successful_save_operations sys w p w' :
  Linux.saveClipboardImageLinux sys w = (Fulfilled (Success p), w') →
  ∃ pre file args data fmt name,
    events_since w w' =
      pre ++ [ EvExec file args Linux.fetchOpts (Fulfilled data);
               EvGenName fmt (Fulfilled name);
               EvWriteFile p data (Fulfilled tt);
               EvStat p (Fulfilled (length data)) ]
    ∧ Forall (λ e, touchesFiles e = false ∨ ∃ dir, e = EvEnsureDir (Fulfilled dir)) pre.
Proof. exact (saveClipboardImageLinux_success_tail sys w p w'). Qed.

Lemma successful_save_operations_witness :
  ∃ pre file args data fmt name,
    events_since emptyWorld
      (snd (Linux.saveClipboardImageLinux (desktop x11Session textOnWayland) emptyWorld))
    = pre ++ [ EvExec file args Linux.fetchOpts (Fulfilled data);
               EvGenName fmt (Fulfilled name);
               EvWriteFile "/tmp/kilocode-clipboard/clipboard-1700000000000-ab12cd.png"
                 data (Fulfilled tt);
               EvStat "/tmp/kilocode-clipboard/clipboard-1700000000000-ab12cd.png"
                 (Fulfilled (length data)) ]
    ∧ Forall (λ e, touchesFiles e = false ∨ ∃ dir, e = EvEnsureDir (Fulfilled dir)) pre.
Proof.
  apply (successful_save_operations (desktop x11Session textOnWayland) emptyWorld).
  vm_compute; reflexivity.
Defined.

(** X13.  Both saves prepare the staging directory before anything else,
    and when that fails nothing else is done: no tool is probed or run and
    the failure is the outcome of the save. *)
Theorem directory_comes_first sys w :
  (∃ r0 rest,
      events_since w (snd (Linux.saveClipboardImageLinux sys w)) = EvEnsureDir r0 :: rest
      ∧ ∀ m, r0 = Rejected m →
             rest = [] ∧ fst (Linux.saveClipboardImageLinux sys w) = Rejected m)
  ∧ (∃ r0 rest,
        events_since w (snd (Windows.saveClipboardImageWindows sys w))
        = EvEnsureDir r0 :: rest
        ∧ ∀ m, r0 = Rejected m →
               rest = [] ∧ fst (Windows.saveClipboardImageWindows sys w) = Rejected m).
Proof.
  split.
  - eapply saveClipboardImageLinux_dir_first, surjective_pairing.
  - eapply saveClipboardImageWindows_dir_first, surjective_pairing.
Qed.

(** X14.  A Windows save that gets its directory and its file name, asked
    for the format png, runs PowerShell exactly once, with the script that
    saves to the joined path with every backslash doubled; every operation
    after that call is an inspection or a deletion of the file at the
    joined path, or an entry in the log. *)
Theorem windows_save_runs_powershell_once sys w :
  let evs := events_since w (snd (Windows.saveClipboardImageWindows sys w)) in
  (∃ m, evs = [EvEnsureDir (Rejected m)])
  ∨ (∃ dir m, evs = [EvEnsureDir (Fulfilled dir); EvGenName "png" (Rejected m)])
  ∨ (∃ dir name res rest,
        evs = EvEnsureDir (Fulfilled dir) :: EvGenName "png" (Fulfilled name)
                :: EvExec "powershell.exe" (saveCommand sys dir name) noOpts res :: rest
        ∧ Forall (followsScript (sys_pathJoin sys dir name)) rest).
Proof. eapply saveClipboardImageWindows_shape, surjective_pairing. Qed.

(** X15.  In the Windows save, when the output of the script, decoded and
    trimmed, is exactly NO_IMAGE the result is "No image found in
    clipboard."; when it starts with ERROR: the result is the failure
    with the text after the first seven code units, trimmed; in both cases
    no file is inspected or deleted.  Any other output, SUCCESS or not,
    leads to the inspection of the output file. *)
Theorem windows_script_decides sys w r w' pre e post :
  Windows.saveClipboardImageWindows sys w = (r, w') →
  events_since w w' = pre ++ e :: post →
  scriptDecides sys r pre e post.
Proof.
  intros Hrun Hev.
  exact (every_event _ _ (saveClipboardImageWindows_scriptDecides sys w r w' Hrun)
           pre e post Hev).
Qed.

(** The script prints a byte order mark and an ERROR line with a byte
    that is not UTF-8: the message has U+FFFD in its place. *)
Lemma windows_script_decides_witness :
  fst (Windows.saveClipboardImageWindows
         (windows (Fulfilled (byteOrderMark ++ bytes "ERROR: Acc" ++ [xe8]
                                ++ bytes (String.append "s refus" crlf)))
                  None) emptyWorld)
  = Fulfilled (Failure (string_of_list_byte
                          (bytes "Acc" ++ Utf8.replacement ++ bytes "s refus")))
  ∧ @nil Event = [].
Proof.
  pose (out := byteOrderMark ++ bytes "ERROR: Acc" ++ [xe8]
                 ++ bytes (String.append "s refus" crlf)).
  pose (sys := windows (Fulfilled out) None).
  pose (run := Windows.saveClipboardImageWindows sys emptyWorld).
  refine (proj1 (proj2 (windows_script_decides sys emptyWorld (fst run) (snd run)
                          (take 2 (events_since emptyWorld (snd run)))
                          (EvExec "powershell.exe"
                             (saveCommand sys "C:\Temp\kilocode-clipboard"
                                "clipboard-1.png")
                             noOpts (Fulfilled out))
                          [] _ _ _ _ _ _ eq_refl)) _ _).
  - vm_compute; reflexivity.
  - vm_compute; reflexivity.
  - vm_compute; reflexivity.
  - vm_compute; reflexivity.
Defined.

(** X16.  In the Windows save the inspection of the file decides: when it
    fails the result is "Image file was not created."; when it reports
    size zero the file is deleted and the result is "Failed to write image
    data to file.", or "Image file was not created." when the deletion
    fails; when it reports a positive size the result is the success with
    the inspected path. *)
Theorem windows_file_decides sys w r w' pre e post :
  Windows.saveClipboardImageWindows sys w = (r, w') →
  events_since w w' = pre ++ e :: post →
  fileDecides r e post.
Proof.
  intros Hrun Hev.
  exact (every_event _ _ (saveClipboardImageWindows_fileDecides sys w r w' Hrun)
           pre e post Hev).
Qed.

Lemma windows_file_decides_witness :
  fst (Windows.saveClipboardImageWindows
         (windows (Fulfilled (bytes "SUCCESS")) (Some pngMagic)) emptyWorld)
  = Fulfilled (Success windowsPath)
  ∧ @nil Event = [].
Proof.
  pose (sys := windows (Fulfilled (bytes "SUCCESS")) (Some pngMagic)).
  pose (run := Windows.saveClipboardImageWindows sys emptyWorld).
  refine (windows_file_decides sys emptyWorld (fst run) (snd run)
            (take 3 (events_since emptyWorld (snd run)))
            (EvStat windowsPath (Fulfilled 4)) [] _ _ windowsPath (Fulfilled 4) eq_refl).
  - vm_compute; reflexivity.
  - vm_compute; reflexivity.
Defined.

(** X17.  When the PowerShell invocation itself fails, the Windows save
    tries once to delete the output file, logs "Windows clipboard save
    failed" with the message and returns the failure with that message;
    the Windows detection logs "Windows clipboard check failed" with the
    message and answers false. *)
Theorem windows_runner_failure_is_logged sys w :
  (∀ r w' pre e post,
      Windows.saveClipboardImageWindows sys w = (r, w') →
      events_since w w' = pre ++ e :: post →
      runnerFailureCleansUp sys r pre e post)
  ∧ (∀ r w' pre e post file args opts m,
        Windows.hasClipboardImageWindows sys w = (r, w') →
        events_since w w' = pre ++ e :: post →
        e = EvExec file args opts (Rejected m) →
        r = Fulfilled false ∧ post = [EvDebug "Windows clipboard check failed" m]).
Proof.
  split.
  - intros r w' pre e post Hrun Hev.
    exact (every_event _ _ (saveClipboardImageWindows_runnerFailure sys w r w' Hrun)
             pre e post Hev).
  - intros r w' pre e post file args opts m Hrun Hev.
    exact (every_event _ _ (hasClipboardImageWindows_runnerFailure sys w r w' Hrun)
             pre e post Hev file args opts m).
Qed.

(** powershell.exe cannot be started. *)
Lemma windows_runner_failure_is_logged_witness :
  (let sys := windows (notFound "powershell.exe") None in
   let run := Windows.saveClipboardImageWindows sys emptyWorld in
   fst run = Fulfilled (Failure "spawn powershell.exe ENOENT")
   ∧ ∃ path u,
       generatedPath sys (take 2 (events_since emptyWorld (snd run))) = Some path
       ∧ drop 3 (events_since emptyWorld (snd run))
         = [EvUnlink path u;
            EvDebug "Windows clipboard save failed" "spawn powershell.exe ENOENT"])
  ∧ fst (Windows.hasClipboardImageWindows (windows (notFound "powershell.exe") None)
           emptyWorld)
    = Fulfilled false
  ∧ drop 1 (events_since emptyWorld
              (snd (Windows.hasClipboardImageWindows
                      (windows (notFound "powershell.exe") None) emptyWorld)))
    = [EvDebug "Windows clipboard check failed" "spawn powershell.exe ENOENT"].
Proof.
  pose (sys := windows (notFound "powershell.exe") None).
  split.
  - pose (run := Windows.saveClipboardImageWindows sys emptyWorld).
    refine (proj1 (windows_runner_failure_is_logged sys emptyWorld)
              (fst run) (snd run)
              (take 2 (events_since emptyWorld (snd run)))
              (EvExec "powershell.exe"
                 (saveCommand sys "C:\Temp\kilocode-clipboard" "clipboard-1.png") noOpts
                 (Rejected "spawn powershell.exe ENOENT"))
              (drop 3 (events_since emptyWorld (snd run)))
              _ _ _ _ _ _ eq_refl).
    + vm_compute; reflexivity.
    + vm_compute; reflexivity.
  - pose (run := Windows.hasClipboardImageWindows sys emptyWorld).
    refine (proj2 (windows_runner_failure_is_logged sys emptyWorld)
              (fst run) (snd run) []
              (EvExec "powershell.exe" (powershellArgs Windows.containsImageScript) noOpts
                 (Rejected "spawn powershell.exe ENOENT"))
              (drop 1 (events_since emptyWorld (snd run)))
              _ _ _ _ _ _ eq_refl).
    + vm_compute; reflexivity.
    + vm_compute; reflexivity.
Defined.

(** X18.  In a fixed environment the Linux detection and the Linux save
    agree in one direction: when the detection answers false, the save
    does not succeed; so a save that succeeds is one the detection
    announces. *)
Theorem detection_false_means_no_save sys w1 w2 p :
  fixedEnvironment sys →
  fst (Linux.hasClipboardImageLinux sys w1) = Fulfilled false →
  fst (Linux.saveClipboardImageLinux sys w2) ≠ Fulfilled (Success p).
Proof. intros Hfixed. exact (detection_false_save_fails sys Hfixed w1 w2 p). Qed.

Lemma detection_false_means_no_save_witness :
  fst (Linux.saveClipboardImageLinux (desktop waylandSession textOnWayland) emptyWorld)
  ≠ Fulfilled (Success "/tmp/kilocode-clipboard/clipboard-1700000000000-ab12cd.png").
Proof.
  apply (detection_false_means_no_save (desktop waylandSession textOnWayland)
           emptyWorld emptyWorld).
  - unfold fixedEnvironment. simpl. reflexivity.
  - vm_compute; reflexivity.
Defined.

(** X19.  The test of the detection on a listing is a substring test: it
    holds exactly when the listing contains image/png, image/jpeg or
    image/gif somewhere.  The save negotiates a type on exactly the
    listings that the detection accepts. *)
Theorem detection_and_save_accept_same_listings types :
  (Linux.listsImage types = true ↔
   ∃ mime pre post,
     mime ∈ ["image/png"; "image/jpeg"; "image/gif"]
     ∧ types = String.append pre (String.append mime post))
  ∧ (∀ w, Linux.listsImage types = true ↔
          ∃ choice, Linux.chooseType types w = (Normal choice, w)).
Proof.
  split; [| intros w; apply listsImage_chooseType].
  unfold Linux.listsImage. rewrite !orb_true_iff, !includes_substring. split.
  - intros [[(pre & post & H) | (pre & post & H)] | (pre & post & H)];
      eexists _, pre, post; (split; [| exact H]);
      rewrite !elem_of_cons; auto.
  - intros (mime & pre & post & Hin & H).
    rewrite !elem_of_cons, elem_of_nil in Hin.
    destruct Hin as [-> | [-> | [-> | []]]]; eauto.
Qed.

(** X20.  [runPowerShell] hands back the standard output, decoded, without
    the white space around it, the white space being that of ECMAScript
    (a byte order mark and a no-break space are white space), and it does
    not catch a failure of the invocation: the failure is its outcome. *)
Theorem runPowerShell_trims sys script w :
  (∀ out d pre core post,
      sys_execFile sys "powershell.exe" (powershellArgs script) noOpts w
      = (Fulfilled out, d) →
      Utf8.decode out = String.append pre (String.append core post) →
      JsString.isBlank pre = true → JsString.isBlank post = true →
      noEdgeSpace core →
      fst (Windows.runPowerShell sys script w) = Fulfilled core)
  ∧ (∀ m d,
        sys_execFile sys "powershell.exe" (powershellArgs script) noOpts w
        = (Rejected m, d) →
        fst (Windows.runPowerShell sys script w) = Rejected m).
Proof.
  unfold powershellArgs. split.
  - intros out d pre core post Hexec Htext Hpre Hpost Hcore.
    unfold_driver. rewrite Hexec. simpl. rewrite Htext.
    rewrite (trim_surrounded pre core post Hpre Hpost Hcore). reflexivity.
  - intros m d Hexec. unfold_driver. rewrite Hexec. reflexivity.
Qed.

(** A byte order mark and a no-break space before [True], a line end and
    a line separator after it. *)
Lemma runPowerShell_trims_witness :
  fst (Windows.runPowerShell
         (windows (Fulfilled (byteOrderMark ++ [xc2; xa0] ++ bytes (String.append "True" crlf)
                                ++ [xe2; x80; xa8]))
                  None)
         Windows.containsImageScript emptyWorld)
  = Fulfilled "True".
Proof.
  pose (out := byteOrderMark ++ [xc2; xa0] ++ bytes (String.append "True" crlf)
                 ++ [xe2; x80; xa8]).
  apply (proj1 (runPowerShell_trims (windows (Fulfilled out) None)
                  Windows.containsImageScript emptyWorld)
           out ∅
           (string_of_list_byte (byteOrderMark ++ [xc2; xa0]))
           "True"
           (string_of_list_byte (bytes crlf ++ [xe2; x80; xa8]))).
  - reflexivity.
  - vm_compute; reflexivity.
  - vm_compute; reflexivity.
  - vm_compute; reflexivity.
  - split; vm_compute; reflexivity.
Defined.

(** X21.  Reading the standard output of a tool as UTF-8 text changes no
    test for an ASCII text: [stdout.includes(p)], for a text [p] that is
    ASCII and not empty, comes out on the decoded string as on the bytes
    that the tool printed.  So do the tests of the Linux drivers for
    image/png, image/jpeg and image/gif, and the choice of the type. *)
Theorem decoding_keeps_type_tests out :
  (∀ p, asciiOnly p = true → p ≠ EmptyString →
        JsString.includes p (Utf8.decode out)
        = JsString.includes p (string_of_list_byte out))
  ∧ Linux.listsImage (Utf8.decode out) = Linux.listsImage (string_of_list_byte out)
  ∧ firstSupported (Utf8.decode out) = firstSupported (string_of_list_byte out).
Proof.
  assert (∀ p, asciiOnly p = true → p ≠ EmptyString →
               JsString.includes p (Utf8.decode out)
               = JsString.includes p (string_of_list_byte out)) as H
      by (intros p Hp Hne; exact (includes_decode p out Hp Hne)).
  split; [exact H |]. split.
  - unfold Linux.listsImage. rewrite !H by (reflexivity || discriminate). reflexivity.
  - unfold firstSupported, formatPriority. simpl.
    rewrite !H by (reflexivity || discriminate). reflexivity.
Qed.

(** A listing with a byte that is not UTF-8 in it. *)
Lemma decoding_keeps_type_tests_witness :
  JsString.includes "image/png"
    (Utf8.decode (bytes "TARGETS" ++ [xff] ++ bytes "image/png"))
  = JsString.includes "image/png"
      (string_of_list_byte (bytes "TARGETS" ++ [xff] ++ bytes "image/png")).
Proof.
  apply (proj1 (decoding_keeps_type_tests
                  (bytes "TARGETS" ++ [xff] ++ bytes "image/png"))).
  - reflexivity.
  - discriminate.
Defined.

End Extras.
